(** * Contract revision validation (package [rhp], file [rhp/contracts.go])

    A shallow embedding of the validators and constructors of
    [rhp/contracts.go] together with the part of [go.sia.tech/core/types]
    they rely on, followed by the properties of the validators.

    Conventions of the embedding:
    - a Go [uint64] is an [N] below [2^64]; its addition wraps;
    - a [types.Currency] (a 128-bit unsigned integer, two [uint64] limbs) is
      an [N] below [2^128]; [Add] and [Sub] abort the program (Go [panic])
      when the result leaves the range, [SubWithUnderflow] wraps and reports
      the borrow;
    - a 32-byte array ([types.Hash256], [types.Address]) is the 256-bit
      number it spells; the Go zero value is [0];
    - a Go function returning [error] or [(T, error)] returns a [result]:
      [Ok] for a nil error, [Err] for a returned error, [Panic] when the
      run-time aborts (index out of range, currency overflow or underflow). *)

From Stdlib Require Import NArith Arith List Bool Lia.
From Stdlib Require Import ZArith.
Import ListNotations.
Local Open Scope N_scope.

(** ** Results of Go calls *)

(** Run-time aborts the embedded code can reach. *)
Inductive panic : Type :=
| IndexOutOfRange (i len : nat)   (* slice index i with length len *)
| Overflow                        (* types.Currency.Add *)
| Underflow.                      (* types.Currency.Sub *)

(** The errors returned by the functions of [rhp/contracts.go], one
    constructor per message; the argument of an indexed constructor is the
    output index printed in the message. *)
Inductive error : Type :=
(* validateStdRevision *)
| ErrValidAddressChanged (i : nat)   (* valid proof output %v address should not change *)
| ErrMissedAddressChanged (i : nat)  (* missed proof output %v address should not change *)
| ErrValidSumChanged                 (* valid proof output sum must not change *)
| ErrMissedSumChanged                (* missed proof output sum must not change *)
| ErrUnlockHashChanged               (* unlock hash must not change *)
| ErrUnlockConditionsChanged         (* unlock conditions must not change *)
| ErrRevisionNumberNotIncreased      (* revision number must increase *)
| ErrWindowStartChanged              (* window start must not change *)
| ErrWindowEndChanged                (* window end must not change *)
| ErrValidOutputsChanged             (* valid proof outputs must not change *)
| ErrMissedOutputsChanged            (* missed proof outputs must not change *)
| ErrRenterValidIncreased            (* renter valid proof output must not increase *)
| ErrRenterMissedIncreased           (* renter missed proof output must not increase *)
| ErrRenterPayoutsUnequal            (* renter payouts must be equal *)
(* Revise *)
| ErrIncorrectNumberOfOutputs        (* incorrect number of outputs *)
| ErrRevisionNumberNotGreater (n : N)(* revision number must be greater than %v *)
(* ValidateContractFormation, ValidateContractRenewal *)
| ErrInitialFilesize                 (* initial filesize should be 0 *)
| ErrInitialRevisionNumber           (* initial revision number should be 0 *)
| ErrInitialMerkleRoot               (* initial Merkle root should be empty *)
| ErrEndsTooSoon                     (* contract ends too soon to safely submit the contract transaction *)
| ErrDurationTooLong                 (* contract duration is too long *)
| ErrWindowTooSmall                  (* proof window is too small *)
| ErrWrongValidCount                 (* wrong number of valid proof outputs *)
| ErrWrongMissedCount                (* wrong number of missed proof outputs *)
| ErrWrongHostValidAddress           (* wrong address for host valid output *)
| ErrWrongHostMissedAddress          (* wrong address for host missed output *)
| ErrWrongVoidAddress                (* wrong address for void output *)
| ErrVoidValueNonZero                (* void output should have value 0 *)
| ErrHostValidTooSmall               (* host valid payout is too small *)
| ErrHostOutputsUnequal              (* host valid and missed outputs must be equal *)
| ErrExcessiveInitialCollateral      (* excessive initial collateral *)
| ErrIncorrectUnlockHash             (* incorrect unlock hash *)
| ErrRenewalRevisionNumber           (* revision number must be zero *)
| ErrRenewalFilesize                 (* filesize must not change *)
| ErrRenewalMerkleRoot               (* file Merkle root must not change *)
| ErrRenewalWindowEnd                (* renewal window must not end before current window *)
| ErrWrongHostAddress                (* wrong address for host output *)
| ErrHostValidBelowMissed            (* host valid payout must be greater than host missed payout *)
| ErrExcessiveHostBurn               (* excessive host burn: expected at most %d got %d *)
| ErrRiskedNotToVoid                 (* risked collateral must be sent to void output *)
| ErrValidBelowBaseCost              (* valid host output must be more than base storage cost *)
| ErrCollateralExceedsMax            (* collateral exceeds maximum: expected at most %d got %d *)
(* ValidateClearingRevision *)
| ErrFilesizeNotZero                 (* filesize must be 0 *)
| ErrMerkleRootNotEmpty              (* file merkle root must be empty *)
| ErrWrongNumberOfOutputs            (* wrong number of proof outputs *)
| ErrRevisionNumberNotMax            (* revision number must be max value *)
| ErrClearValidValue (i : nat)       (* valid proof output value %v must not change *)
| ErrClearValidAddress (i : nat)     (* valid proof output address %v must not change *)
| ErrClearMissedValue (i : nat)      (* missed proof output %v must equal valid proof output *)
| ErrClearMissedAddress (i : nat)    (* missed proof output address %v must equal valid proof output *)
(* ValidateRevision, ValidateProgramRevision, ValidatePaymentRevision *)
| ErrRenterValidBelowPayment         (* renter valid proof output must be greater than the payment amount *)
| ErrRenterMissedBelowPayment        (* renter missed proof output must be greater than the payment amount *)
| ErrHostMissedBelowCollateral       (* host missed proof output must be greater than the collateral amount *)
| ErrRenterValidMustDecrease         (* renter valid payout must decrease *)
| ErrHostValidMustIncrease           (* host valid payout must increase *)
| ErrHostMissedMustDecrease          (* host missed payout must decrease *)
| ErrTransferMismatch                (* expected %d to be transferred to host, got %d *)
| ErrInsufficientTransfer            (* insufficient host transfer: expected at least %d, got %d *)
| ErrExcessiveCollateral             (* excessive collateral transfer: expected at most %d, got %d *)
| ErrBurnTooLarge                    (* host expected to burn at most %d, but burned %d *)
| ErrVoidMustIncrease                (* void output value must increase *)
| ErrBurnMismatch                    (* host burn value %d should match void burn value %d *)
| ErrRenterValidChanged              (* renter valid proof output must not change *)
| ErrHostValidChanged                (* host valid proof output must not change *)
| ErrRenterMissedChanged             (* renter missed proof output must not change *)
| ErrRenterValidNotReduced           (* renter valid proof output is not reduced by the payment amount *)
| ErrRenterMissedNotReduced          (* renter missed proof output is not reduced by the payment amount *)
| ErrHostValidNotIncreased           (* host valid proof output is not increased by the payment amount *)
| ErrHostMissedNotIncreased.         (* host missed proof output is not increased by the payment amount *)

Inductive result (A : Type) : Type :=
| Ok (a : A)
| Err (e : error)
| Panic (p : panic).
Arguments Ok {A} a.
Arguments Err {A} e.
Arguments Panic {A} p.

Definition bind {A B : Type} (m : result A) (k : A -> result B) : result B :=
  match m with
  | Ok a => k a
  | Err e => Err e
  | Panic p => Panic p
  end.

Notation "x <- m ;; k" := (bind m (fun x => k))
  (at level 61, m at next level, right associativity).
Notation "m ;; k" := (bind m (fun _ => k))
  (at level 61, right associativity).

(** [case cond: return err] of a Go [switch], or [if cond { return err }]. *)
Definition failIf (cond : bool) (e : error) : result unit :=
  if cond then Err e else Ok tt.

(** [s[i]] on a slice. *)
Definition index {A : Type} (s : list A) (i : nat) : result A :=
  match nth_error s i with
  | Some a => Ok a
  | None => Panic (IndexOutOfRange i (length s))
  end.

(** ** go.sia.tech/core/types

    The types and methods of the module [contracts.go] imports, as far as
    it uses them.  The module is a dependency of the repository; the
    definitions follow its documented behaviour. *)

Module types.

Definition uint64 : Type := N.
Definition MaxUint64 : uint64 := 2 ^ 64 - 1.
(** [a + b] on [uint64]. *)
Definition add64 (a b : uint64) : uint64 := (a + b) mod 2 ^ 64.

Definition Hash256 : Type := N.
Definition Address : Type := N.
Definition VoidAddress : Address := 0.
Definition MaxRevisionNumber : uint64 := MaxUint64.

(** *** Currency

    [Currency{Lo, Hi uint64}] is the number [Hi * 2^64 + Lo].
    [AddWithOverflow] returns the sum modulo [2^128] and the carry,
    [SubWithUnderflow] the difference modulo [2^128] and the borrow. *)
Definition Currency : Type := N.
Definition ZeroCurrency : Currency := 0.
Definition CurrencyRange : N := 2 ^ 128.

Definition AddWithOverflow (c v : Currency) : Currency * bool :=
  ((c + v) mod CurrencyRange, CurrencyRange <=? c + v).

Definition SubWithUnderflow (c v : Currency) : Currency * bool :=
  ((c + CurrencyRange - v) mod CurrencyRange, c <? v).

(** [Add] returns [c+v]; if the result would overflow, [Add] panics. *)
Definition Add (c v : Currency) : result Currency :=
  let (s, overflow) := AddWithOverflow c v in
  if overflow then Panic Overflow else Ok s.

(** [Sub] returns [c-v]; if the result would underflow, [Sub] panics. *)
Definition Sub (c v : Currency) : result Currency :=
  let (s, underflow) := SubWithUnderflow c v in
  if underflow then Panic Underflow else Ok s.

(** [c.Cmp(v) > 0], [c.Cmp(v) < 0], [c.Cmp(v) != 0], [c.Equals(v)]. *)
Definition CmpGt (c v : Currency) : bool := v <? c.
Definition CmpLt (c v : Currency) : bool := c <? v.
Definition CmpNe (c v : Currency) : bool := negb (c =? v).
Definition Equals (c v : Currency) : bool := c =? v.

Record UnlockKey : Type := mkUnlockKey {
  Algorithm : N;
  Key : list Byte.byte
}.

Record UnlockConditions : Type := mkUnlockConditions {
  Timelock : uint64;
  PublicKeys : list UnlockKey;
  SignaturesRequired : uint64
}.

Record SiacoinOutput : Type := mkSiacoinOutput {
  Value : Currency;
  OutputAddress : Address               (* field Address *)
}.

Record FileContract : Type := mkFileContract {
  Filesize : uint64;
  FileMerkleRoot : Hash256;
  WindowStart : uint64;
  WindowEnd : uint64;
  Payout : Currency;
  ValidProofOutputs : list SiacoinOutput;
  MissedProofOutputs : list SiacoinOutput;
  UnlockHash : Hash256;
  RevisionNumber : uint64
}.

(** The revision embeds the contract: its fields are read through the
    coercion, as Go promotes them. *)
Record FileContractRevision : Type := mkFileContractRevision {
  ParentID : Hash256;
  UnlockConditionsOf : UnlockConditions;  (* field UnlockConditions *)
  FileContractOf :> FileContract          (* embedded FileContract *)
}.

(** Accessors of [FileContract]; each indexes the slice and so aborts on
    a slice that is too short. *)
Definition ValidRenterOutput (fc : FileContract) := index (ValidProofOutputs fc) 0.
Definition ValidRenterPayout (fc : FileContract) :=
  o <- ValidRenterOutput fc ;; Ok (Value o).
Definition MissedRenterOutput (fc : FileContract) := index (MissedProofOutputs fc) 0.
Definition MissedRenterPayout (fc : FileContract) :=
  o <- MissedRenterOutput fc ;; Ok (Value o).
Definition ValidHostOutput (fc : FileContract) := index (ValidProofOutputs fc) 1.
Definition ValidHostPayout (fc : FileContract) :=
  o <- ValidHostOutput fc ;; Ok (Value o).
Definition MissedHostOutput (fc : FileContract) := index (MissedProofOutputs fc) 1.
Definition MissedHostPayout (fc : FileContract) :=
  o <- MissedHostOutput fc ;; Ok (Value o).

End types.
Import types.

(** ** go.sia.tech/core/rhp/v2: the settings the validators read *)

Module rhpv2.
Record HostSettings : Type := mkHostSettings {
  Address : types.Address;
  ContractPrice : Currency;
  MaxCollateral : Currency;
  WindowSize : uint64;
  MaxDuration : uint64
}.
End rhpv2.

(** ** rhp/contracts.go *)

Definition contractUnlockConditions (hostKey renterKey : UnlockKey) : UnlockConditions :=
  {| Timelock := 0;
     PublicKeys := [renterKey; hostKey];
     SignaturesRequired := 2 |}.

(** ** Sample data

    The contract of the scenarios of the specification and the inputs the
    concrete statements below are evaluated on. *)

Module Samples.

Definition renterAddress : Address := 1.
Definition hostAddress : Address := 2.
Definition otherAddress : Address := 3.

Definition renterKey : UnlockKey := {| Algorithm := 1; Key := [] |}.
Definition hostKey : UnlockKey := {| Algorithm := 2; Key := [] |}.

(** A stand-in for the Merkle hash of unlock conditions. *)
Definition unlockHash (uc : UnlockConditions) : Hash256 :=
  N.of_nat (length (PublicKeys uc)) + 16 * SignaturesRequired uc + 256 * Timelock uc.

Definition output (v : Currency) (a : Address) : SiacoinOutput :=
  {| Value := v; OutputAddress := a |}.

(** A revision of the sample contract (window 100 to 200, no data). *)
Definition revision (n : uint64) (valid missed : list SiacoinOutput)
  : FileContractRevision :=
  {| ParentID := 0;
     UnlockConditionsOf := contractUnlockConditions hostKey renterKey;
     FileContractOf :=
       {| Filesize := 0; FileMerkleRoot := 0; WindowStart := 100; WindowEnd := 200;
          Payout := 0;
          ValidProofOutputs := valid;
          MissedProofOutputs := missed;
          UnlockHash := unlockHash (contractUnlockConditions hostKey renterKey);
          RevisionNumber := n |} |}.

(** The current revision of scenarios 3 to 7. *)
Definition current : FileContractRevision :=
  revision 1
    [output 100 renterAddress; output 50 hostAddress]
    [output 100 renterAddress; output 50 hostAddress; output 0 VoidAddress].

(** Scenario 3: a payment of 10. *)
Definition paid : FileContractRevision :=
  revision 2
    [output 90 renterAddress; output 60 hostAddress]
    [output 90 renterAddress; output 60 hostAddress; output 0 VoidAddress].

(** Scenario 5: a burn of 5. *)
Definition burnt : FileContractRevision :=
  revision 2
    [output 100 renterAddress; output 50 hostAddress]
    [output 100 renterAddress; output 45 hostAddress; output 5 VoidAddress].

(** Scenario 7: the clearing revision of [current]. *)
Definition cleared : FileContractRevision :=
  revision MaxRevisionNumber
    [output 100 renterAddress; output 50 hostAddress]
    [output 100 renterAddress; output 50 hostAddress].

(** A contract with two missed outputs only, and a successor of it. *)
Definition twoMissed (n : uint64) : FileContractRevision :=
  revision n
    [output 100 renterAddress; output 50 hostAddress]
    [output 100 renterAddress; output 50 hostAddress].

(** A revision that is already locked, and the same contract cleared. *)
Definition locked : FileContractRevision := twoMissed MaxRevisionNumber.

(** A current revision whose valid values sum past the currency range. *)
Definition overflowing : FileContractRevision :=
  revision 1
    [output (2 ^ 128 - 1) renterAddress; output 1 hostAddress]
    [output (2 ^ 128 - 1) renterAddress; output 1 hostAddress; output 0 VoidAddress].

(** A successor of [current] whose valid values sum past the range. *)
Definition overflowingSuccessor : FileContractRevision :=
  revision 2
    [output (2 ^ 128 - 1) renterAddress; output 1 hostAddress]
    [output 90 renterAddress; output 60 hostAddress; output 0 VoidAddress].

(** A current revision whose void output already holds 7 although its
    valid outputs sum to 150, and a payment of 10 that empties the void. *)
Definition unbalanced : FileContractRevision :=
  revision 1
    [output 100 renterAddress; output 50 hostAddress]
    [output 100 renterAddress; output 50 hostAddress; output 7 VoidAddress].

(** A current revision with a fourth missed output, and a payment of 10
    that moves the 10 of the void output to the fourth output. *)
Definition fourMissed : FileContractRevision :=
  revision 1
    [output 100 renterAddress; output 50 hostAddress]
    [output 100 renterAddress; output 40 hostAddress; output 10 VoidAddress;
     output 0 otherAddress].
Definition fourMissedPaid : FileContractRevision :=
  revision 2
    [output 90 renterAddress; output 60 hostAddress]
    [output 90 renterAddress; output 50 hostAddress; output 0 VoidAddress;
     output 10 otherAddress].

(** Successors of [current] with one valid output more than [current]. *)
Definition longer : FileContractRevision :=
  revision 2
    [output 90 renterAddress; output 60 hostAddress; output 0 otherAddress]
    [output 90 renterAddress; output 60 hostAddress; output 0 VoidAddress].
Definition longerCleared : FileContractRevision :=
  revision MaxRevisionNumber
    [output 100 renterAddress; output 50 hostAddress; output 0 otherAddress]
    [output 100 renterAddress; output 50 hostAddress; output 0 otherAddress].

(** Settings of the formation scenario, and the same with the largest
    [MaxDuration]. *)
Definition settings : rhpv2.HostSettings :=
  {| rhpv2.Address := hostAddress; rhpv2.ContractPrice := 10;
     rhpv2.MaxCollateral := 100; rhpv2.WindowSize := 10; rhpv2.MaxDuration := 200 |}.
Definition settingsUnlimited : rhpv2.HostSettings :=
  {| rhpv2.Address := hostAddress; rhpv2.ContractPrice := 10;
     rhpv2.MaxCollateral := 100; rhpv2.WindowSize := 10;
     rhpv2.MaxDuration := MaxUint64 |}.

(** The contract of the formation scenario. *)
Definition formed : FileContract :=
  revision 0
    [output 60 renterAddress; output 50 hostAddress]
    [output 60 renterAddress; output 50 hostAddress; output 0 VoidAddress].

(** A renewal of [current] that burns 5 and pays the host's missed output
    to an address that is not the host's. *)
Definition renewal : FileContract :=
  revision 0
    [output 60 renterAddress; output 50 hostAddress]
    [output 60 renterAddress; output 45 otherAddress; output 5 VoidAddress].

(** A revision whose missed values do not sum to its valid values. *)
Definition lopsided : FileContractRevision :=
  revision 1
    [output 100 renterAddress; output 50 hostAddress]
    [output 100 renterAddress; output 50 hostAddress; output 5 VoidAddress].

(** Scenario 2: the contract of the formation scenario with window start 5. *)
Definition formedTooSoon : FileContract :=
  {| Filesize := 0; FileMerkleRoot := 0; WindowStart := 5; WindowEnd := 200;
     Payout := 0;
     ValidProofOutputs := ValidProofOutputs formed;
     MissedProofOutputs := MissedProofOutputs formed;
     UnlockHash := UnlockHash formed;
     RevisionNumber := 0 |}.

(** Scenario 4: the payment of scenario 3 with 70 for the host. *)
Definition overpaid : FileContractRevision :=
  revision 2
    [output 90 renterAddress; output 70 hostAddress]
    [output 90 renterAddress; output 60 hostAddress; output 0 VoidAddress].

(** Scenario 6: a burn of 10. *)
Definition burntTooMuch : FileContractRevision :=
  revision 2
    [output 100 renterAddress; output 50 hostAddress]
    [output 100 renterAddress; output 40 hostAddress; output 10 VoidAddress].

End Samples.

(** More revisions of the sample contract. *)

Module Cases.

(** A second payment of 10, after [Samples.paid]. *)
Definition paidTwice : FileContractRevision :=
  Samples.revision 3
    [Samples.output 80 Samples.renterAddress; Samples.output 70 Samples.hostAddress]
    [Samples.output 80 Samples.renterAddress; Samples.output 70 Samples.hostAddress;
     Samples.output 0 VoidAddress].

(** A successor of [Samples.current] with the host's valid output removed. *)
Definition shorter : FileContractRevision :=
  Samples.revision 2
    [Samples.output 150 Samples.renterAddress]
    [Samples.output 100 Samples.renterAddress; Samples.output 50 Samples.hostAddress;
     Samples.output 0 VoidAddress].

(** A transfer of 10 to the host's valid output with a burn of 5. *)
Definition transferred : FileContractRevision :=
  Samples.revision 2
    [Samples.output 90 Samples.renterAddress; Samples.output 60 Samples.hostAddress]
    [Samples.output 90 Samples.renterAddress; Samples.output 45 Samples.hostAddress;
     Samples.output 15 VoidAddress].

(** A contract with a third valid output, at revision [n]. *)
Definition threeValid (n : uint64) : FileContractRevision :=
  Samples.revision n
    [Samples.output 100 Samples.renterAddress; Samples.output 50 Samples.hostAddress;
     Samples.output 0 Samples.otherAddress]
    [Samples.output 100 Samples.renterAddress; Samples.output 50 Samples.hostAddress;
     Samples.output 0 VoidAddress].

(** [Samples.current] with the host's missed output at another address. *)
Definition diverted : FileContractRevision :=
  Samples.revision 1
    [Samples.output 100 Samples.renterAddress; Samples.output 50 Samples.hostAddress]
    [Samples.output 100 Samples.renterAddress; Samples.output 50 Samples.otherAddress;
     Samples.output 0 VoidAddress].

(** [Samples.current] with 10 of the renter's missed output in the void. *)
Definition renterShort : FileContractRevision :=
  Samples.revision 1
    [Samples.output 100 Samples.renterAddress; Samples.output 50 Samples.hostAddress]
    [Samples.output 90 Samples.renterAddress; Samples.output 50 Samples.hostAddress;
     Samples.output 10 VoidAddress].

End Cases.

(** ** The storage volume (package [storage])

    The volume of the storage manager: sector reads and writes on a flat
    file, with read/write counters and a bounded list of recent errors.
    The file is reached through the [volumeData] interface, whose methods
    are a parameter of the model; each returns the file after the call.
    The mutex guards the statistics only: one call is modelled as one step
    on the volume. *)

Module storage.

(** [const sectorSize = 1 << 22] *)
Definition sectorSize : N := 2 ^ 22.

(** [a * b] on [uint64], and the conversion [int64(x)]. *)
Definition mul64 (a b : uint64) : uint64 := (a * b) mod 2 ^ 64.
Definition int64 (x : uint64) : BinNums.Z :=
  if x <? 2 ^ 63 then Z.of_N x else (Z.of_N x - 2 ^ 64)%Z.

(** [int64(index*sectorSize)], the offset of sector [index]. *)
Definition sectorOffset (index : uint64) : BinNums.Z := int64 (mul64 index sectorSize).

(** The interface [volumeData], over the file [D] and the errors [E] of
    its implementation.  [ReadAt] is given the length of the buffer and
    returns the bytes it read; the other results of the Go methods (byte
    counts) are not used by the volume. *)
Module volumeData.
Class ops (E D : Type) : Type := {
  ReadAt : D -> N -> BinNums.Z -> D * list Byte.byte * option E;
  WriteAt : D -> list Byte.byte -> BinNums.Z -> D * option E;
  Sync : D -> D * option E;
  Truncate : D -> BinNums.Z -> D * option E;
  Close : D -> D * option E
}.
End volumeData.

(** The errors the volume records, each wrapping the error of the file. *)
Inductive statError (E : Type) : Type :=
| ReadFailed (index : uint64) (err : E)    (* failed to read sector at index %v: %w *)
| WriteFailed (index : uint64) (err : E)   (* failed to write sector to index %v: %w *)
| SyncFailed (err : E).                    (* failed to sync volume: %w *)
Arguments ReadFailed {E} index err.
Arguments WriteFailed {E} index err.
Arguments SyncFailed {E} err.

Record VolumeStats (E : Type) : Type := mkVolumeStats {
  Available : bool;
  FailedReads : uint64;
  FailedWrites : uint64;
  SuccessfulReads : uint64;
  SuccessfulWrites : uint64;
  Errors : list (statError E)
}.
Arguments mkVolumeStats {E}.
Arguments Available {E}.
Arguments FailedReads {E}.
Arguments FailedWrites {E}.
Arguments SuccessfulReads {E}.
Arguments SuccessfulWrites {E}.
Arguments Errors {E}.

Record volume (E D : Type) : Type := mkVolume {
  data : D;
  stats : VolumeStats E;
  busy : bool
}.
Arguments mkVolume {E D}.
Arguments data {E D}.
Arguments stats {E D}.
Arguments busy {E D}.

(** [Errors = append(Errors, e); if len(Errors) > 100 { Errors =
    Errors[len(Errors)-100:] }] *)
Definition appendError {E : Type} (errors : list (statError E)) (e : statError E)
  : list (statError E) :=
  let errors' := errors ++ [e] in
  if (100 <? length errors')%nat then skipn (length errors' - 100) errors' else errors'.

(** The buffer [make([]byte, n)] after [ReadAt] read [got] into it. *)
Definition filled (n : N) (got : list Byte.byte) : list Byte.byte :=
  firstn (N.to_nat n) got ++ repeat Byte.x00 (N.to_nat n - length got).

Section Volume.
Context {E D : Type} {file : volumeData.ops E D}.

Definition ReadSector (v : volume E D) (index : uint64)
  : volume E D * (list Byte.byte * option E) :=
  let '(d, got, err) := volumeData.ReadAt (data v) sectorSize (sectorOffset index) in
  let s := stats v in
  let s' :=
    match err with
    | Some e =>
        {| Available := Available s;
           FailedReads := add64 (FailedReads s) 1;
           FailedWrites := FailedWrites s;
           SuccessfulReads := SuccessfulReads s;
           SuccessfulWrites := SuccessfulWrites s;
           Errors := appendError (Errors s) (ReadFailed index e) |}
    | None =>
        {| Available := Available s;
           FailedReads := FailedReads s;
           FailedWrites := FailedWrites s;
           SuccessfulReads := add64 (SuccessfulReads s) 1;
           SuccessfulWrites := SuccessfulWrites s;
           Errors := Errors s |}
    end in
  ({| data := d; stats := s'; busy := busy v |}, (filled sectorSize got, err)).

Definition WriteSector (v : volume E D) (bytes : list Byte.byte) (index : uint64)
  : volume E D * option E :=
  let '(d, err) := volumeData.WriteAt (data v) bytes (sectorOffset index) in
  let s := stats v in
  let s' :=
    match err with
    | Some e =>
        {| Available := Available s;
           FailedReads := FailedReads s;
           FailedWrites := add64 (FailedWrites s) 1;
           SuccessfulReads := SuccessfulReads s;
           SuccessfulWrites := SuccessfulWrites s;
           Errors := appendError (Errors s) (WriteFailed index e) |}
    | None =>
        {| Available := Available s;
           FailedReads := FailedReads s;
           FailedWrites := FailedWrites s;
           SuccessfulReads := SuccessfulReads s;
           SuccessfulWrites := add64 (SuccessfulWrites s) 1;
           Errors := Errors s |}
    end in
  ({| data := d; stats := s'; busy := busy v |}, err).

Definition Sync (v : volume E D) : volume E D * option E :=
  let '(d, err) := volumeData.Sync (data v) in
  let s := stats v in
  let s' :=
    match err with
    | Some e =>
        {| Available := Available s;
           FailedReads := FailedReads s;
           FailedWrites := FailedWrites s;
           SuccessfulReads := SuccessfulReads s;
           SuccessfulWrites := SuccessfulWrites s;
           Errors := appendError (Errors s) (SyncFailed e) |}
    | None => s
    end in
  ({| data := d; stats := s'; busy := busy v |}, err).

Definition Resize (v : volume E D) (sectors : uint64) : volume E D * option E :=
  let '(d, err) := volumeData.Truncate (data v) (int64 (mul64 sectors sectorSize)) in
  ({| data := d; stats := stats v; busy := busy v |}, err).

Definition Close (v : volume E D) : volume E D * option E :=
  let '(d, err) := volumeData.Close (data v) in
  ({| data := d; stats := stats v; busy := busy v |}, err).

(** A call of one of the methods that keep statistics, and a sequence of
    calls run on a volume. *)
Inductive call : Type :=
| CallRead (index : uint64)
| CallWrite (bytes : list Byte.byte) (index : uint64)
| CallSync.

Definition after (v : volume E D) (c : call) : volume E D :=
  match c with
  | CallRead index => fst (ReadSector v index)
  | CallWrite bytes index => fst (WriteSector v bytes index)
  | CallSync => fst (Sync v)
  end.

Definition run (v : volume E D) (calls : list call) : volume E D :=
  fold_left after calls v.

Definition isRead (c : call) : bool :=
  match c with CallRead _ => true | _ => false end.
Definition isWrite (c : call) : bool :=
  match c with CallWrite _ _ => true | _ => false end.

(** The four counters of the statistics: failed reads, failed writes,
    successful reads, successful writes. *)
Definition counters (s : VolumeStats E) : uint64 * uint64 * uint64 * uint64 :=
  (FailedReads s, FailedWrites s, SuccessfulReads s, SuccessfulWrites s).

End Volume.

(** A file of the sample data: every read and every sync fails with its
    offset, every write succeeds. *)
#[global] Instance failingFile : volumeData.ops BinNums.Z unit := {|
  volumeData.ReadAt := fun d _ off => (d, [], Some off);
  volumeData.WriteAt := fun d _ _ => (d, None);
  volumeData.Sync := fun d => (d, Some 0%Z);
  volumeData.Truncate := fun d _ => (d, None);
  volumeData.Close := fun d => (d, None)
|}.

Definition emptyVolume : volume BinNums.Z unit :=
  {| data := tt;
     stats := {| Available := true; FailedReads := 0; FailedWrites := 0;
                 SuccessfulReads := 0; SuccessfulWrites := 0; Errors := [] |};
     busy := false |}.

End storage.

Section Contracts.

(** [UnlockConditions.UnlockHash()]: the Merkle hash of the conditions. *)
Variable UnlockHashOf : UnlockConditions -> Hash256.

(** [for _, o := range outputs { total = total.Add(o.Value) }] *)
Fixpoint sumOutputs (outputs : list SiacoinOutput) (total : Currency) : result Currency :=
  match outputs with
  | [] => Ok total
  | o :: rest => total' <- Add total (Value o) ;; sumOutputs rest total'
  end.

(** The second and third loops of [validateStdRevision]: from index [i]
    on, with [outputs] the rest of the revision's slice, compare the
    address with [current[i]] and add the value to [total]. *)
Fixpoint sumSameAddress (mkErr : nat -> error) (current : list SiacoinOutput)
         (i : nat) (outputs : list SiacoinOutput) (total : Currency) : result Currency :=
  match outputs with
  | [] => Ok total
  | o :: rest =>
      c <- index current i ;;
      failIf (negb (OutputAddress o =? OutputAddress c)) (mkErr i) ;;
      total' <- Add total (Value o) ;;
      sumSameAddress mkErr current (S i) rest total'
  end.

Definition validateStdRevision (current revision : FileContractRevision) : result unit :=
  oldPayout <- sumOutputs (ValidProofOutputs current) ZeroCurrency ;;
  validPayout <- sumSameAddress ErrValidAddressChanged (ValidProofOutputs current) 0
                   (ValidProofOutputs revision) ZeroCurrency ;;
  missedPayout <- sumSameAddress ErrMissedAddressChanged (MissedProofOutputs current) 0
                    (MissedProofOutputs revision) ZeroCurrency ;;
  failIf (negb (Equals validPayout oldPayout)) ErrValidSumChanged ;;
  failIf (negb (Equals missedPayout oldPayout)) ErrMissedSumChanged ;;
  failIf (negb (UnlockHash revision =? UnlockHash current)) ErrUnlockHashChanged ;;
  failIf (negb (UnlockHashOf (UnlockConditionsOf revision)
                =? UnlockHashOf (UnlockConditionsOf current)))
         ErrUnlockConditionsChanged ;;
  failIf (RevisionNumber revision <=? RevisionNumber current) ErrRevisionNumberNotIncreased ;;
  failIf (negb (WindowStart revision =? WindowStart current)) ErrWindowStartChanged ;;
  failIf (negb (WindowEnd revision =? WindowEnd current)) ErrWindowEndChanged ;;
  failIf (negb (Nat.eqb (length (ValidProofOutputs revision))
                        (length (ValidProofOutputs current))))
         ErrValidOutputsChanged ;;
  failIf (negb (Nat.eqb (length (MissedProofOutputs revision))
                        (length (MissedProofOutputs current))))
         ErrMissedOutputsChanged ;;
  rv <- ValidRenterPayout revision ;;
  cv <- ValidRenterPayout current ;;
  failIf (CmpGt rv cv) ErrRenterValidIncreased ;;
  rm <- MissedRenterPayout revision ;;
  cm <- MissedRenterPayout current ;;
  failIf (CmpGt rm cm) ErrRenterMissedIncreased ;;
  rv' <- ValidRenterPayout revision ;;
  rm' <- MissedRenterPayout revision ;;
  failIf (negb (Equals rv' rm')) ErrRenterPayoutsUnequal ;;
  Ok tt.

(** [Revise]: the loops that fill the fresh output slices, from index
    [i] on, with [values] the rest of the value slice. *)
Fixpoint reviseOutputs (old : list SiacoinOutput) (i : nat) (values : list Currency)
  : result (list SiacoinOutput) :=
  match values with
  | [] => Ok []
  | v :: rest =>
      o <- index old i ;;
      outs <- reviseOutputs old (S i) rest ;;
      Ok ({| Value := v; OutputAddress := OutputAddress o |} :: outs)
  end.

Definition Revise (revision : FileContractRevision) (revisionNumber : uint64)
           (validOutputs missedOutputs : list Currency) : result FileContractRevision :=
  failIf (negb (Nat.eqb (length validOutputs) (length (ValidProofOutputs revision)))
          || negb (Nat.eqb (length missedOutputs) (length (MissedProofOutputs revision))))
         ErrIncorrectNumberOfOutputs ;;
  failIf (revisionNumber <=? RevisionNumber revision)
         (ErrRevisionNumberNotGreater (RevisionNumber revision)) ;;
  let oldValid := ValidProofOutputs revision in
  let oldMissed := MissedProofOutputs revision in
  newValid <- reviseOutputs oldValid 0 validOutputs ;;
  newMissed <- reviseOutputs oldMissed 0 missedOutputs ;;
  Ok {| ParentID := ParentID revision;
        UnlockConditionsOf := UnlockConditionsOf revision;
        FileContractOf :=
          {| Filesize := Filesize revision;
             FileMerkleRoot := FileMerkleRoot revision;
             WindowStart := WindowStart revision;
             WindowEnd := WindowEnd revision;
             Payout := Payout revision;
             ValidProofOutputs := newValid;
             MissedProofOutputs := newMissed;
             UnlockHash := UnlockHash revision;
             RevisionNumber := revisionNumber |} |}.

Definition ValidateContractFormation (fc : FileContract) (hostKey renterKey : UnlockKey)
           (currentHeight : uint64) (settings : rhpv2.HostSettings) : result Currency :=
  failIf (negb (Filesize fc =? 0)) ErrInitialFilesize ;;
  failIf (negb (RevisionNumber fc =? 0)) ErrInitialRevisionNumber ;;
  failIf (negb (FileMerkleRoot fc =? 0)) ErrInitialMerkleRoot ;;
  failIf (WindowStart fc <? add64 currentHeight (rhpv2.WindowSize settings)) ErrEndsTooSoon ;;
  failIf (add64 currentHeight (rhpv2.MaxDuration settings) <? WindowStart fc)
         ErrDurationTooLong ;;
  failIf (WindowEnd fc <? add64 (WindowStart fc) (rhpv2.WindowSize settings))
         ErrWindowTooSmall ;;
  failIf (negb (Nat.eqb (length (ValidProofOutputs fc)) 2)) ErrWrongValidCount ;;
  failIf (negb (Nat.eqb (length (MissedProofOutputs fc)) 3)) ErrWrongMissedCount ;;
  vh <- ValidHostOutput fc ;;
  failIf (negb (OutputAddress vh =? rhpv2.Address settings)) ErrWrongHostValidAddress ;;
  mh <- MissedHostOutput fc ;;
  failIf (negb (OutputAddress mh =? rhpv2.Address settings)) ErrWrongHostMissedAddress ;;
  void <- index (MissedProofOutputs fc) 2 ;;
  failIf (negb (OutputAddress void =? VoidAddress)) ErrWrongVoidAddress ;;
  void' <- index (MissedProofOutputs fc) 2 ;;
  failIf (negb (Value void' =? ZeroCurrency)) ErrVoidValueNonZero ;;
  vhp <- ValidHostPayout fc ;;
  failIf (CmpLt vhp (rhpv2.ContractPrice settings)) ErrHostValidTooSmall ;;
  vhp1 <- ValidHostPayout fc ;;
  mhp1 <- MissedHostPayout fc ;;
  failIf (negb (Equals vhp1 mhp1)) ErrHostOutputsUnequal ;;
  vhp2 <- ValidHostPayout fc ;;
  failIf (CmpGt vhp2 (rhpv2.MaxCollateral settings)) ErrExcessiveInitialCollateral ;;
  failIf (negb (UnlockHash fc =? UnlockHashOf (contractUnlockConditions hostKey renterKey)))
         ErrIncorrectUnlockHash ;;
  vhp3 <- ValidHostPayout fc ;;
  Sub vhp3 (rhpv2.ContractPrice settings).

(** Returns [(storageRevenue, riskedCollateral, lockedCollateral)]. *)
Definition ValidateContractRenewal (existing : FileContractRevision) (renewal : FileContract)
           (hostKey renterKey : UnlockKey) (baseHostRevenue baseRiskedCollateral : Currency)
           (currentHeight : uint64) (settings : rhpv2.HostSettings)
  : result (Currency * Currency * Currency) :=
  failIf (negb (RevisionNumber renewal =? 0)) ErrRenewalRevisionNumber ;;
  failIf (negb (Filesize renewal =? Filesize existing)) ErrRenewalFilesize ;;
  failIf (negb (FileMerkleRoot renewal =? FileMerkleRoot existing)) ErrRenewalMerkleRoot ;;
  failIf (WindowEnd renewal <? WindowEnd existing) ErrRenewalWindowEnd ;;
  failIf (WindowStart renewal <? add64 currentHeight (rhpv2.WindowSize settings))
         ErrEndsTooSoon ;;
  failIf (add64 currentHeight (rhpv2.MaxDuration settings) <? WindowStart renewal)
         ErrDurationTooLong ;;
  failIf (WindowEnd renewal <? add64 (WindowStart renewal) (rhpv2.WindowSize settings))
         ErrWindowTooSmall ;;
  failIf (negb (Nat.eqb (length (ValidProofOutputs renewal)) 2)) ErrWrongValidCount ;;
  failIf (negb (Nat.eqb (length (MissedProofOutputs renewal)) 3)) ErrWrongMissedCount ;;
  vh <- index (ValidProofOutputs renewal) 1 ;;
  failIf (negb (OutputAddress vh =? rhpv2.Address settings)) ErrWrongHostAddress ;;
  void <- index (MissedProofOutputs renewal) 2 ;;
  failIf (negb (OutputAddress void =? VoidAddress)) ErrWrongVoidAddress ;;
  expectedBurn <- Add baseHostRevenue baseRiskedCollateral ;;
  vhp <- ValidHostPayout renewal ;;
  mhp <- MissedHostPayout renewal ;;
  let (hostBurn, underflow) := SubWithUnderflow vhp mhp in
  failIf underflow ErrHostValidBelowMissed ;;
  failIf (CmpGt hostBurn expectedBurn) ErrExcessiveHostBurn ;;
  void' <- index (MissedProofOutputs renewal) 2 ;;
  failIf (negb (Equals (Value void') hostBurn)) ErrRiskedNotToVoid ;;
  let (risked, underflow1) := SubWithUnderflow hostBurn baseHostRevenue in
  let riskedCollateral := if underflow1 then ZeroCurrency else risked in
  vhp' <- ValidHostPayout renewal ;;
  let (lockedCollateral, underflow2) := SubWithUnderflow vhp' baseHostRevenue in
  failIf underflow2 ErrValidBelowBaseCost ;;
  failIf (CmpGt lockedCollateral (rhpv2.MaxCollateral settings)) ErrCollateralExceedsMax ;;
  Ok (baseHostRevenue, riskedCollateral, lockedCollateral).

(** The loop of [ValidateClearingRevision], from index [i] on, with
    [valids] the rest of the final revision's valid outputs. *)
Fixpoint clearingOutputs (currentValid finalMissed : list SiacoinOutput)
         (i : nat) (valids : list SiacoinOutput) : result unit :=
  match valids with
  | [] => Ok tt
  | valid :: rest =>
      current <- index currentValid i ;;
      missed <- index finalMissed i ;;
      failIf (negb (Equals (Value valid) (Value current))) (ErrClearValidValue i) ;;
      failIf (negb (OutputAddress valid =? OutputAddress current)) (ErrClearValidAddress i) ;;
      failIf (negb (Equals (Value valid) (Value missed))) (ErrClearMissedValue i) ;;
      failIf (negb (OutputAddress valid =? OutputAddress missed)) (ErrClearMissedAddress i) ;;
      clearingOutputs currentValid finalMissed (S i) rest
  end.

Definition ValidateClearingRevision (current final : FileContractRevision) : result unit :=
  failIf (negb (Filesize final =? 0)) ErrFilesizeNotZero ;;
  failIf (negb (FileMerkleRoot final =? 0)) ErrMerkleRootNotEmpty ;;
  failIf (negb (WindowStart current =? WindowStart final)) ErrWindowStartChanged ;;
  failIf (negb (WindowEnd current =? WindowEnd final)) ErrWindowEndChanged ;;
  failIf (negb (Nat.eqb (length (ValidProofOutputs final))
                        (length (MissedProofOutputs final))))
         ErrWrongNumberOfOutputs ;;
  failIf (negb (RevisionNumber final =? MaxRevisionNumber)) ErrRevisionNumberNotMax ;;
  failIf (negb (UnlockHash final =? UnlockHash current)) ErrUnlockHashChanged ;;
  failIf (negb (UnlockHashOf (UnlockConditionsOf final)
                =? UnlockHashOf (UnlockConditionsOf current)))
         ErrUnlockConditionsChanged ;;
  clearingOutputs (ValidProofOutputs current) (MissedProofOutputs final) 0
                  (ValidProofOutputs final).

(** Returns [(transfer, burn)]. *)
Definition ValidateRevision (current revision : FileContractRevision)
           (payment collateral : Currency) : result (Currency * Currency) :=
  validateStdRevision current revision ;;
  cv <- ValidRenterPayout current ;;
  failIf (CmpLt cv payment) ErrRenterValidBelowPayment ;;
  cm <- MissedRenterPayout current ;;
  failIf (CmpLt cm payment) ErrRenterMissedBelowPayment ;;
  ch <- MissedHostPayout current ;;
  failIf (CmpLt ch collateral) ErrHostMissedBelowCollateral ;;
  cv' <- ValidRenterPayout current ;;
  rv <- ValidRenterPayout revision ;;
  let (fromRenter, underflow) := SubWithUnderflow cv' rv in
  failIf underflow ErrRenterValidMustDecrease ;;
  rh <- ValidHostPayout revision ;;
  chv <- ValidHostPayout current ;;
  let (toHost, overflow) := SubWithUnderflow rh chv in
  failIf overflow ErrHostValidMustIncrease ;;
  cmh <- MissedHostPayout current ;;
  rmh <- MissedHostPayout revision ;;
  let (hostBurn, underflow') := SubWithUnderflow cmh rmh in
  failIf underflow' ErrHostMissedMustDecrease ;;
  failIf (negb (Equals fromRenter toHost)) ErrTransferMismatch ;;
  failIf (CmpLt toHost payment) ErrInsufficientTransfer ;;
  failIf (CmpGt hostBurn collateral) ErrExcessiveCollateral ;;
  Ok (toHost, hostBurn).

(** Returns [burn]. *)
Definition ValidateProgramRevision (current revision : FileContractRevision)
           (storage collateral : Currency) : result Currency :=
  validateStdRevision current revision ;;
  cmh <- MissedHostPayout current ;;
  rmh <- MissedHostPayout revision ;;
  let (hostBurn, underflow) := SubWithUnderflow cmh rmh in
  failIf underflow ErrHostMissedMustDecrease ;;
  expectedBurn <- Add storage collateral ;;
  failIf (CmpGt hostBurn expectedBurn) ErrBurnTooLarge ;;
  rvoid <- index (MissedProofOutputs revision) 2 ;;
  cvoid <- index (MissedProofOutputs current) 2 ;;
  let (voidBurn, underflow') := SubWithUnderflow (Value rvoid) (Value cvoid) in
  failIf underflow' ErrVoidMustIncrease ;;
  failIf (negb (Equals voidBurn hostBurn)) ErrBurnMismatch ;;
  cv <- ValidRenterPayout current ;;
  rv <- ValidRenterPayout revision ;;
  failIf (negb (Equals cv rv)) ErrRenterValidChanged ;;
  ch <- ValidHostPayout current ;;
  rh <- ValidHostPayout revision ;;
  failIf (negb (Equals ch rh)) ErrHostValidChanged ;;
  cm <- MissedRenterPayout current ;;
  rm <- MissedRenterPayout revision ;;
  failIf (negb (Equals cm rm)) ErrRenterMissedChanged ;;
  Ok hostBurn.

Definition ValidatePaymentRevision (current revision : FileContractRevision)
           (payment : Currency) : result unit :=
  validateStdRevision current revision ;;
  rv <- ValidRenterPayout revision ;;
  cv <- ValidRenterPayout current ;;
  cv' <- Sub cv payment ;;
  failIf (CmpNe rv cv') ErrRenterValidNotReduced ;;
  rm <- MissedRenterPayout revision ;;
  cm <- MissedRenterPayout current ;;
  cm' <- Sub cm payment ;;
  failIf (CmpNe rm cm') ErrRenterMissedNotReduced ;;
  rh <- index (ValidProofOutputs revision) 1 ;;
  ch <- index (ValidProofOutputs current) 1 ;;
  ch' <- Add (Value ch) payment ;;
  failIf (CmpNe (Value rh) ch') ErrHostValidNotIncreased ;;
  rmh <- index (MissedProofOutputs revision) 1 ;;
  cmh <- index (MissedProofOutputs current) 1 ;;
  cmh' <- Add (Value cmh) payment ;;
  failIf (CmpNe (Value rmh) cmh') ErrHostMissedNotIncreased ;;
  Ok tt.

(** *** The constructors of revisions *)

(** [types.Transaction], read through [formationTxn.FileContracts] and
    [formationTxn.FileContractID(i)] only. *)
Variable Transaction : Type.
Variable FileContracts : Transaction -> list FileContract.
Variable FileContractID : Transaction -> nat -> Hash256.

(** [InitialRevision]; the composite literal names no [Payout], which is
    left at its zero value.  The transaction pointer is taken to be valid. *)
Definition InitialRevision (formationTxn : Transaction) (hostPubKey renterPubKey : UnlockKey)
  : result FileContractRevision :=
  fc <- index (FileContracts formationTxn) 0 ;;
  Ok {| ParentID := FileContractID formationTxn 0;
        UnlockConditionsOf := contractUnlockConditions hostPubKey renterPubKey;
        FileContractOf :=
          {| Filesize := Filesize fc;
             FileMerkleRoot := FileMerkleRoot fc;
             WindowStart := WindowStart fc;
             WindowEnd := WindowEnd fc;
             Payout := ZeroCurrency;
             ValidProofOutputs := ValidProofOutputs fc;
             MissedProofOutputs := MissedProofOutputs fc;
             UnlockHash := UnlockHash fc;
             RevisionNumber := 1 |} |}.

(** The errors of [ClearingRevision]. *)
Inductive clearingError : Type :=
| ErrContractLocked           (* contract is locked *)
| ErrClearingOutputCount.     (* incorrect number of outputs *)

(** [outputs[i].Value = v] *)
Definition setValueAt (outputs : list SiacoinOutput) (i : nat) (v : Currency)
  : result (list SiacoinOutput) :=
  o <- index outputs i ;;
  Ok (firstn i outputs
      ++ {| Value := v; OutputAddress := OutputAddress o |} :: skipn (S i) outputs).

(** The loop of [ClearingRevision], from index [i] on, with [values] the
    rest of the value slice. *)
Fixpoint clearingValues (outputs : list SiacoinOutput) (i : nat) (values : list Currency)
  : result (list SiacoinOutput) :=
  match values with
  | [] => Ok outputs
  | v :: rest =>
      outputs' <- setValueAt outputs i v ;;
      clearingValues outputs' (S i) rest
  end.

(** [ClearingRevision]: [inl e] when one of its two errors is returned,
    [inr] for the run of the loop and the revision built after it.  The
    loop writes through the slice it was given: the valid outputs of the
    result are also what the caller's slice holds after the call. *)
Definition ClearingRevision (revision : FileContractRevision) (outputValues : list Currency)
  : clearingError + result FileContractRevision :=
  if RevisionNumber revision =? MaxUint64 then inl ErrContractLocked
  else if negb (Nat.eqb (length outputValues) (length (ValidProofOutputs revision)))
       then inl ErrClearingOutputCount
       else inr (outputs <- clearingValues (ValidProofOutputs revision) 0 outputValues ;;
                 Ok {| ParentID := ParentID revision;
                       UnlockConditionsOf := UnlockConditionsOf revision;
                       FileContractOf :=
                         {| Filesize := 0;
                            FileMerkleRoot := 0;
                            WindowStart := WindowStart revision;
                            WindowEnd := WindowEnd revision;
                            Payout := Payout revision;
                            ValidProofOutputs := outputs;
                            MissedProofOutputs := outputs;
                            UnlockHash := UnlockHash revision;
                            RevisionNumber := MaxUint64 |} |}).

(** ** Vocabulary of the properties *)

(** The mathematical sum of the values of an output vector. *)
Definition sumValues (outputs : list SiacoinOutput) : N :=
  fold_right (fun o s => Value o + s) 0 outputs.

(** Value and address of output [i], when the vector has one. *)
Definition valueAt (outputs : list SiacoinOutput) (i : nat) : option Currency :=
  option_map Value (nth_error outputs i).
Definition addressAt (outputs : list SiacoinOutput) (i : nat) : option Address :=
  option_map OutputAddress (nth_error outputs i).

(** Values a Go program can hold: every currency below [2^128]. *)
Definition wfCurrency (c : Currency) : bool := c <? CurrencyRange.
Definition wfOutputs (outputs : list SiacoinOutput) : bool :=
  forallb (fun o => wfCurrency (Value o)) outputs.
Definition wfContract (fc : FileContract) : bool :=
  wfOutputs (ValidProofOutputs fc) && wfOutputs (MissedProofOutputs fc).

(** What [validateStdRevision] establishes between the current revision
    [C] and its successor [R]: invariants (2)-(8) of the data model, and of
    invariant (1) the equality of the lengths. *)
Record StdInvariants (C R : FileContractRevision) : Prop := {
  inv_valid_length :
    length (ValidProofOutputs R) = length (ValidProofOutputs C);
  inv_missed_length :
    length (MissedProofOutputs R) = length (MissedProofOutputs C);
  inv_valid_address :
    forall i, addressAt (ValidProofOutputs R) i = addressAt (ValidProofOutputs C) i;
  inv_missed_address :
    forall i, addressAt (MissedProofOutputs R) i = addressAt (MissedProofOutputs C) i;
  inv_valid_sum :
    sumValues (ValidProofOutputs R) = sumValues (ValidProofOutputs C);
  inv_missed_sum :
    sumValues (MissedProofOutputs R) = sumValues (ValidProofOutputs C);
  inv_unlock_hash : UnlockHash R = UnlockHash C;
  inv_unlock_conditions :
    UnlockHashOf (UnlockConditionsOf R) = UnlockHashOf (UnlockConditionsOf C);
  inv_window_start : WindowStart R = WindowStart C;
  inv_window_end : WindowEnd R = WindowEnd C;
  inv_revision_number : RevisionNumber C < RevisionNumber R;
  inv_renter_valid :
    exists rv cv, valueAt (ValidProofOutputs R) 0 = Some rv
                  /\ valueAt (ValidProofOutputs C) 0 = Some cv /\ rv <= cv;
  inv_renter_missed :
    exists rm cm, valueAt (MissedProofOutputs R) 0 = Some rm
                  /\ valueAt (MissedProofOutputs C) 0 = Some cm /\ rm <= cm;
  inv_renter_equal :
    valueAt (ValidProofOutputs R) 0 = valueAt (MissedProofOutputs R) 0
}.

(** Invariants (1)-(8) as the data model lists them: [StdInvariants] with
    the arities 2 and 3. *)
Definition SpecInvariants (C R : FileContractRevision) : Prop :=
  length (ValidProofOutputs R) = 2%nat
  /\ length (MissedProofOutputs R) = 3%nat
  /\ StdInvariants C R.

(** What [ValidateClearingRevision] establishes. *)
Record ClearingInvariants (C R : FileContractRevision) : Prop := {
  clr_filesize : Filesize R = 0;
  clr_merkle_root : FileMerkleRoot R = 0;
  clr_window_start : WindowStart R = WindowStart C;
  clr_window_end : WindowEnd R = WindowEnd C;
  clr_revision_number : RevisionNumber R = MaxRevisionNumber;
  clr_unlock_hash : UnlockHash R = UnlockHash C;
  clr_unlock_conditions :
    UnlockHashOf (UnlockConditionsOf R) = UnlockHashOf (UnlockConditionsOf C);
  clr_lengths :
    length (ValidProofOutputs R) = length (MissedProofOutputs R);
  clr_outputs :
    forall i valid, nth_error (ValidProofOutputs R) i = Some valid ->
      nth_error (MissedProofOutputs R) i = Some valid
      /\ exists current, nth_error (ValidProofOutputs C) i = Some current
                         /\ Value valid = Value current
                         /\ OutputAddress valid = OutputAddress current
}.

(** The four revision validators, with their ancillary parameters. *)
Inductive validator : Type :=
| Payment (payment : Currency)
| Program (storage collateral : Currency)
| General (payment collateral : Currency)
| Clearing.

Definition isOk {A : Type} (r : result A) : bool :=
  match r with Ok _ => true | _ => false end.

Definition accepts (v : validator) (C R : FileContractRevision) : bool :=
  match v with
  | Payment payment => isOk (ValidatePaymentRevision C R payment)
  | Program storage collateral => isOk (ValidateProgramRevision C R storage collateral)
  | General payment collateral => isOk (ValidateRevision C R payment collateral)
  | Clearing => isOk (ValidateClearingRevision C R)
  end.

(** The outcomes of the second and third loops. *)
Inductive sumSameAddress_outcome (mkErr : nat -> error) (current : list SiacoinOutput)
          (i : nat) (outputs : list SiacoinOutput) (total : Currency)
  : result Currency -> Prop :=
| sso_sum :
    total + sumValues outputs < CurrencyRange ->
    (forall j o, nth_error outputs j = Some o ->
       exists c, nth_error current (i + j) = Some c
                 /\ OutputAddress o = OutputAddress c) ->
    sumSameAddress_outcome mkErr current i outputs total
                           (Ok (total + sumValues outputs))
| sso_address (k : nat) :
    (i <= k)%nat ->
    (k - i < length outputs)%nat ->
    (k < length current)%nat ->
    addressAt outputs (k - i) <> addressAt current k ->
    sumSameAddress_outcome mkErr current i outputs total (Err (mkErr k))
| sso_index (k : nat) :
    (i <= k)%nat ->
    (k - i < length outputs)%nat ->
    (length current <= k)%nat ->
    sumSameAddress_outcome mkErr current i outputs total
                           (Panic (IndexOutOfRange k (length current)))
| sso_overflow :
    CurrencyRange <= total + sumValues outputs ->
    sumSameAddress_outcome mkErr current i outputs total (Panic Overflow).

(** The checks of the formation validator as the specification lists
    them (section 4.2), read over the integers: the sums of heights are
    not reduced modulo [2^64]. *)
Definition FormationChecks (fc : FileContract) (hostKey renterKey : UnlockKey)
           (h : uint64) (S : rhpv2.HostSettings) : Prop :=
  Filesize fc = 0 /\ RevisionNumber fc = 0 /\ FileMerkleRoot fc = 0
  /\ h + rhpv2.WindowSize S <= WindowStart fc
  /\ WindowStart fc <= h + rhpv2.MaxDuration S
  /\ WindowStart fc + rhpv2.WindowSize S <= WindowEnd fc
  /\ length (ValidProofOutputs fc) = 2%nat
  /\ length (MissedProofOutputs fc) = 3%nat
  /\ addressAt (ValidProofOutputs fc) 1 = Some (rhpv2.Address S)
  /\ addressAt (MissedProofOutputs fc) 1 = Some (rhpv2.Address S)
  /\ addressAt (MissedProofOutputs fc) 2 = Some VoidAddress
  /\ valueAt (MissedProofOutputs fc) 2 = Some 0
  /\ (exists validHost missedHost,
        valueAt (ValidProofOutputs fc) 1 = Some validHost
        /\ valueAt (MissedProofOutputs fc) 1 = Some missedHost
        /\ rhpv2.ContractPrice S <= validHost
        /\ validHost = missedHost
        /\ validHost <= rhpv2.MaxCollateral S)
  /\ UnlockHash fc = UnlockHashOf (contractUnlockConditions hostKey renterKey).

(** The formation scenario of the specification, for a renter address
    [R], a host address [H] and an unlock hash [u]. *)
Definition formationScenario (R H : Address) (u : Hash256) : FileContract :=
  {| Filesize := 0; FileMerkleRoot := 0; WindowStart := 100; WindowEnd := 200;
     Payout := 0;
     ValidProofOutputs := [ {| Value := 60; OutputAddress := R |};
                            {| Value := 50; OutputAddress := H |} ];
     MissedProofOutputs := [ {| Value := 60; OutputAddress := R |};
                             {| Value := 50; OutputAddress := H |};
                             {| Value := 0; OutputAddress := VoidAddress |} ];
     UnlockHash := u; RevisionNumber := 0 |}.

Definition formationSettings (H : Address) : rhpv2.HostSettings :=
  {| rhpv2.Address := H; rhpv2.ContractPrice := 10; rhpv2.MaxCollateral := 100;
     rhpv2.WindowSize := 10; rhpv2.MaxDuration := 200 |}.

(** [r] with another revision number and nothing else changed. *)
Definition withRevisionNumber (r : FileContractRevision) (n : uint64)
  : FileContractRevision :=
  {| ParentID := ParentID r;
     UnlockConditionsOf := UnlockConditionsOf r;
     FileContractOf :=
       {| Filesize := Filesize r;
          FileMerkleRoot := FileMerkleRoot r;
          WindowStart := WindowStart r;
          WindowEnd := WindowEnd r;
          Payout := Payout r;
          ValidProofOutputs := ValidProofOutputs r;
          MissedProofOutputs := MissedProofOutputs r;
          UnlockHash := UnlockHash r;
          RevisionNumber := n |} |}.

(** [fc] with the address of the host's missed output replaced. *)
Definition withMissedHostAddress (fc : FileContract) (a : Address) : FileContract :=
  {| Filesize := Filesize fc;
     FileMerkleRoot := FileMerkleRoot fc;
     WindowStart := WindowStart fc;
     WindowEnd := WindowEnd fc;
     Payout := Payout fc;
     ValidProofOutputs := ValidProofOutputs fc;
     MissedProofOutputs :=
       match MissedProofOutputs fc with
       | renter :: host :: rest =>
           renter :: {| Value := Value host; OutputAddress := a |} :: rest
       | outputs => outputs
       end;
     UnlockHash := UnlockHash fc;
     RevisionNumber := RevisionNumber fc |}.

(** The sum of a vector of values. *)
Definition sumCurrencies (values : list Currency) : N :=
  fold_right N.add 0 values.

(** The outputs of [outputs] with their values replaced by [values], index
    by index. *)
Definition withValues (outputs : list SiacoinOutput) (values : list Currency)
  : list SiacoinOutput :=
  map (fun ov => {| Value := snd ov; OutputAddress := OutputAddress (fst ov) |})
      (combine outputs values).

(** [r] with another revision number and other outputs. *)
Definition revised (r : FileContractRevision) (n : uint64)
           (valid missed : list SiacoinOutput) : FileContractRevision :=
  {| ParentID := ParentID r;
     UnlockConditionsOf := UnlockConditionsOf r;
     FileContractOf :=
       {| Filesize := Filesize r;
          FileMerkleRoot := FileMerkleRoot r;
          WindowStart := WindowStart r;
          WindowEnd := WindowEnd r;
          Payout := Payout r;
          ValidProofOutputs := valid;
          MissedProofOutputs := missed;
          UnlockHash := UnlockHash r;
          RevisionNumber := n |} |}.

(** The locked revision [ClearingRevision] builds on [r] from the outputs
    [outputs]. *)
Definition clearedFrom (r : FileContractRevision) (outputs : list SiacoinOutput)
  : FileContractRevision :=
  {| ParentID := ParentID r;
     UnlockConditionsOf := UnlockConditionsOf r;
     FileContractOf :=
       {| Filesize := 0;
          FileMerkleRoot := 0;
          WindowStart := WindowStart r;
          WindowEnd := WindowEnd r;
          Payout := Payout r;
          ValidProofOutputs := outputs;
          MissedProofOutputs := outputs;
          UnlockHash := UnlockHash r;
          RevisionNumber := MaxUint64 |} |}.

(** [fc] with another unlock hash. *)
Definition withUnlockHash (fc : FileContract) (u : Hash256) : FileContract :=
  {| Filesize := Filesize fc;
     FileMerkleRoot := FileMerkleRoot fc;
     WindowStart := WindowStart fc;
     WindowEnd := WindowEnd fc;
     Payout := Payout fc;
     ValidProofOutputs := ValidProofOutputs fc;
     MissedProofOutputs := MissedProofOutputs fc;
     UnlockHash := u;
     RevisionNumber := RevisionNumber fc |}.

(** What each error of [validateStdRevision] says about the pair; an
    error the function does not return means [False]. *)
Definition stdErrorMeaning (C R : FileContractRevision) (e : error) : Prop :=
  match e with
  | ErrValidAddressChanged i =>
      (i < length (ValidProofOutputs R))%nat /\ (i < length (ValidProofOutputs C))%nat
      /\ addressAt (ValidProofOutputs R) i <> addressAt (ValidProofOutputs C) i
  | ErrMissedAddressChanged i =>
      (i < length (MissedProofOutputs R))%nat /\ (i < length (MissedProofOutputs C))%nat
      /\ addressAt (MissedProofOutputs R) i <> addressAt (MissedProofOutputs C) i
  | ErrValidSumChanged =>
      sumValues (ValidProofOutputs R) <> sumValues (ValidProofOutputs C)
  | ErrMissedSumChanged =>
      sumValues (MissedProofOutputs R) <> sumValues (ValidProofOutputs C)
  | ErrUnlockHashChanged => UnlockHash R <> UnlockHash C
  | ErrUnlockConditionsChanged =>
      UnlockHashOf (UnlockConditionsOf R) <> UnlockHashOf (UnlockConditionsOf C)
  | ErrRevisionNumberNotIncreased => RevisionNumber R <= RevisionNumber C
  | ErrWindowStartChanged => WindowStart R <> WindowStart C
  | ErrWindowEndChanged => WindowEnd R <> WindowEnd C
  | ErrValidOutputsChanged =>
      (length (ValidProofOutputs R) < length (ValidProofOutputs C))%nat
  | ErrMissedOutputsChanged =>
      (length (MissedProofOutputs R) < length (MissedProofOutputs C))%nat
  | ErrRenterValidIncreased =>
      exists rv cv, valueAt (ValidProofOutputs R) 0 = Some rv
                    /\ valueAt (ValidProofOutputs C) 0 = Some cv /\ cv < rv
  | ErrRenterMissedIncreased =>
      exists rm cm, valueAt (MissedProofOutputs R) 0 = Some rm
                    /\ valueAt (MissedProofOutputs C) 0 = Some cm /\ cm < rm
  | ErrRenterPayoutsUnequal =>
      exists rv rm, valueAt (ValidProofOutputs R) 0 = Some rv
                    /\ valueAt (MissedProofOutputs R) 0 = Some rm /\ rv <> rm
  | _ => False
  end.

(** What each abort of [validateStdRevision] says about the pair. *)
Definition stdPanicMeaning (C R : FileContractRevision) (p : panic) : Prop :=
  match p with
  | Overflow =>
      CurrencyRange <= sumValues (ValidProofOutputs C)
      \/ CurrencyRange <= sumValues (ValidProofOutputs R)
      \/ CurrencyRange <= sumValues (MissedProofOutputs R)
  | IndexOutOfRange i n =>
      (n = length (ValidProofOutputs C) /\ n <= i < length (ValidProofOutputs R))%nat
      \/ (n = length (MissedProofOutputs C) /\ n <= i < length (MissedProofOutputs R))%nat
      \/ (i = 0%nat /\ n = 0%nat
          /\ (ValidProofOutputs R = [] \/ MissedProofOutputs R = []))
  | Underflow => False
  end.

(** ** Inversion of the result monad *)

Lemma bind_Ok {A B : Type} (m : result A) (k : A -> result B) (b : B) :
  bind m k = Ok b -> exists a, m = Ok a /\ k a = Ok b.
Proof. destruct m; simpl; intros H; try discriminate. eauto. Qed.

Lemma failIf_Ok (cond : bool) (e : error) (u : unit) :
  failIf cond e = Ok u -> cond = false.
Proof. destruct cond; simpl; intros H; [discriminate | reflexivity]. Qed.

Lemma index_Ok {A : Type} (s : list A) (i : nat) (a : A) :
  index s i = Ok a <-> nth_error s i = Some a.
Proof.
  unfold index. destruct (nth_error s i); split; intros H;
    inversion H; subst; reflexivity.
Qed.

Lemma index_total {A : Type} (s : list A) (i : nat) :
  (exists a, index s i = Ok a /\ nth_error s i = Some a)
  \/ (index s i = Panic (IndexOutOfRange i (length s)) /\ (length s <= i)%nat).
Proof.
  unfold index. destruct (nth_error s i) eqn:E.
  - left. eauto.
  - right. split; [reflexivity | now apply nth_error_None].
Qed.

Lemma payout_Ok (outputs : list SiacoinOutput) (i : nat) (v : Currency) :
  (o <- index outputs i ;; Ok (Value o)) = Ok v <-> valueAt outputs i = Some v.
Proof.
  unfold valueAt, index. destruct (nth_error outputs i); simpl; split;
    intros H; inversion H; subst; reflexivity.
Qed.

(** One step of inversion of a run that ended in [Ok]. *)
Ltac step H :=
  lazymatch type of H with
  | bind (failIf _ _) _ = Ok _ =>
      let E := fresh "G" in
      apply bind_Ok in H; destruct H as ([] & E & H); apply failIf_Ok in E
  | bind (o <- index _ _ ;; Ok (Value o)) _ = Ok _ =>
      let a := fresh "v" in let E := fresh "P" in
      apply bind_Ok in H; destruct H as (a & E & H); apply payout_Ok in E
  | bind (index _ _) _ = Ok _ =>
      let a := fresh "o" in let E := fresh "I" in
      apply bind_Ok in H; destruct H as (a & E & H); apply index_Ok in E
  | bind _ _ = Ok _ =>
      let a := fresh "x" in let E := fresh "E" in
      apply bind_Ok in H; destruct H as (a & E & H)
  | (let (_, _) := ?p in _) = Ok _ =>
      let a := fresh "d" in let b := fresh "flag" in let E := fresh "S" in
      destruct p as [a b] eqn:E
  end.

(** Boolean tests of the code as propositions. *)
Ltac tests :=
  unfold CmpGt, CmpLt, CmpNe, Equals in *;
  repeat match goal with
    | H : negb _ = false |- _ => apply negb_false_iff in H
    | H : negb _ = true |- _ => apply negb_true_iff in H
    | H : (_ || _)%bool = false |- _ => apply orb_false_iff in H; destruct H
    | H : (_ && _)%bool = true |- _ => apply andb_true_iff in H; destruct H
    | H : (_ =? _) = true |- _ => apply N.eqb_eq in H
    | H : (_ =? _) = false |- _ => apply N.eqb_neq in H
    | H : (_ <? _) = true |- _ => apply N.ltb_lt in H
    | H : (_ <? _) = false |- _ => apply N.ltb_ge in H
    | H : (_ <=? _) = true |- _ => apply N.leb_le in H
    | H : (_ <=? _) = false |- _ => apply N.leb_gt in H
    | H : Nat.eqb _ _ = true |- _ => apply Nat.eqb_eq in H
    | H : Nat.eqb _ _ = false |- _ => apply Nat.eqb_neq in H
    end.

(** ** Currency arithmetic *)

Lemma CurrencyRange_pos : 0 < CurrencyRange.
Proof. reflexivity. Qed.

Lemma Add_Ok (c v s : Currency) :
  Add c v = Ok s <-> s = c + v /\ c + v < CurrencyRange.
Proof.
  unfold Add, AddWithOverflow.
  destruct (CurrencyRange <=? c + v) eqn:E; tests; split.
  - discriminate.
  - intros [_ H]. lia.
  - intros H. inversion H. split; [| assumption].
    apply N.mod_small; assumption.
  - intros [-> H]. rewrite N.mod_small by assumption. reflexivity.
Qed.

Lemma SubWithUnderflow_exact (c v d : Currency) :
  c < CurrencyRange -> SubWithUnderflow c v = (d, false) -> v <= c /\ d = c - v.
Proof.
  unfold SubWithUnderflow. intros Hc H. inversion H as [[Hd Hf]]. tests.
  split; [assumption |].
  replace (c + CurrencyRange - v) with (c - v + 1 * CurrencyRange) by lia.
  rewrite N.Div0.mod_add. apply N.mod_small. lia.
Qed.

Lemma SubWithUnderflow_flag (c v d : Currency) (flag : bool) :
  SubWithUnderflow c v = (d, flag) -> flag = (c <? v).
Proof. unfold SubWithUnderflow. intros H. inversion H. reflexivity. Qed.

Lemma Sub_Ok (c v d : Currency) :
  c < CurrencyRange -> Sub c v = Ok d -> v <= c /\ d = c - v.
Proof.
  unfold Sub. intros Hc H.
  destruct (SubWithUnderflow c v) as [s [|]] eqn:E; [discriminate |].
  inversion H; subst. eapply SubWithUnderflow_exact; eassumption.
Qed.

Lemma wfOutputs_valueAt (outputs : list SiacoinOutput) (i : nat) (v : Currency) :
  wfOutputs outputs = true -> valueAt outputs i = Some v -> v < CurrencyRange.
Proof.
  unfold wfOutputs, valueAt. intros Hwf H.
  destruct (nth_error outputs i) as [o |] eqn:E; [| discriminate].
  inversion H; subst. apply nth_error_In in E.
  rewrite forallb_forall in Hwf. apply Hwf in E.
  unfold wfCurrency in E. now apply N.ltb_lt.
Qed.

(** ** The summation loops *)

(** The first loop computes the exact sum, or aborts when it leaves the
    currency range. *)
Lemma sumOutputs_spec (outputs : list SiacoinOutput) (total : Currency) :
  total < CurrencyRange ->
  sumOutputs outputs total =
    if CurrencyRange <=? total + sumValues outputs
    then Panic Overflow
    else Ok (total + sumValues outputs).
Proof.
  revert total. induction outputs as [| o rest IH]; intros total Ht; simpl.
  - rewrite N.add_0_r. apply N.leb_gt in Ht. rewrite Ht. reflexivity.
  - destruct (Add total (Value o)) as [t | e | p] eqn:E.
    + apply Add_Ok in E. destruct E as [-> Hlt]. simpl.
      rewrite IH by assumption. rewrite N.add_assoc. reflexivity.
    + unfold Add, AddWithOverflow in E.
      destruct (CurrencyRange <=? total + Value o); discriminate.
    + unfold Add, AddWithOverflow in E.
      destruct (CurrencyRange <=? total + Value o) eqn:F; [| discriminate].
      inversion E; subst. simpl. tests.
      destruct (CurrencyRange <=? total + (Value o + sumValues rest)) eqn:F';
        [reflexivity | tests; lia].
Qed.

Lemma sumOutputs_zero (outputs : list SiacoinOutput) :
  sumOutputs outputs ZeroCurrency =
    if CurrencyRange <=? sumValues outputs
    then Panic Overflow
    else Ok (sumValues outputs).
Proof. apply (sumOutputs_spec outputs 0). reflexivity. Qed.

Lemma sumSameAddress_spec (mkErr : nat -> error) (current outputs : list SiacoinOutput) :
  forall (i : nat) (total : Currency),
    total < CurrencyRange ->
    sumSameAddress_outcome mkErr current i outputs total
                           (sumSameAddress mkErr current i outputs total).
Proof.
  induction outputs as [| o rest IH]; intros i total Ht; simpl.
  - replace total with (total + sumValues []) at 2 by (simpl; lia).
    apply sso_sum; [simpl; lia |].
    intros [| j] o' H; discriminate.
  - destruct (index_total current i) as [(c & -> & Hc) | [-> Hlen]]; simpl.
    2:{ apply sso_index; [lia | rewrite Nat.sub_diag; simpl; lia | assumption]. }
    destruct (OutputAddress o =? OutputAddress c) eqn:Ha; simpl; tests.
    2:{ apply sso_address; [lia | rewrite Nat.sub_diag; simpl; lia | |].
        - apply nth_error_Some. congruence.
        - unfold addressAt. rewrite Nat.sub_diag, Hc. simpl. congruence. }
    destruct (Add total (Value o)) as [t | e | p] eqn:E; simpl.
    + apply Add_Ok in E. destruct E as [-> Hlt].
      specialize (IH (S i) (total + Value o) Hlt).
      inversion IH as [Hs Hall Heq | k Hk Hj Hi Hneq Heq | k Hk Hj Hi Heq | Hs Heq].
      * replace (total + Value o + sumValues rest)
          with (total + sumValues (o :: rest)) by (simpl; lia).
        apply sso_sum; [simpl; lia |].
        intros [| j] o' Hj; simpl in Hj.
        -- inversion Hj; subst. rewrite Nat.add_0_r. eauto.
        -- rewrite Nat.add_succ_r. apply (Hall j o' Hj).
      * apply sso_address; [lia | simpl; lia | lia |].
        replace (k - i)%nat with (S (k - S i)) by lia. exact Hneq.
      * apply sso_index; [lia | simpl; lia | lia].
      * apply sso_overflow. simpl. lia.
    + unfold Add, AddWithOverflow in E.
      destruct (CurrencyRange <=? total + Value o); discriminate.
    + unfold Add, AddWithOverflow in E.
      destruct (CurrencyRange <=? total + Value o) eqn:F; [| discriminate].
      inversion E; subst. tests. apply sso_overflow. simpl. lia.
Qed.

Lemma sumSameAddress_Ok (mkErr : nat -> error) (current outputs : list SiacoinOutput)
      (s : Currency) :
  sumSameAddress mkErr current 0 outputs ZeroCurrency = Ok s ->
  s = sumValues outputs
  /\ (length outputs <= length current)%nat
  /\ forall j, (j < length outputs)%nat -> addressAt outputs j = addressAt current j.
Proof.
  intros H. unfold ZeroCurrency in H.
  pose proof (sumSameAddress_spec mkErr current outputs 0 0 CurrencyRange_pos) as Hs.
  rewrite H in Hs. inversion Hs as [Hlt Hall Heq | | |].
  split; [reflexivity |]. split.
  - destruct outputs as [| o rest]; [simpl; lia |].
    destruct (nth_error (o :: rest) (length rest)) as [o' |] eqn:E.
    + apply Hall in E. destruct E as (c & E & _). simpl in E.
      assert (nth_error current (length rest) <> None) as N by congruence.
      apply nth_error_Some in N. simpl. lia.
    + apply nth_error_None in E. simpl in E. lia.
  - intros j Hj. unfold addressAt.
    destruct (nth_error outputs j) as [o |] eqn:E.
    + apply Hall in E. destruct E as (c & E & Ha). simpl in E.
      rewrite E. simpl. congruence.
    + apply nth_error_None in E. lia.
Qed.

(** ** The foundational predicate *)

Ltac payouts H :=
  unfold ValidRenterPayout, MissedRenterPayout, ValidHostPayout, MissedHostPayout,
    ValidRenterOutput, MissedRenterOutput, ValidHostOutput, MissedHostOutput in H.

Lemma addressAt_beyond (outputs : list SiacoinOutput) (i : nat) :
  (length outputs <= i)%nat -> addressAt outputs i = None.
Proof.
  intros H. unfold addressAt. apply nth_error_None in H. rewrite H. reflexivity.
Qed.

Lemma validateStdRevision_Ok (C R : FileContractRevision) :
  validateStdRevision C R = Ok tt -> StdInvariants C R.
Proof.
  intros H. unfold validateStdRevision in H. payouts H.
  rewrite sumOutputs_zero in H.
  destruct (CurrencyRange <=? sumValues (ValidProofOutputs C)) eqn:Hold;
    [discriminate |].
  cbn [bind] in H. repeat step H. tests.
  apply sumSameAddress_Ok in E. destruct E as (-> & _ & Hva).
  apply sumSameAddress_Ok in E0. destruct E0 as (-> & _ & Hma).
  constructor; try assumption; try lia.
  - intros i. destruct (Nat.lt_ge_cases i (length (ValidProofOutputs R))) as [Hi | Hi].
    + apply Hva; assumption.
    + rewrite !addressAt_beyond; [reflexivity | lia | lia].
  - intros i. destruct (Nat.lt_ge_cases i (length (MissedProofOutputs R))) as [Hi | Hi].
    + apply Hma; assumption.
    + rewrite !addressAt_beyond; [reflexivity | lia | lia].
  - eauto.
  - eauto.
  - congruence.
Qed.

Lemma valueAt_length (outputs : list SiacoinOutput) (i : nat) (v : Currency) :
  valueAt outputs i = Some v -> (i < length outputs)%nat.
Proof.
  unfold valueAt. intros H. apply nth_error_Some.
  destruct (nth_error outputs i); [discriminate | discriminate H].
Qed.

Lemma nth_error_length {A : Type} (l : list A) (i : nat) (a : A) :
  nth_error l i = Some a -> (i < length l)%nat.
Proof. intros H. apply nth_error_Some. congruence. Qed.

(** ** The clearing validator *)

Lemma clearingOutputs_Ok (currentValid finalMissed valids : list SiacoinOutput) :
  forall i : nat,
    clearingOutputs currentValid finalMissed i valids = Ok tt ->
    forall j valid, nth_error valids j = Some valid ->
      nth_error finalMissed (i + j) = Some valid
      /\ exists current, nth_error currentValid (i + j) = Some current
                         /\ Value valid = Value current
                         /\ OutputAddress valid = OutputAddress current.
Proof.
  induction valids as [| valid0 rest IH]; intros i H j valid Hj.
  - destruct j; discriminate.
  - simpl in H. repeat step H. tests.
    destruct j as [| j]; simpl in Hj.
    + inversion Hj; subst. rewrite Nat.add_0_r. split; [| eauto].
      rewrite I0. destruct valid, o0. simpl in *. congruence.
    + rewrite Nat.add_succ_r. apply (IH (S i) H j valid Hj).
Qed.

Lemma ValidateClearingRevision_Ok (C R : FileContractRevision) :
  ValidateClearingRevision C R = Ok tt -> ClearingInvariants C R.
Proof.
  intros H. unfold ValidateClearingRevision in H. repeat step H. tests.
  constructor; try assumption; try congruence.
  intros i valid Hi.
  apply (clearingOutputs_Ok _ _ _ 0%nat H i valid Hi).
Qed.

Lemma isOk_true {A : Type} (r : result A) :
  isOk r = true -> exists a, r = Ok a.
Proof. destruct r; simpl; intros H; try discriminate. eauto. Qed.

Lemma ValidatePaymentRevision_std (C R : FileContractRevision) (payment : Currency) (u : unit) :
  ValidatePaymentRevision C R payment = Ok u ->
  validateStdRevision C R = Ok tt
  /\ (2 <= length (ValidProofOutputs R))%nat
  /\ (2 <= length (MissedProofOutputs R))%nat.
Proof.
  intros H. unfold ValidatePaymentRevision in H. payouts H. repeat step H.
  destruct x. split; [assumption |].
  apply nth_error_length in I, I1. lia.
Qed.

Lemma ValidateProgramRevision_std (C R : FileContractRevision)
      (storage collateral burn : Currency) :
  ValidateProgramRevision C R storage collateral = Ok burn ->
  validateStdRevision C R = Ok tt
  /\ (2 <= length (ValidProofOutputs R))%nat
  /\ (3 <= length (MissedProofOutputs R))%nat.
Proof.
  intros H. unfold ValidateProgramRevision in H. payouts H. repeat step H.
  destruct x. split; [assumption |].
  apply valueAt_length in P4. apply nth_error_length in I. lia.
Qed.

Lemma ValidateRevision_std (C R : FileContractRevision)
      (payment collateral : Currency) (out : Currency * Currency) :
  ValidateRevision C R payment collateral = Ok out ->
  validateStdRevision C R = Ok tt
  /\ (2 <= length (ValidProofOutputs R))%nat
  /\ (2 <= length (MissedProofOutputs R))%nat.
Proof.
  intros H. unfold ValidateRevision in H. payouts H. repeat step H.
  destruct x. split; [assumption |].
  apply valueAt_length in P4, P7. lia.
Qed.

Lemma sumValues_pointwise (outputs : list SiacoinOutput) :
  forall others : list SiacoinOutput,
    length outputs = length others ->
    (forall i o, nth_error outputs i = Some o ->
       exists c, nth_error others i = Some c /\ Value o = Value c) ->
    sumValues outputs = sumValues others.
Proof.
  induction outputs as [| o rest IH]; intros [| c others] Hlen H; try discriminate.
  - reflexivity.
  - simpl. destruct (H 0%nat o eq_refl) as (c' & Hc & Hv). simpl in Hc.
    injection Hc as <-. rewrite Hv. f_equal.
    apply IH; [simpl in Hlen; lia |].
    intros i o' Hi. exact (H (S i) o' Hi).
Qed.

(** What acceptance by the clearing validator keeps of invariants (2)-(8):
    the final missed outputs are the final valid outputs, so their sums and
    the renter's two values agree; the renter's valid value is the current
    one; the revision number increases unless the current revision is
    already locked; and when the final revision has as many valid outputs
    as the current one, both final sums are the current valid sum and the
    valid addresses are unchanged. *)
Lemma ValidateClearingRevision_conservation (C R : FileContractRevision) :
  ValidateClearingRevision C R = Ok tt ->
  MissedProofOutputs R = ValidProofOutputs R
  /\ sumValues (MissedProofOutputs R) = sumValues (ValidProofOutputs R)
  /\ valueAt (ValidProofOutputs R) 0 = valueAt (MissedProofOutputs R) 0
  /\ (forall rv, valueAt (ValidProofOutputs R) 0 = Some rv ->
        valueAt (ValidProofOutputs C) 0 = Some rv)
  /\ (RevisionNumber C < MaxRevisionNumber -> RevisionNumber C < RevisionNumber R)
  /\ (length (ValidProofOutputs R) = length (ValidProofOutputs C) ->
      sumValues (ValidProofOutputs R) = sumValues (ValidProofOutputs C)
      /\ sumValues (MissedProofOutputs R) = sumValues (ValidProofOutputs C)
      /\ forall i, addressAt (ValidProofOutputs R) i = addressAt (ValidProofOutputs C) i).
Proof.
  intros H. apply ValidateClearingRevision_Ok in H.
  destruct H as [_ _ _ _ Hn _ _ Hlen Hout].
  assert (MissedProofOutputs R = ValidProofOutputs R) as Hm.
  { apply nth_error_ext. intros i.
    destruct (nth_error (ValidProofOutputs R) i) as [o |] eqn:E.
    - apply (Hout i o E).
    - apply nth_error_None. apply nth_error_None in E. lia. }
  split; [exact Hm |]. rewrite Hm.
  split; [reflexivity |]. split; [reflexivity |]. split.
  { intros rv Hrv. unfold valueAt in *.
    destruct (nth_error (ValidProofOutputs R) 0) as [o |] eqn:E; [| discriminate].
    destruct (Hout 0%nat o E) as (_ & c & -> & Hv & _).
    simpl in *. congruence. }
  split; [intros Hlt; rewrite Hn; exact Hlt |].
  intros Hl.
  assert (sumValues (ValidProofOutputs R) = sumValues (ValidProofOutputs C)) as Hs.
  { apply sumValues_pointwise; [exact Hl |].
    intros i o Hi. destruct (Hout i o Hi) as (_ & c & Hc & Hv & _). eauto. }
  split; [exact Hs |]. split; [exact Hs |].
  intros i. unfold addressAt.
  destruct (nth_error (ValidProofOutputs R) i) as [o |] eqn:E.
  - destruct (Hout i o E) as (_ & c & -> & _ & Ha). simpl. congruence.
  - apply nth_error_None in E. rewrite Hl in E. apply nth_error_None in E.
    rewrite E. reflexivity.
Qed.

(** C1 (as amended).  A pair accepted by a validator built on
    [validateStdRevision] (payment, program, general) satisfies invariants
    (2)-(8); of invariant (1) only the equality of the lengths of the
    output vectors of [R] and [C] holds, with at least two valid outputs
    and at least two (program: three) missed outputs, not exactly two and
    three.  A pair accepted by the clearing validator, which never runs
    [validateStdRevision], satisfies the clearing conditions: unchanged
    windows and unlock data, the maximum revision number (greater than the
    current one unless that is already locked), final missed outputs equal
    to the final valid outputs, which carry the values and addresses of
    the current valid outputs; so the final valid and missed sums agree,
    and both equal the current valid sum when the final revision has as
    many valid outputs as the current one. *)
Theorem accepted_pair_invariants (v : validator) (C R : FileContractRevision) :
  accepts v C R = true ->
  match v with
  | Payment _ | General _ _ =>
      StdInvariants C R
      /\ (2 <= length (ValidProofOutputs R))%nat
      /\ (2 <= length (MissedProofOutputs R))%nat
  | Program _ _ =>
      StdInvariants C R
      /\ (2 <= length (ValidProofOutputs R))%nat
      /\ (3 <= length (MissedProofOutputs R))%nat
  | Clearing =>
      ClearingInvariants C R
      /\ MissedProofOutputs R = ValidProofOutputs R
      /\ sumValues (MissedProofOutputs R) = sumValues (ValidProofOutputs R)
      /\ valueAt (ValidProofOutputs R) 0 = valueAt (MissedProofOutputs R) 0
      /\ (forall rv, valueAt (ValidProofOutputs R) 0 = Some rv ->
            valueAt (ValidProofOutputs C) 0 = Some rv)
      /\ (RevisionNumber C < MaxRevisionNumber -> RevisionNumber C < RevisionNumber R)
      /\ (length (ValidProofOutputs R) = length (ValidProofOutputs C) ->
          sumValues (ValidProofOutputs R) = sumValues (ValidProofOutputs C)
          /\ sumValues (MissedProofOutputs R) = sumValues (ValidProofOutputs C)
          /\ forall i, addressAt (ValidProofOutputs R) i
                       = addressAt (ValidProofOutputs C) i)
  end.
Proof.
  destruct v as [payment | storage collateral | payment collateral |];
    simpl; intros H; apply isOk_true in H; destruct H as [a H].
  - apply ValidatePaymentRevision_std in H. destruct H as (H & ? & ?).
    auto using validateStdRevision_Ok.
  - apply ValidateProgramRevision_std in H. destruct H as (H & ? & ?).
    auto using validateStdRevision_Ok.
  - apply ValidateRevision_std in H. destruct H as (H & ? & ?).
    auto using validateStdRevision_Ok.
  - destruct a. split.
    + apply ValidateClearingRevision_Ok. assumption.
    + apply ValidateClearingRevision_conservation. assumption.
Qed.

(** C7.  A pair accepted by [ValidateClearingRevision] has a final
    revision at the maximum revision number, with file size zero, the
    zero Merkle root and the windows of the current revision; at every
    index of the final valid outputs, the value and address are those of
    the current valid output at that index and the final missed output
    is the same output. *)
Theorem clearing_revision_accepted (current final : FileContractRevision) :
  ValidateClearingRevision current final = Ok tt ->
  RevisionNumber final = MaxRevisionNumber
  /\ Filesize final = 0
  /\ FileMerkleRoot final = 0
  /\ WindowStart final = WindowStart current
  /\ WindowEnd final = WindowEnd current
  /\ forall i valid,
       nth_error (ValidProofOutputs final) i = Some valid ->
       (exists c, nth_error (ValidProofOutputs current) i = Some c
                  /\ Value valid = Value c
                  /\ OutputAddress valid = OutputAddress c)
       /\ (exists missed, nth_error (MissedProofOutputs final) i = Some missed
                          /\ Value missed = Value valid
                          /\ OutputAddress missed = OutputAddress valid).
Proof.
  intros H. apply ValidateClearingRevision_Ok in H.
  destruct H as [Hf Hm Hws Hwe Hn _ _ _ Hout].
  repeat (split; [assumption |]).
  intros i valid Hi. destruct (Hout i valid Hi) as [Hmissed Hcur].
  split; [exact Hcur | eauto].
Qed.

(** ** Sums beyond the currency range *)

(** C2 (as amended).  The three summations of [validateStdRevision] use
    the checked addition [Add], which aborts on overflow: when the current
    valid sum leaves the currency range the function aborts with the
    overflow panic; when the revision's valid or missed sum leaves the
    range the function does not accept and reports no sum: it aborts
    (overflow, or an index past the current vector), unless an
    address-changed error was returned before the overflowing addition.
    No typed error reports the overflow, and no wrapped sum is used. *)
Theorem sums_overflow_abort (C R : FileContractRevision) :
  (CurrencyRange <= sumValues (ValidProofOutputs C) ->
   validateStdRevision C R = Panic Overflow)
  /\ (CurrencyRange <= sumValues (ValidProofOutputs R)
      \/ CurrencyRange <= sumValues (MissedProofOutputs R) ->
      validateStdRevision C R = Panic Overflow
      \/ (exists i len, validateStdRevision C R = Panic (IndexOutOfRange i len))
      \/ (exists i, validateStdRevision C R = Err (ErrValidAddressChanged i))
      \/ (exists i, validateStdRevision C R = Err (ErrMissedAddressChanged i))).
Proof.
  unfold validateStdRevision. rewrite sumOutputs_zero. split.
  - intros H. apply N.leb_le in H. rewrite H. reflexivity.
  - intros H.
    destruct (CurrencyRange <=? sumValues (ValidProofOutputs C)); [now left |].
    cbn [bind]. unfold ZeroCurrency.
    destruct (sumSameAddress_spec ErrValidAddressChanged (ValidProofOutputs C)
                (ValidProofOutputs R) 0 0 CurrencyRange_pos)
      as [Hv _ | k _ _ _ _ | k _ _ _ | _]; cbn [bind]; eauto 6.
    destruct (sumSameAddress_spec ErrMissedAddressChanged (MissedProofOutputs C)
                (MissedProofOutputs R) 0 0 CurrencyRange_pos)
      as [Hm _ | k _ _ _ _ | k _ _ _ | _]; cbn [bind]; eauto 6.
    simpl in Hv, Hm. lia.
Qed.

(** ** Payment revisions *)

Lemma ValidatePaymentRevision_transfer (current revision : FileContractRevision)
      (payment : Currency) :
  wfContract current = true ->
  ValidatePaymentRevision current revision payment = Ok tt ->
  exists cvr cmr cvh cmh,
    valueAt (ValidProofOutputs current) 0 = Some cvr
    /\ valueAt (MissedProofOutputs current) 0 = Some cmr
    /\ valueAt (ValidProofOutputs current) 1 = Some cvh
    /\ valueAt (MissedProofOutputs current) 1 = Some cmh
    /\ payment <= cvr /\ payment <= cmr
    /\ valueAt (ValidProofOutputs revision) 0 = Some (cvr - payment)
    /\ valueAt (MissedProofOutputs revision) 0 = Some (cmr - payment)
    /\ valueAt (ValidProofOutputs revision) 1 = Some (cvh + payment)
    /\ valueAt (MissedProofOutputs revision) 1 = Some (cmh + payment).
Proof.
  intros Hwf H. unfold wfContract in Hwf. tests.
  unfold ValidatePaymentRevision in H. payouts H. repeat step H. tests.
  apply Sub_Ok in E0; [| exact (wfOutputs_valueAt _ _ _ H0 P0)].
  apply Sub_Ok in E1; [| exact (wfOutputs_valueAt _ _ _ H1 P2)].
  destruct E0 as [? ?], E1 as [? ?].
  apply Add_Ok in E2, E3. destruct E2 as [? ?], E3 as [? ?].
  exists v0, v2, (Value o0), (Value o2).
  subst x0 x1 x2 x3 v v1.
  unfold valueAt in *. rewrite I, I0, I1, I2. cbn [option_map]. rewrite G1, G2.
  repeat split; assumption || reflexivity.
Qed.

(** C3 (as amended).  A payment revision is accepted only if the renter's
    valid and missed values are the current ones less [payment] and the
    host's valid and missed values are the current ones plus [payment].
    No other output value is changed when the current revision has
    exactly two valid and three missed outputs and its missed values sum
    to its valid values; the validator itself does not compare the other
    outputs. *)
Theorem payment_revision_accepted (current revision : FileContractRevision)
        (payment : Currency) :
  wfContract current = true ->
  ValidatePaymentRevision current revision payment = Ok tt ->
  (exists cvr cmr cvh cmh,
     valueAt (ValidProofOutputs current) 0 = Some cvr
     /\ valueAt (MissedProofOutputs current) 0 = Some cmr
     /\ valueAt (ValidProofOutputs current) 1 = Some cvh
     /\ valueAt (MissedProofOutputs current) 1 = Some cmh
     /\ payment <= cvr /\ payment <= cmr
     /\ valueAt (ValidProofOutputs revision) 0 = Some (cvr - payment)
     /\ valueAt (MissedProofOutputs revision) 0 = Some (cmr - payment)
     /\ valueAt (ValidProofOutputs revision) 1 = Some (cvh + payment)
     /\ valueAt (MissedProofOutputs revision) 1 = Some (cmh + payment))
  /\ (length (ValidProofOutputs current) = 2%nat ->
      length (MissedProofOutputs current) = 3%nat ->
      sumValues (MissedProofOutputs current) = sumValues (ValidProofOutputs current) ->
      forall i, (2 <= i)%nat ->
        valueAt (ValidProofOutputs revision) i = valueAt (ValidProofOutputs current) i
        /\ valueAt (MissedProofOutputs revision) i = valueAt (MissedProofOutputs current) i).
Proof.
  intros Hwf H. split; [apply ValidatePaymentRevision_transfer; assumption |].
  intros Hlv Hlm Hsum i Hi.
  destruct (ValidatePaymentRevision_transfer _ _ _ Hwf H)
    as (cvr & cmr & cvh & cmh & C0 & C1 & C2 & C3 & Hp0 & Hp1 & R0 & R1 & R2 & R3).
  apply ValidatePaymentRevision_std in H. destruct H as (H & _ & _).
  apply validateStdRevision_Ok in H.
  destruct H as [Lv Lm _ _ _ Sm _ _ _ _ _ _ _ _].
  rewrite Hlv in Lv. rewrite Hlm in Lm. rewrite <- Hsum in Sm.
  destruct revision as [pid uc [fs mr ws we po rvalid rmissed uh rn]].
  destruct current as [pid' uc' [fs' mr' ws' we' po' cvalid cmissed uh' rn']].
  simpl in *.
  destruct cvalid as [| c0 [| c1 [| c2 cvalid]]]; try discriminate.
  destruct rvalid as [| r0 [| r1 [| r2 rvalid]]]; try discriminate.
  destruct cmissed as [| d0 [| d1 [| d2 [| d3 cmissed]]]]; try discriminate.
  destruct rmissed as [| e0 [| e1 [| e2 [| e3 rmissed]]]]; try discriminate.
  unfold valueAt in *. simpl in *.
  inversion C0; inversion C1; inversion C2; inversion C3;
    inversion R0; inversion R1; inversion R2; inversion R3; subst.
  destruct i as [| [| [| i]]]; try lia; simpl.
  - split; [reflexivity |]. f_equal. lia.
  - split; [reflexivity |]. destruct i; reflexivity.
Qed.

(** ** Renewals *)

(** C5.  An accepted renewal returns [(baseHostRevenue, riskedCollateral,
    lockedCollateral)] where, with [hostBurn] the renewal's valid host
    payout less its missed host payout: [hostBurn] is at most
    [baseHostRevenue + baseRiskedCollateral], the void output carries
    [hostBurn], the risked collateral is [hostBurn - baseHostRevenue] when
    [hostBurn >= baseHostRevenue] and zero otherwise, and the locked
    collateral is the valid host payout less [baseHostRevenue], at most
    [MaxCollateral]. *)
Theorem renewal_accepted (existing : FileContractRevision) (renewal : FileContract)
        (hostKey renterKey : UnlockKey) (baseHostRevenue baseRiskedCollateral : Currency)
        (currentHeight : uint64) (settings : rhpv2.HostSettings)
        (storageRevenue riskedCollateral lockedCollateral : Currency) :
  wfContract renewal = true ->
  ValidateContractRenewal existing renewal hostKey renterKey baseHostRevenue
                          baseRiskedCollateral currentHeight settings
    = Ok (storageRevenue, riskedCollateral, lockedCollateral) ->
  exists validHost missedHost void,
    valueAt (ValidProofOutputs renewal) 1 = Some validHost
    /\ valueAt (MissedProofOutputs renewal) 1 = Some missedHost
    /\ valueAt (MissedProofOutputs renewal) 2 = Some void
    /\ missedHost <= validHost
    /\ let hostBurn := validHost - missedHost in
       storageRevenue = baseHostRevenue
       /\ hostBurn <= baseHostRevenue + baseRiskedCollateral
       /\ void = hostBurn
       /\ riskedCollateral =
            (if baseHostRevenue <=? hostBurn then hostBurn - baseHostRevenue else 0)
       /\ baseHostRevenue <= validHost
       /\ lockedCollateral = validHost - baseHostRevenue
       /\ lockedCollateral <= rhpv2.MaxCollateral settings.
Proof.
  intros Hwf H. unfold wfContract in Hwf. tests.
  unfold ValidateContractRenewal in H. payouts H. repeat step H.
  assert (v1 = v) by congruence. subst v1 flag flag1.
  pose proof (wfOutputs_valueAt _ _ _ H0 P) as Hv.
  apply SubWithUnderflow_exact in S, S1; try assumption.
  destruct S as [Hle ->], S1 as [Hbase ->].
  apply Add_Ok in E. destruct E as [-> _].
  pose proof (SubWithUnderflow_flag _ _ _ _ S0) as Hflag.
  inversion H; subst storageRevenue lockedCollateral. clear H.
  tests.
  exists v, v0, (Value o1). cbn zeta.
  repeat split; try assumption.
  - unfold valueAt. rewrite I1. reflexivity.
  - rewrite Hflag.
    destruct (v - v0 <? baseHostRevenue) eqn:F;
      destruct (baseHostRevenue <=? v - v0) eqn:F'; tests; try lia.
    + reflexivity.
    + destruct flag0; [discriminate |].
      apply SubWithUnderflow_exact in S0; [tauto | lia].
Qed.

(** ** Program revisions *)

(** C6.  An accepted program revision leaves the renter's valid payout,
    the host's valid payout and the renter's missed payout unchanged; the
    decrease of the host's missed payout equals the increase of the void
    output, is at most [storage + collateral], and is the burn
    returned. *)
Theorem program_revision_accepted (current revision : FileContractRevision)
        (storage collateral burn : Currency) :
  wfContract current = true ->
  wfContract revision = true ->
  ValidateProgramRevision current revision storage collateral = Ok burn ->
  (exists v, valueAt (ValidProofOutputs revision) 0 = Some v
             /\ valueAt (ValidProofOutputs current) 0 = Some v)
  /\ (exists v, valueAt (ValidProofOutputs revision) 1 = Some v
                /\ valueAt (ValidProofOutputs current) 1 = Some v)
  /\ (exists v, valueAt (MissedProofOutputs revision) 0 = Some v
                /\ valueAt (MissedProofOutputs current) 0 = Some v)
  /\ exists currentHost revisionHost currentVoid revisionVoid,
       valueAt (MissedProofOutputs current) 1 = Some currentHost
       /\ valueAt (MissedProofOutputs revision) 1 = Some revisionHost
       /\ valueAt (MissedProofOutputs current) 2 = Some currentVoid
       /\ valueAt (MissedProofOutputs revision) 2 = Some revisionVoid
       /\ revisionHost <= currentHost
       /\ currentVoid <= revisionVoid
       /\ currentHost - revisionHost = revisionVoid - currentVoid
       /\ currentHost - revisionHost <= storage + collateral
       /\ burn = currentHost - revisionHost.
Proof.
  intros Hc Hr H. unfold wfContract in Hc, Hr. tests.
  unfold ValidateProgramRevision in H. payouts H. repeat step H.
  subst flag flag0. inversion H; subst d. clear H.
  assert (valueAt (MissedProofOutputs revision) 2 = Some (Value o)) as Prv
      by (unfold valueAt; rewrite I; reflexivity).
  assert (valueAt (MissedProofOutputs current) 2 = Some (Value o0)) as Pcv
      by (unfold valueAt; rewrite I0; reflexivity).
  apply SubWithUnderflow_exact in S;
    [| eapply wfOutputs_valueAt; [| exact P]; assumption].
  apply SubWithUnderflow_exact in S0;
    [| eapply wfOutputs_valueAt; [| exact Prv]; assumption].
  destruct S as [Hle ->], S0 as [Hle' ->].
  apply Add_Ok in E0. destruct E0 as [-> _]. tests. subst.
  repeat split; eauto.
  exists v, v0, (Value o0), (Value o). repeat split; auto.
Qed.

(** ** Formation *)

Lemma add64_le (a b : uint64) : add64 a b <= a + b.
Proof. unfold add64. apply N.Div0.mod_le. Qed.

Lemma add64_small (a b : uint64) : a + b < 2 ^ 64 -> add64 a b = a + b.
Proof. unfold add64. apply N.mod_small. Qed.

Lemma formation_checks_accept (fc : FileContract) (hostKey renterKey : UnlockKey)
      (h : uint64) (S : rhpv2.HostSettings) (validHost : Currency) :
  wfContract fc = true ->
  h + rhpv2.MaxDuration S < 2 ^ 64 ->
  valueAt (ValidProofOutputs fc) 1 = Some validHost ->
  FormationChecks fc hostKey renterKey h S ->
  ValidateContractFormation fc hostKey renterKey h S
    = Ok (validHost - rhpv2.ContractPrice S).
Proof.
  intros Hwf Hdur Hvh
    (Hfs & Hrn & Hmr & Hsoon & Hlong & Hwin & Hlv & Hlm & Hav & Ham & Hvoid & Hzero
     & (vh & mh & Hvh' & Hmh & Hprice & Heq & Hmax) & Hunlock).
  assert (vh = validHost) by congruence. subst vh mh.
  assert (validHost < CurrencyRange) as Hrange.
  { unfold wfContract in Hwf. apply andb_true_iff in Hwf.
    destruct Hwf as [Hwv _]. exact (wfOutputs_valueAt _ _ _ Hwv Hvh). }
  clear Hwf Hvh'.
  unfold ValidateContractFormation, ValidHostPayout, MissedHostPayout,
    ValidHostOutput, MissedHostOutput.
  destruct fc as [fs mr ws we po valid missed uh rn]. simpl in *.
  destruct valid as [| v0 [| v1 [| v2 valid]]]; try discriminate.
  destruct missed as [| m0 [| m1 [| m2 [| m3 missed]]]]; try discriminate.
  unfold valueAt, addressAt in *. simpl in *.
  injection Hvh as Ev1. injection Hmh as Em1. injection Hav as Eav.
  injection Ham as Eam. injection Hvoid as Evoid. injection Hzero as Ezero.
  rewrite Hfs, Hrn, Hmr, Eav, Eam, Evoid, Ezero, Ev1, Em1, Hunlock.
  assert ((ws <? add64 h (rhpv2.WindowSize S)) = false) as ->
      by (apply N.ltb_ge; pose proof (add64_le h (rhpv2.WindowSize S)); lia).
  rewrite (add64_small _ _ Hdur).
  assert ((h + rhpv2.MaxDuration S <? ws) = false) as -> by (apply N.ltb_ge; lia).
  assert ((we <? add64 ws (rhpv2.WindowSize S)) = false) as ->
      by (apply N.ltb_ge; pose proof (add64_le ws (rhpv2.WindowSize S)); lia).
  unfold CmpLt, CmpGt, Equals, ZeroCurrency.
  assert ((validHost <? rhpv2.ContractPrice S) = false) as Hlt
      by (apply N.ltb_ge; lia).
  assert ((rhpv2.MaxCollateral S <? validHost) = false) as ->
      by (apply N.ltb_ge; lia).
  rewrite Hlt, !N.eqb_refl. cbn [negb failIf bind Nat.eqb length].
  unfold Sub.
  destruct (SubWithUnderflow validHost (rhpv2.ContractPrice S)) as [d flag] eqn:E.
  pose proof (SubWithUnderflow_flag _ _ _ _ E) as Hflag.
  rewrite Hlt in Hflag. subst flag.
  apply SubWithUnderflow_exact in E; [| assumption]. destruct E as [_ ->].
  reflexivity.
Qed.

(** C8 (as amended).  A contract that satisfies the formation checks of
    the specification is accepted with [fc.ValidHostPayout -
    ContractPrice], provided [h + MaxDuration] fits 64 bits (the code
    computes that sum modulo [2^64] and rejects the contract when the
    reduced sum is below the window start).  The scenario of the
    specification returns 40. *)
Theorem formation_accepted :
  (forall (fc : FileContract) (hostKey renterKey : UnlockKey) (h : uint64)
          (S : rhpv2.HostSettings) (validHost : Currency),
      wfContract fc = true ->
      h + rhpv2.MaxDuration S < 2 ^ 64 ->
      valueAt (ValidProofOutputs fc) 1 = Some validHost ->
      FormationChecks fc hostKey renterKey h S ->
      ValidateContractFormation fc hostKey renterKey h S
        = Ok (validHost - rhpv2.ContractPrice S)
        /\ rhpv2.ContractPrice S <= validHost)
  /\ (forall (R H : Address) (hostKey renterKey : UnlockKey),
        ValidateContractFormation
          (formationScenario R H (UnlockHashOf (contractUnlockConditions hostKey renterKey)))
          hostKey renterKey 0 (formationSettings H)
        = Ok 40).
Proof.
  split.
  - intros fc hostKey renterKey h S validHost Hwf Hdur Hvh Hchecks.
    split; [apply formation_checks_accept; assumption |].
    destruct Hchecks as (_ & _ & _ & _ & _ & _ & _ & _ & _ & _ & _ & _
                         & (vh & mh & Hvh' & _ & Hprice & _) & _).
    congruence.
  - intros R H hostKey renterKey.
    unfold ValidateContractFormation. simpl.
    rewrite !N.eqb_refl. reflexivity.
Qed.

(** ** Revise *)

Lemma index_app_here {A : Type} (pre rest : list A) (a : A) :
  index (pre ++ a :: rest) (length pre) = Ok a.
Proof.
  unfold index. rewrite nth_error_app2 by lia. rewrite Nat.sub_diag. reflexivity.
Qed.

Lemma reviseOutputs_same (outputs : list SiacoinOutput) :
  forall pre : list SiacoinOutput,
    reviseOutputs (pre ++ outputs) (length pre) (map Value outputs) = Ok outputs.
Proof.
  induction outputs as [| o rest IH]; intros pre; simpl; [reflexivity |].
  rewrite index_app_here. cbn [bind].
  specialize (IH (pre ++ [o])). rewrite <- app_assoc, length_app in IH.
  simpl in IH. rewrite Nat.add_1_r in IH. rewrite IH. simpl.
  destruct o; reflexivity.
Qed.

Lemma sumSameAddress_same (mkErr : nat -> error) (outputs : list SiacoinOutput) :
  forall (pre : list SiacoinOutput) (total : Currency),
    sumSameAddress mkErr (pre ++ outputs) (length pre) outputs total
    = sumOutputs outputs total.
Proof.
  induction outputs as [| o rest IH]; intros pre total; simpl; [reflexivity |].
  rewrite index_app_here. cbn [bind]. rewrite N.eqb_refl. cbn [negb failIf bind].
  destruct (Add total (Value o)) as [t | e | p]; cbn [bind]; try reflexivity.
  specialize (IH (pre ++ [o]) t). rewrite <- app_assoc, length_app in IH.
  simpl in IH. rewrite Nat.add_1_r in IH. exact IH.
Qed.

Lemma reviseOutputs_own (outputs : list SiacoinOutput) :
  reviseOutputs outputs 0 (map Value outputs) = Ok outputs.
Proof. exact (reviseOutputs_same outputs []). Qed.

Lemma sumSameAddress_own (mkErr : nat -> error) (outputs : list SiacoinOutput)
      (total : Currency) :
  sumSameAddress mkErr outputs 0 outputs total = sumOutputs outputs total.
Proof. exact (sumSameAddress_same mkErr outputs [] total). Qed.

Lemma Revise_same (r : FileContractRevision) (n : uint64) :
  RevisionNumber r < n ->
  Revise r n (map Value (ValidProofOutputs r)) (map Value (MissedProofOutputs r))
  = Ok (withRevisionNumber r n).
Proof.
  intros Hn. unfold Revise. rewrite !length_map, !Nat.eqb_refl.
  cbn [negb orb failIf bind].
  assert ((n <=? RevisionNumber r) = false) as -> by (apply N.leb_gt; assumption).
  cbn [failIf bind].
  rewrite !reviseOutputs_own.
  reflexivity.
Qed.

Lemma validateStdRevision_same (r : FileContractRevision) (n : uint64) :
  RevisionNumber r < n ->
  validateStdRevision r (withRevisionNumber r n) = Ok tt
  <-> sumValues (ValidProofOutputs r) < CurrencyRange
      /\ sumValues (MissedProofOutputs r) = sumValues (ValidProofOutputs r)
      /\ exists v, valueAt (ValidProofOutputs r) 0 = Some v
                   /\ valueAt (MissedProofOutputs r) 0 = Some v.
Proof.
  intros Hn. split.
  - intros H. pose proof (validateStdRevision_Ok _ _ H) as Hinv.
    destruct Hinv as [_ _ _ _ _ Sm _ _ _ _ _ (rv & cv & Hrv & _) _ Heq].
    simpl in *. split; [| split; [assumption | exists rv; split; congruence]].
    unfold validateStdRevision in H. rewrite sumOutputs_zero in H.
    destruct (CurrencyRange <=? sumValues (ValidProofOutputs r)) eqn:F;
      [discriminate | now apply N.leb_gt].
  - intros (Hrange & Hsum & v & Hv & Hm).
    unfold validateStdRevision, ValidRenterPayout, MissedRenterPayout,
      ValidRenterOutput, MissedRenterOutput.
    simpl.
    rewrite !sumSameAddress_own.
    rewrite !sumOutputs_zero, Hsum.
    apply N.leb_gt in Hrange. rewrite Hrange. cbn [bind].
    apply payout_Ok in Hv, Hm. rewrite Hv, Hm.
    assert ((n <=? RevisionNumber r) = false) as -> by (apply N.leb_gt; assumption).
    unfold Equals, CmpGt. rewrite !N.eqb_refl, !Nat.eqb_refl.
    cbn [negb failIf bind]. rewrite N.ltb_irrefl, N.eqb_refl. reflexivity.
Qed.

(** C9 (as amended).  For a revision [r] whose revision number is below
    the maximum, [Revise] with [r.RevisionNumber+1] and the values of
    [r]'s own outputs succeeds and returns [r] with the new revision
    number: every output keeps its value and address.  The result passes
    [validateStdRevision] against [r] exactly when [r]'s valid values sum
    within the currency range, its missed values sum to the same amount,
    and it has a renter output of equal value in both vectors. *)
Theorem revise_same_values (r : FileContractRevision) :
  RevisionNumber r < MaxUint64 ->
  exists r',
    Revise r (add64 (RevisionNumber r) 1)
           (map Value (ValidProofOutputs r)) (map Value (MissedProofOutputs r)) = Ok r'
    /\ RevisionNumber r' = RevisionNumber r + 1
    /\ ValidProofOutputs r' = ValidProofOutputs r
    /\ MissedProofOutputs r' = MissedProofOutputs r
    /\ (validateStdRevision r r' = Ok tt
        <-> sumValues (ValidProofOutputs r) < CurrencyRange
            /\ sumValues (MissedProofOutputs r) = sumValues (ValidProofOutputs r)
            /\ exists v, valueAt (ValidProofOutputs r) 0 = Some v
                         /\ valueAt (MissedProofOutputs r) 0 = Some v).
Proof.
  intros Hmax. unfold MaxUint64 in Hmax.
  assert (add64 (RevisionNumber r) 1 = RevisionNumber r + 1) as ->
      by (apply add64_small; lia).
  exists (withRevisionNumber r (RevisionNumber r + 1)).
  split; [apply Revise_same; lia |].
  repeat (split; [reflexivity |]).
  apply validateStdRevision_same. lia.
Qed.

(** ** Renewal: the host's missed address *)

(** C10.  [ValidateContractRenewal] never reads the address of the
    renewal's missed host output: replacing it leaves the result
    unchanged.  The sample renewal, whose missed host output pays an
    address other than the host's, is accepted. *)
Theorem renewal_missed_host_address_free :
  (forall (existing : FileContractRevision) (renewal : FileContract)
          (hostKey renterKey : UnlockKey) (baseHostRevenue baseRiskedCollateral : Currency)
          (currentHeight : uint64) (settings : rhpv2.HostSettings) (a : Address),
      ValidateContractRenewal existing (withMissedHostAddress renewal a) hostKey renterKey
                              baseHostRevenue baseRiskedCollateral currentHeight settings
      = ValidateContractRenewal existing renewal hostKey renterKey
                                baseHostRevenue baseRiskedCollateral currentHeight settings)
  /\ ValidateContractRenewal Samples.current Samples.renewal Samples.hostKey
                             Samples.renterKey 3 5 0 Samples.settings
     = Ok (3, 2, 47)
  /\ addressAt (MissedProofOutputs Samples.renewal) 1 = Some Samples.otherAddress
  /\ Samples.otherAddress <> rhpv2.Address Samples.settings.
Proof.
  split; [| split; [reflexivity | split; [reflexivity | discriminate]]].
  intros existing [fs mr ws we po valid missed uh rn] hostKey renterKey
         baseHostRevenue baseRiskedCollateral currentHeight settings a.
  destruct missed as [| m0 [| m1 rest]]; try reflexivity.
Qed.

(** ** Indexing past the current outputs *)

(** C4 (the code at the failing inputs).  On a successor with three valid
    outputs of a current revision with two, [validateStdRevision] and
    [ValidateClearingRevision] index the current valid outputs at 2 and
    abort; no error is returned. *)
Theorem longer_revision_aborts :
  validateStdRevision Samples.current Samples.longer
    = Panic (IndexOutOfRange 2 2)
  /\ ValidateClearingRevision Samples.current Samples.longerCleared
     = Panic (IndexOutOfRange 2 2).
Proof.
  split; [reflexivity |].
  unfold ValidateClearingRevision. simpl. rewrite N.eqb_refl. reflexivity.
Qed.

(** ** The foundational predicate, exactly *)

Lemma sumSameAddress_complete (mkErr : nat -> error) (current outputs : list SiacoinOutput) :
  length outputs = length current ->
  (forall i, addressAt outputs i = addressAt current i) ->
  sumValues outputs < CurrencyRange ->
  sumSameAddress mkErr current 0 outputs ZeroCurrency = Ok (sumValues outputs).
Proof.
  intros Hlen Haddr Hsum. unfold ZeroCurrency.
  destruct (sumSameAddress_spec mkErr current outputs 0 0 CurrencyRange_pos)
    as [_ _ | k _ _ _ Hneq | k _ Hk Hcur | Hover].
  - reflexivity.
  - rewrite Nat.sub_0_r in Hneq. contradiction (Hneq (Haddr k)).
  - lia.
  - simpl in Hover. lia.
Qed.

Lemma validateStdRevision_exact (C R : FileContractRevision) :
  validateStdRevision C R = Ok tt
  <-> StdInvariants C R /\ sumValues (ValidProofOutputs C) < CurrencyRange.
Proof.
  split.
  - intros H. split; [apply validateStdRevision_Ok; assumption |].
    unfold validateStdRevision in H. rewrite sumOutputs_zero in H.
    destruct (CurrencyRange <=? sumValues (ValidProofOutputs C)) eqn:F;
      [discriminate | now apply N.leb_gt].
  - intros [[Lv Lm Av Am Sv Sm Hu Hc Hws Hwe Hn (rv & cv & Hrv & Hcv & Hle)
               (rm & cm & Hrm & Hcm & Hle') Heq] Hrange].
    unfold validateStdRevision, ValidRenterPayout, MissedRenterPayout,
      ValidRenterOutput, MissedRenterOutput.
    rewrite sumOutputs_zero.
    assert ((CurrencyRange <=? sumValues (ValidProofOutputs C)) = false) as ->
        by (apply N.leb_gt; assumption).
    cbn [bind].
    rewrite (sumSameAddress_complete _ _ _ Lv Av) by lia. cbn [bind].
    rewrite (sumSameAddress_complete _ _ _ Lm Am) by lia. cbn [bind].
    rewrite Sv, Sm, Hu, Hc, Hws, Hwe, Lv, Lm.
    unfold Equals, CmpGt. rewrite !N.eqb_refl, !Nat.eqb_refl.
    assert ((RevisionNumber R <=? RevisionNumber C) = false) as ->
        by (apply N.leb_gt; assumption).
    cbn [negb failIf bind].
    assert (rm = rv) by congruence. subst rm.
    apply payout_Ok in Hrv, Hcv, Hrm, Hcm. rewrite Hrv, Hcv, Hrm, Hcm.
    cbn [bind].
    assert ((cv <? rv) = false) as -> by (apply N.ltb_ge; assumption).
    assert ((cm <? rv) = false) as -> by (apply N.ltb_ge; assumption).
    rewrite N.eqb_refl. reflexivity.
Qed.

(** X1.  [validateStdRevision] accepts a pair exactly when the invariants
    it establishes hold and the current valid values sum within the
    currency range. *)
Theorem validateStdRevision_iff (C R : FileContractRevision) :
  validateStdRevision C R = Ok tt
  <-> StdInvariants C R /\ sumValues (ValidProofOutputs C) < CurrencyRange.
Proof. exact (validateStdRevision_exact C R). Qed.

(** X2.  Acceptance by [validateStdRevision] composes: a successor of an
    accepted successor is accepted against the first revision. *)
Theorem validateStdRevision_trans (A B C : FileContractRevision) :
  validateStdRevision A B = Ok tt ->
  validateStdRevision B C = Ok tt ->
  validateStdRevision A C = Ok tt.
Proof.
  intros HAB HBC. apply validateStdRevision_exact in HAB, HBC.
  destruct HAB as [[Lv Lm Av Am Sv Sm Hu Hc Hws Hwe Hn (bv & av & Hbv & Hav & Hle)
                      (bm & am & Hbm & Ham & Hle') Heq] Hrange].
  destruct HBC as [[Lv' Lm' Av' Am' Sv' Sm' Hu' Hc' Hws' Hwe' Hn'
                      (cv & bv' & Hcv & Hbv' & Hle2)
                      (cm & bm' & Hcm & Hbm' & Hle2') Heq'] _].
  apply validateStdRevision_exact. split; [| assumption].
  assert (bv' = bv) by congruence. assert (bm' = bm) by congruence. subst.
  constructor; try congruence; try lia.
  - exists cv, av. repeat split; try assumption. lia.
  - exists cm, am. repeat split; try assumption. lia.
Qed.

(** ** The errors of the foundational predicate *)

Lemma sumSameAddress_Err (mkErr : nat -> error) (current outputs : list SiacoinOutput)
      (e : error) :
  sumSameAddress mkErr current 0 outputs ZeroCurrency = Err e ->
  exists i, e = mkErr i
            /\ (i < length outputs)%nat /\ (i < length current)%nat
            /\ addressAt outputs i <> addressAt current i.
Proof.
  intros H. unfold ZeroCurrency in H.
  pose proof (sumSameAddress_spec mkErr current outputs 0 0 CurrencyRange_pos) as Hs.
  rewrite H in Hs. inversion Hs as [| k _ Hk Hc Hneq | |]. subst.
  rewrite Nat.sub_0_r in Hk, Hneq. eauto.
Qed.

Lemma payout_not_Err (outputs : list SiacoinOutput) (i : nat) (e : error) :
  (o <- index outputs i ;; Ok (Value o)) <> Err e.
Proof. unfold index. destruct (nth_error outputs i); discriminate. Qed.

(** One step through a run that ended in [Err]. *)
Ltac errstep H :=
  lazymatch type of H with
  | bind (failIf ?c _) _ = Err _ =>
      let G := fresh "G" in
      destruct c eqn:G; cbn [failIf bind] in H;
      [try discriminate H; injection H as <- |]
  | bind (o <- index ?l ?i ;; Ok (Value o)) _ = Err _ =>
      let v := fresh "v" in let P := fresh "P" in
      destruct (o <- index l i ;; Ok (Value o)) as [v | ? | ?] eqn:P; cbn [bind] in H;
      [apply payout_Ok in P | exfalso; exact (payout_not_Err _ _ _ P) | discriminate H]
  end.

(** X3.  Every error of [validateStdRevision] names a violated condition,
    and no other error is returned.  In particular the two errors on the
    number of outputs are returned only for a revision with fewer outputs
    than the current one. *)
Theorem validateStdRevision_error (C R : FileContractRevision) (e : error) :
  validateStdRevision C R = Err e -> stdErrorMeaning C R e.
Proof.
  intros H. unfold validateStdRevision in H. payouts H.
  rewrite sumOutputs_zero in H.
  destruct (CurrencyRange <=? sumValues (ValidProofOutputs C)) eqn:Hold;
    [discriminate |].
  cbn [bind] in H.
  destruct (sumSameAddress ErrValidAddressChanged (ValidProofOutputs C) 0
              (ValidProofOutputs R) ZeroCurrency) as [sv | ev | pv] eqn:Ev;
    cbn [bind] in H; [| | discriminate].
  2:{ injection H as <-. apply sumSameAddress_Err in Ev.
      destruct Ev as (i & -> & Hi & Hc & Hneq). simpl. auto. }
  destruct (sumSameAddress ErrMissedAddressChanged (MissedProofOutputs C) 0
              (MissedProofOutputs R) ZeroCurrency) as [sm | em | pm] eqn:Em;
    cbn [bind] in H; [| | discriminate].
  2:{ injection H as <-. apply sumSameAddress_Err in Em.
      destruct Em as (i & -> & Hi & Hc & Hneq). simpl. auto. }
  apply sumSameAddress_Ok in Ev, Em.
  destruct Ev as (-> & Hlv & _), Em as (-> & Hlm & _).
  repeat errstep H; tests; simpl; try assumption; try lia.
  all: try (do 2 eexists; eauto; fail).
  discriminate H.
Qed.

(** ** Revise, in general *)

Lemma withValues_length (outputs : list SiacoinOutput) (values : list Currency) :
  length values = length outputs -> length (withValues outputs values) = length outputs.
Proof.
  intros H. unfold withValues. rewrite length_map, length_combine. lia.
Qed.

Lemma withValues_nth (outputs : list SiacoinOutput) :
  forall (values : list Currency) (i : nat),
    length values = length outputs ->
    nth_error (withValues outputs values) i =
      match nth_error outputs i, nth_error values i with
      | Some o, Some v => Some {| Value := v; OutputAddress := OutputAddress o |}
      | _, _ => None
      end.
Proof.
  induction outputs as [| o rest IH]; intros [| v values] i H; try discriminate.
  - destruct i; reflexivity.
  - destruct i as [| i]; [reflexivity |]. simpl. apply IH. simpl in H. lia.
Qed.

Lemma withValues_addressAt (outputs : list SiacoinOutput) (values : list Currency) (i : nat) :
  length values = length outputs ->
  addressAt (withValues outputs values) i = addressAt outputs i.
Proof.
  intros H. unfold addressAt. rewrite withValues_nth by assumption.
  destruct (nth_error outputs i) as [o |] eqn:Eo; [| reflexivity].
  destruct (nth_error values i) as [v |] eqn:Ev; [reflexivity |].
  apply nth_error_None in Ev. apply nth_error_length in Eo. lia.
Qed.

Lemma withValues_valueAt (outputs : list SiacoinOutput) (values : list Currency) (i : nat) :
  length values = length outputs ->
  valueAt (withValues outputs values) i = nth_error values i.
Proof.
  intros H. unfold valueAt. rewrite withValues_nth by assumption.
  destruct (nth_error values i) as [v |] eqn:Ev.
  - destruct (nth_error outputs i) as [o |] eqn:Eo; [reflexivity |].
    apply nth_error_None in Eo. apply nth_error_length in Ev. lia.
  - destruct (nth_error outputs i); reflexivity.
Qed.

Lemma withValues_sum (outputs : list SiacoinOutput) :
  forall values : list Currency,
    length values = length outputs ->
    sumValues (withValues outputs values) = sumCurrencies values.
Proof.
  induction outputs as [| o rest IH]; intros [| v values] H; try discriminate.
  - reflexivity.
  - simpl. f_equal. apply IH. simpl in H. lia.
Qed.

Lemma withValues_own (outputs : list SiacoinOutput) :
  withValues outputs (map Value outputs) = outputs.
Proof.
  induction outputs as [| [v a] rest IH]; [reflexivity |].
  unfold withValues in *. simpl. rewrite IH. reflexivity.
Qed.

Lemma reviseOutputs_spec (values : list Currency) :
  forall pre old : list SiacoinOutput,
    length values = length old ->
    reviseOutputs (pre ++ old) (length pre) values = Ok (withValues old values).
Proof.
  induction values as [| v rest IH]; intros pre [| o old] H; try discriminate.
  - reflexivity.
  - simpl. rewrite index_app_here. cbn [bind].
    specialize (IH (pre ++ [o]) old). rewrite <- app_assoc, length_app in IH.
    simpl in IH. rewrite Nat.add_1_r in IH. rewrite IH by (simpl in H; lia).
    reflexivity.
Qed.

Lemma Revise_exact (r : FileContractRevision) (n : uint64) (valid missed : list Currency) :
  Revise r n valid missed =
    if negb (Nat.eqb (length valid) (length (ValidProofOutputs r)))
       || negb (Nat.eqb (length missed) (length (MissedProofOutputs r)))
    then Err ErrIncorrectNumberOfOutputs
    else if n <=? RevisionNumber r
         then Err (ErrRevisionNumberNotGreater (RevisionNumber r))
         else Ok (revised r n (withValues (ValidProofOutputs r) valid)
                          (withValues (MissedProofOutputs r) missed)).
Proof.
  unfold Revise.
  destruct (Nat.eqb (length valid) (length (ValidProofOutputs r))) eqn:Ev;
    [| reflexivity].
  destruct (Nat.eqb (length missed) (length (MissedProofOutputs r))) eqn:Em;
    [| reflexivity].
  cbn [negb orb failIf bind].
  destruct (n <=? RevisionNumber r); [reflexivity |]. cbn [failIf bind].
  apply Nat.eqb_eq in Ev, Em.
  pose proof (reviseOutputs_spec valid [] _ Ev) as Hv.
  pose proof (reviseOutputs_spec missed [] _ Em) as Hm.
  simpl in Hv, Hm. rewrite Hv, Hm. reflexivity.
Qed.

(** X4.  [Revise] never aborts.  It succeeds exactly when both value
    vectors have the lengths of the revision's output vectors and the new
    number is greater than the current one; the wrong lengths are reported
    first.  The result carries the new number, the given values at the old
    addresses, and every other field of the revision. *)
Theorem Revise_result (r : FileContractRevision) (n : uint64) (valid missed : list Currency) :
  (forall p, Revise r n valid missed <> Panic p)
  /\ (Revise r n valid missed = Err ErrIncorrectNumberOfOutputs
      <-> length valid <> length (ValidProofOutputs r)
          \/ length missed <> length (MissedProofOutputs r))
  /\ (forall e, Revise r n valid missed = Err e ->
        e = ErrIncorrectNumberOfOutputs
        \/ e = ErrRevisionNumberNotGreater (RevisionNumber r) /\ n <= RevisionNumber r)
  /\ (forall r', Revise r n valid missed = Ok r' ->
        length valid = length (ValidProofOutputs r)
        /\ length missed = length (MissedProofOutputs r)
        /\ RevisionNumber r < n
        /\ r' = revised r n (ValidProofOutputs r') (MissedProofOutputs r')
        /\ (forall i, addressAt (ValidProofOutputs r') i = addressAt (ValidProofOutputs r) i
                      /\ valueAt (ValidProofOutputs r') i = nth_error valid i)
        /\ (forall i, addressAt (MissedProofOutputs r') i = addressAt (MissedProofOutputs r) i
                      /\ valueAt (MissedProofOutputs r') i = nth_error missed i)).
Proof.
  rewrite Revise_exact.
  destruct (Nat.eqb (length valid) (length (ValidProofOutputs r))) eqn:Ev;
    destruct (Nat.eqb (length missed) (length (MissedProofOutputs r))) eqn:Em;
    cbn [negb orb]; tests.
  2-4: (repeat split; try discriminate; auto; intros; try discriminate; auto;
        injection H as <-; auto).
  destruct (n <=? RevisionNumber r) eqn:En; tests.
  - repeat split; try discriminate.
    + intros [H | H]; contradiction.
    + intros e H. injection H as <-. auto.
  - repeat split; try discriminate.
    + intros [H | H]; contradiction.
    + injection H as <-. assumption.
    + injection H as <-. assumption.
    + injection H as <-. assumption.
    + injection H as <-. reflexivity.
    + injection H as <-. simpl. apply withValues_addressAt. assumption.
    + injection H as <-. simpl. apply withValues_valueAt. assumption.
    + injection H as <-. simpl. apply withValues_addressAt. assumption.
    + injection H as <-. simpl. apply withValues_valueAt. assumption.
Qed.

(** X5.  The result of [Revise] passes [validateStdRevision] against the
    revision it was built from exactly when the current valid values sum
    within the currency range, both new value vectors sum to that amount,
    and the new renter values (index 0) are equal to each other and at
    most the current renter's valid and missed values. *)
Theorem Revise_validateStdRevision (r r' : FileContractRevision) (n : uint64)
        (valid missed : list Currency) :
  Revise r n valid missed = Ok r' ->
  validateStdRevision r r' = Ok tt
  <-> sumValues (ValidProofOutputs r) < CurrencyRange
      /\ sumCurrencies valid = sumValues (ValidProofOutputs r)
      /\ sumCurrencies missed = sumValues (ValidProofOutputs r)
      /\ exists renter currentValid currentMissed,
           nth_error valid 0 = Some renter
           /\ nth_error missed 0 = Some renter
           /\ valueAt (ValidProofOutputs r) 0 = Some currentValid
           /\ valueAt (MissedProofOutputs r) 0 = Some currentMissed
           /\ renter <= currentValid
           /\ renter <= currentMissed.
Proof.
  intros H. rewrite Revise_exact in H.
  destruct (Nat.eqb (length valid) (length (ValidProofOutputs r))) eqn:Ev;
    [| discriminate].
  destruct (Nat.eqb (length missed) (length (MissedProofOutputs r))) eqn:Em;
    [| discriminate].
  cbn [negb orb] in H.
  destruct (n <=? RevisionNumber r) eqn:En; [discriminate |].
  injection H as <-. tests.
  rewrite validateStdRevision_exact. split.
  - intros [[_ _ _ _ Sv Sm _ _ _ _ _ (rv & cv & Hrv & Hcv & Hle)
               (rm & cm & Hrm & Hcm & Hle') Heq] Hrange].
    cbn [ValidProofOutputs MissedProofOutputs FileContractOf revised] in *.
    rewrite withValues_sum in Sv, Sm by assumption.
    rewrite (withValues_valueAt _ _ _ Ev) in Hrv, Heq.
    rewrite (withValues_valueAt _ _ _ Em) in Hrm, Heq.
    assert (rm = rv) by congruence. subst rm.
    repeat (split; [assumption |]).
    exists rv, cv, cm. repeat split; assumption.
  - intros (Hrange & Sv & Sm & renter & cv & cm & Hv & Hm & Hcv & Hcm & Hle & Hle').
    split; [| assumption].
    constructor; simpl; try reflexivity; try assumption.
    + apply withValues_length; assumption.
    + apply withValues_length; assumption.
    + intros i. apply withValues_addressAt; assumption.
    + intros i. apply withValues_addressAt; assumption.
    + rewrite withValues_sum; assumption.
    + rewrite withValues_sum; assumption.
    + exists renter, cv. rewrite withValues_valueAt by assumption. auto.
    + exists renter, cm. rewrite withValues_valueAt by assumption. auto.
    + rewrite !withValues_valueAt by assumption. congruence.
Qed.

(** ** ClearingRevision *)

Lemma firstn_app_exact {A : Type} (pre rest : list A) :
  firstn (length pre) (pre ++ rest) = pre.
Proof. induction pre as [| a pre IH]; simpl; [destruct rest |]; congruence. Qed.

Lemma skipn_app_cons {A : Type} (pre rest : list A) (a : A) :
  skipn (S (length pre)) (pre ++ a :: rest) = rest.
Proof. induction pre as [| b pre IH]; simpl; [reflexivity | assumption]. Qed.

Lemma clearingValues_spec (values : list Currency) :
  forall pre old : list SiacoinOutput,
    length values = length old ->
    clearingValues (pre ++ old) (length pre) values = Ok (pre ++ withValues old values).
Proof.
  induction values as [| v rest IH]; intros pre [| o old] H; try discriminate.
  - reflexivity.
  - simpl. unfold setValueAt. rewrite index_app_here. cbn [bind].
    rewrite firstn_app_exact, skipn_app_cons.
    specialize (IH (pre ++ [{| Value := v; OutputAddress := OutputAddress o |}]) old).
    rewrite <- !app_assoc, length_app, Nat.add_1_r in IH. simpl in IH.
    rewrite IH by (simpl in H; lia). reflexivity.
Qed.

Lemma ClearingRevision_exact (r : FileContractRevision) (values : list Currency) :
  ClearingRevision r values =
    if RevisionNumber r =? MaxUint64 then inl ErrContractLocked
    else if negb (Nat.eqb (length values) (length (ValidProofOutputs r)))
         then inl ErrClearingOutputCount
         else inr (Ok (clearedFrom r (withValues (ValidProofOutputs r) values))).
Proof.
  unfold ClearingRevision.
  destruct (RevisionNumber r =? MaxUint64); [reflexivity |].
  destruct (Nat.eqb (length values) (length (ValidProofOutputs r))) eqn:E;
    [| reflexivity].
  cbn [negb]. apply Nat.eqb_eq in E.
  pose proof (clearingValues_spec values [] _ E) as Hc. simpl in Hc.
  rewrite Hc. reflexivity.
Qed.

(** X6.  [ClearingRevision] never aborts.  A locked revision is refused
    first, then a value vector of the wrong length.  Otherwise the result
    is locked (maximum revision number, no data), its missed outputs are
    its valid outputs, which carry the given values at the old addresses,
    and the windows, unlock hash, unlock conditions and parent are those
    of the revision. *)
Theorem ClearingRevision_result (r : FileContractRevision) (values : list Currency) :
  (ClearingRevision r values = inl ErrContractLocked
   <-> RevisionNumber r = MaxUint64)
  /\ (ClearingRevision r values = inl ErrClearingOutputCount
      <-> RevisionNumber r <> MaxUint64
          /\ length values <> length (ValidProofOutputs r))
  /\ (forall p, ClearingRevision r values <> inr (Panic p))
  /\ (forall e, ClearingRevision r values <> inr (Err e))
  /\ (forall f, ClearingRevision r values = inr (Ok f) ->
        RevisionNumber f = MaxRevisionNumber
        /\ Filesize f = 0 /\ FileMerkleRoot f = 0
        /\ MissedProofOutputs f = ValidProofOutputs f
        /\ WindowStart f = WindowStart r /\ WindowEnd f = WindowEnd r
        /\ UnlockHash f = UnlockHash r
        /\ UnlockConditionsOf f = UnlockConditionsOf r
        /\ ParentID f = ParentID r
        /\ forall i, addressAt (ValidProofOutputs f) i = addressAt (ValidProofOutputs r) i
                     /\ valueAt (ValidProofOutputs f) i = nth_error values i).
Proof.
  rewrite ClearingRevision_exact.
  destruct (RevisionNumber r =? MaxUint64) eqn:En; tests.
  - repeat split; try discriminate; try tauto.
  - destruct (Nat.eqb (length values) (length (ValidProofOutputs r))) eqn:El;
      cbn [negb]; tests.
    + repeat split; try discriminate; try (injection H as <-; reflexivity).
      * intros H. contradiction.
      * intros [_ H]. contradiction.
      * injection H as <-. simpl. apply withValues_addressAt. assumption.
      * injection H as <-. simpl. apply withValues_valueAt. assumption.
    + repeat split; try discriminate; try assumption.
      intros H. contradiction.
Qed.

Lemma clearingOutputs_complete (currentValid finalMissed valids : list SiacoinOutput) :
  forall i : nat,
    (forall j valid, nth_error valids j = Some valid ->
       nth_error finalMissed (i + j) = Some valid
       /\ exists current, nth_error currentValid (i + j) = Some current
                          /\ Value valid = Value current
                          /\ OutputAddress valid = OutputAddress current) ->
    clearingOutputs currentValid finalMissed i valids = Ok tt.
Proof.
  induction valids as [| valid rest IH]; intros i H; [reflexivity |].
  simpl.
  destruct (H 0%nat valid eq_refl) as (Hm & current & Hc & Hv & Ha).
  rewrite Nat.add_0_r in Hm, Hc.
  apply index_Ok in Hm, Hc. rewrite Hc, Hm. cbn [bind].
  unfold Equals. rewrite Hv, Ha, !N.eqb_refl. cbn [negb failIf bind].
  apply IH. intros j valid' Hj.
  specialize (H (S j) valid' Hj). rewrite Nat.add_succ_r in H. exact H.
Qed.

(** [ValidateClearingRevision] on a revision built by [ClearingRevision]. *)
Lemma ValidateClearingRevision_clearedFrom (c r : FileContractRevision)
      (outputs : list SiacoinOutput) :
  ValidateClearingRevision c (clearedFrom r outputs) = Ok tt
  <-> WindowStart c = WindowStart r /\ WindowEnd c = WindowEnd r
      /\ UnlockHash r = UnlockHash c
      /\ UnlockHashOf (UnlockConditionsOf r) = UnlockHashOf (UnlockConditionsOf c)
      /\ forall i o, nth_error outputs i = Some o ->
           exists current, nth_error (ValidProofOutputs c) i = Some current
                           /\ Value o = Value current
                           /\ OutputAddress o = OutputAddress current.
Proof.
  split.
  - intros H. apply ValidateClearingRevision_Ok in H.
    destruct H as [_ _ Hws Hwe _ Hu Hc _ Hout]. simpl in *.
    repeat (split; [congruence |]).
    intros i o Hi. destruct (Hout i o Hi) as [_ Hcur]. exact Hcur.
  - intros (Hws & Hwe & Hu & Hc & Hout).
    unfold ValidateClearingRevision. simpl.
    rewrite Hws, Hwe, Hu, Hc, !N.eqb_refl, Nat.eqb_refl. cbn [negb failIf bind].
    apply clearingOutputs_complete. intros j valid Hj. simpl. auto.
Qed.

(** X7.  The revision [ClearingRevision] builds on [r] passes
    [ValidateClearingRevision] against an unmodified copy of [r] exactly
    when the given values are the values of [r]'s valid outputs.  It
    always passes against a revision with the windows and unlock data of
    [r] whose valid outputs are those of the result, which is what the
    caller's own revision holds after the call. *)
Theorem ClearingRevision_validated (r f : FileContractRevision) (values : list Currency) :
  ClearingRevision r values = inr (Ok f) ->
  (ValidateClearingRevision r f = Ok tt
   <-> values = map Value (ValidProofOutputs r))
  /\ (forall c : FileContractRevision,
        ValidProofOutputs c = ValidProofOutputs f ->
        WindowStart c = WindowStart r -> WindowEnd c = WindowEnd r ->
        UnlockHash c = UnlockHash r ->
        UnlockHashOf (UnlockConditionsOf c) = UnlockHashOf (UnlockConditionsOf r) ->
        ValidateClearingRevision c f = Ok tt).
Proof.
  intros H. rewrite ClearingRevision_exact in H.
  destruct (RevisionNumber r =? MaxUint64); [discriminate |].
  destruct (Nat.eqb (length values) (length (ValidProofOutputs r))) eqn:El;
    [| discriminate].
  cbn [negb] in H. injection H as <-. tests. split.
  - rewrite ValidateClearingRevision_clearedFrom. split.
    + intros (_ & _ & _ & _ & Hout).
      apply nth_error_ext. intros i. rewrite nth_error_map.
      rewrite <- (withValues_valueAt _ _ i El). unfold valueAt.
      destruct (nth_error (withValues (ValidProofOutputs r) values) i) as [o |] eqn:E.
      * destruct (Hout i o E) as (current & -> & Hv & _). simpl. congruence.
      * apply nth_error_None in E. rewrite withValues_length in E by assumption.
        apply nth_error_None in E. rewrite E. reflexivity.
    + intros ->. rewrite withValues_own.
      repeat (split; [reflexivity |]). eauto.
  - intros c Hv Hws Hwe Hu Hc. simpl in Hv.
    apply ValidateClearingRevision_clearedFrom.
    repeat (split; [congruence |]).
    intros i o Hi. rewrite Hv. eauto.
Qed.

(** ** How the validators exclude each other *)

(** X15.  A pair accepted by [validateStdRevision] and by
    [ValidateClearingRevision] has a current revision with as many valid
    as missed outputs: for a contract with two valid and three missed
    outputs no revision passes both. *)
Theorem std_and_clearing_exclusive (C R : FileContractRevision) :
  length (ValidProofOutputs C) <> length (MissedProofOutputs C) ->
  validateStdRevision C R = Ok tt ->
  ValidateClearingRevision C R <> Ok tt.
Proof.
  intros Hlen Hstd Hclr.
  apply validateStdRevision_Ok in Hstd. apply ValidateClearingRevision_Ok in Hclr.
  destruct Hstd as [Lv Lm _ _ _ _ _ _ _ _ _ _ _ _].
  destruct Hclr as [_ _ _ _ _ _ _ Hl _]. congruence.
Qed.

(** X16.  A locked revision (maximum revision number) is terminal: no
    revision whose number fits 64 bits is accepted as its successor by the
    payment, program or general validator, [Revise] refuses every new
    number, and [ClearingRevision] refuses it as locked. *)
Theorem locked_is_terminal (C : FileContractRevision) :
  RevisionNumber C = MaxRevisionNumber ->
  (forall (v : validator) (R : FileContractRevision),
      RevisionNumber R <= MaxUint64 -> accepts v C R = true -> v = Clearing)
  /\ (forall (n : uint64) (valid missed : list Currency),
        n <= MaxUint64 -> exists e, Revise C n valid missed = Err e)
  /\ (forall values, ClearingRevision C values = inl ErrContractLocked).
Proof.
  intros Hmax. unfold MaxRevisionNumber in Hmax. repeat split.
  - intros v R HR H.
    assert (validateStdRevision C R = Ok tt -> False) as Hno.
    { intros Hs. apply validateStdRevision_Ok in Hs.
      destruct Hs as [_ _ _ _ _ _ _ _ _ _ Hn _ _ _]. lia. }
    destruct v as [payment | storage collateral | payment collateral |];
      [| | | reflexivity]; simpl in H; apply isOk_true in H; destruct H as [a H].
    + apply ValidatePaymentRevision_std in H. tauto.
    + apply ValidateProgramRevision_std in H. tauto.
    + apply ValidateRevision_std in H. tauto.
  - intros n valid missed Hn. rewrite Revise_exact.
    destruct (negb (Nat.eqb (length valid) (length (ValidProofOutputs C)))
              || negb (Nat.eqb (length missed) (length (MissedProofOutputs C))));
      [eauto |].
    assert ((n <=? RevisionNumber C) = true) as -> by (apply N.leb_le; lia). eauto.
  - intros values. rewrite ClearingRevision_exact, Hmax, N.eqb_refl. reflexivity.
Qed.

(** ** The general validator *)

Lemma SubWithUnderflow_ge (c v : Currency) :
  c < CurrencyRange -> v <= c -> SubWithUnderflow c v = (c - v, false).
Proof.
  intros Hc Hv. destruct (SubWithUnderflow c v) as [d flag] eqn:E.
  pose proof (SubWithUnderflow_flag _ _ _ _ E) as Hf.
  assert (flag = false) as -> by (rewrite Hf; apply N.ltb_ge; assumption).
  apply SubWithUnderflow_exact in E; [| assumption]. destruct E as [_ ->].
  reflexivity.
Qed.

(** X8.  A revision accepted by [ValidateRevision] moves the returned
    transfer from the renter's valid payout to the host's valid payout,
    the transfer covers the payment, the returned burn is the decrease of
    the host's missed payout and is at most the collateral, and the current
    revision could fund the payment and the collateral. *)
Theorem general_revision_accepted (current revision : FileContractRevision)
        (payment collateral transfer burn : Currency) :
  wfContract current = true ->
  wfContract revision = true ->
  ValidateRevision current revision payment collateral = Ok (transfer, burn) ->
  exists currentRenter revisionRenter currentHost revisionHost
         currentMissedRenter currentMissedHost revisionMissedHost,
    valueAt (ValidProofOutputs current) 0 = Some currentRenter
    /\ valueAt (ValidProofOutputs revision) 0 = Some revisionRenter
    /\ valueAt (ValidProofOutputs current) 1 = Some currentHost
    /\ valueAt (ValidProofOutputs revision) 1 = Some revisionHost
    /\ valueAt (MissedProofOutputs current) 0 = Some currentMissedRenter
    /\ valueAt (MissedProofOutputs current) 1 = Some currentMissedHost
    /\ valueAt (MissedProofOutputs revision) 1 = Some revisionMissedHost
    /\ payment <= currentRenter /\ payment <= currentMissedRenter
    /\ collateral <= currentMissedHost
    /\ revisionRenter + transfer = currentRenter
    /\ currentHost + transfer = revisionHost
    /\ payment <= transfer
    /\ revisionMissedHost + burn = currentMissedHost
    /\ burn <= collateral.
Proof.
  intros Hc Hr H. unfold wfContract in Hc, Hr. tests.
  unfold ValidateRevision in H. payouts H. repeat step H.
  subst flag flag0 flag1. injection H as <- <-.
  assert (v2 = v) by congruence. assert (v6 = v1) by congruence. subst v2 v6.
  apply SubWithUnderflow_exact in S;
    [| eapply wfOutputs_valueAt; [| exact P]; assumption].
  apply SubWithUnderflow_exact in S0;
    [| eapply wfOutputs_valueAt; [| exact P4]; assumption].
  apply SubWithUnderflow_exact in S1;
    [| eapply wfOutputs_valueAt; [| exact P1]; assumption].
  destruct S as [? ->], S0 as [? ->], S1 as [? ->]. tests.
  exists v, v3, v5, v4, v0, v1, v7.
  repeat split; try assumption; lia.
Qed.

Lemma payout_of_valueAt (outputs : list SiacoinOutput) (i : nat) (v : Currency) :
  valueAt outputs i = Some v -> (o <- index outputs i ;; Ok (Value o)) = Ok v.
Proof. apply payout_Ok. Qed.

(** X9.  A program revision is a general revision without payment: a pair
    accepted by [ValidateProgramRevision] with burn [b] is accepted by
    [ValidateRevision] for payment 0 and collateral [b], with transfer 0
    and burn [b]. *)
Theorem program_revision_is_general (current revision : FileContractRevision)
        (storage collateral burn : Currency) :
  wfContract current = true ->
  wfContract revision = true ->
  ValidateProgramRevision current revision storage collateral = Ok burn ->
  ValidateRevision current revision 0 burn = Ok (0, burn).
Proof.
  intros Hc Hr H. unfold wfContract in Hc, Hr. tests.
  unfold ValidateProgramRevision in H. payouts H. repeat step H.
  subst flag flag0. injection H as <-. destruct x.
  pose proof (wfOutputs_valueAt _ _ _ H3 P) as Hv.
  pose proof (wfOutputs_valueAt _ _ _ H2 P1) as Hv1.
  pose proof (wfOutputs_valueAt _ _ _ H2 P3) as Hv3.
  pose proof S as S'. apply SubWithUnderflow_exact in S'; [| assumption].
  destruct S' as [Hle Hd]. tests. subst v2 v4 v6.
  unfold ValidateRevision, ValidRenterPayout, MissedRenterPayout, ValidHostPayout,
    MissedHostPayout, ValidRenterOutput, MissedRenterOutput, ValidHostOutput,
    MissedHostOutput.
  rewrite E. cbn [bind].
  rewrite (payout_of_valueAt _ _ _ P), (payout_of_valueAt _ _ _ P0),
    (payout_of_valueAt _ _ _ P1), (payout_of_valueAt _ _ _ P2),
    (payout_of_valueAt _ _ _ P3), (payout_of_valueAt _ _ _ P4),
    (payout_of_valueAt _ _ _ P5).
  cbn [bind]. unfold CmpLt, CmpGt, Equals.
  assert ((v1 <? 0) = false) as -> by (apply N.ltb_ge; lia).
  assert ((v5 <? 0) = false) as -> by (apply N.ltb_ge; lia).
  assert ((v <? d) = false) as -> by (apply N.ltb_ge; lia).
  cbn [failIf bind].
  rewrite (SubWithUnderflow_ge v1 v1) by (assumption || lia).
  rewrite (SubWithUnderflow_ge v3 v3) by (assumption || lia).
  rewrite S. cbn [failIf bind].
  rewrite !N.sub_diag, N.eqb_refl, !N.ltb_irrefl. reflexivity.
Qed.

(** X10.  A paying revision is nothing else: a pair accepted by
    [ValidatePaymentRevision] for a payment above zero is accepted by no
    other validator, whatever its parameters (it raises the host's missed
    payout and changes the valid values), and by the payment validator for
    no other payment. *)
Theorem payment_revision_not_general (current revision : FileContractRevision)
        (payment : Currency) :
  wfContract current = true ->
  0 < payment ->
  ValidatePaymentRevision current revision payment = Ok tt ->
  forall v : validator,
    accepts v current revision = true -> v = Payment payment.
Proof.
  intros Hwf Hpos H v Hv.
  destruct (ValidatePaymentRevision_transfer _ _ _ Hwf H)
    as (cvr & cmr & cvh & cmh & C0 & C1 & C2 & C3 & Hp0 & Hp1 & R0 & R1 & R2 & R3).
  assert (cmh < CurrencyRange) as Hcmh.
  { unfold wfContract in Hwf. apply andb_true_iff in Hwf. destruct Hwf as [_ Hm].
    exact (wfOutputs_valueAt _ _ _ Hm C3). }
  assert (forall d, SubWithUnderflow cmh (cmh + payment) <> (d, false)) as Hsub.
  { intros d Hd. apply SubWithUnderflow_exact in Hd; [lia | assumption]. }
  destruct v as [p | storage collateral | p collateral |].
  - simpl in Hv. apply isOk_true in Hv. destruct Hv as [[] Hb].
    destruct (ValidatePaymentRevision_transfer _ _ _ Hwf Hb)
      as (? & ? & cvh' & ? & _ & _ & C2' & _ & _ & _ & _ & _ & R2' & _).
    assert (cvh' = cvh) by congruence. subst cvh'.
    assert (cvh + p = cvh + payment) by congruence.
    f_equal. lia.
  - exfalso. simpl in Hv. apply isOk_true in Hv. destruct Hv as [b Hb].
    unfold ValidateProgramRevision in Hb. payouts Hb. repeat step Hb.
    assert (v = cmh) by congruence. assert (v0 = cmh + payment) by congruence.
    subst. exact (Hsub _ S).
  - exfalso. simpl in Hv. apply isOk_true in Hv. destruct Hv as [b Hb].
    unfold ValidateRevision in Hb. payouts Hb. repeat step Hb.
    assert (v6 = cmh) by congruence. assert (v7 = cmh + payment) by congruence.
    subst. exact (Hsub _ S1).
  - exfalso. simpl in Hv. apply isOk_true in Hv. destruct Hv as [[] Hb].
    apply ValidatePaymentRevision_std in H. destruct H as (Hstd & _ & _).
    apply validateStdRevision_Ok in Hstd. apply ValidateClearingRevision_Ok in Hb.
    destruct Hstd as [_ _ _ _ _ _ _ _ _ _ _ _ _ _].
    destruct Hb as [_ _ _ _ _ _ _ _ Hout].
    unfold valueAt in C2, R2.
    destruct (nth_error (ValidProofOutputs revision) 1) as [o |] eqn:Eo; [| discriminate].
    destruct (Hout 1%nat o Eo) as (_ & c & Hcn & Hval & _).
    rewrite Hcn in C2. simpl in C2, R2. injection C2 as C2. injection R2 as R2. lia.
Qed.

(** ** Formation and renewal, from acceptance *)

(** X11.  An accepted formation is an empty contract at revision 0 whose
    window clears the 64-bit sums the code computes, with two valid and
    three missed outputs, the host's address on both host outputs, an
    empty void output, a host payout equal in both vectors, at least the
    contract price and at most the maximum collateral, and the unlock hash
    of the two keys; the collateral returned is the host payout less the
    contract price. *)
Theorem formation_accepted_sound (fc : FileContract) (hostKey renterKey : UnlockKey)
        (h : uint64) (S : rhpv2.HostSettings) (collateral : Currency) :
  wfContract fc = true ->
  ValidateContractFormation fc hostKey renterKey h S = Ok collateral ->
  Filesize fc = 0 /\ RevisionNumber fc = 0 /\ FileMerkleRoot fc = 0
  /\ add64 h (rhpv2.WindowSize S) <= WindowStart fc
  /\ WindowStart fc <= add64 h (rhpv2.MaxDuration S)
  /\ add64 (WindowStart fc) (rhpv2.WindowSize S) <= WindowEnd fc
  /\ length (ValidProofOutputs fc) = 2%nat
  /\ length (MissedProofOutputs fc) = 3%nat
  /\ addressAt (ValidProofOutputs fc) 1 = Some (rhpv2.Address S)
  /\ addressAt (MissedProofOutputs fc) 1 = Some (rhpv2.Address S)
  /\ addressAt (MissedProofOutputs fc) 2 = Some VoidAddress
  /\ valueAt (MissedProofOutputs fc) 2 = Some 0
  /\ UnlockHash fc = UnlockHashOf (contractUnlockConditions hostKey renterKey)
  /\ exists payout,
       valueAt (ValidProofOutputs fc) 1 = Some payout
       /\ valueAt (MissedProofOutputs fc) 1 = Some payout
       /\ rhpv2.ContractPrice S <= payout
       /\ payout <= rhpv2.MaxCollateral S
       /\ collateral = payout - rhpv2.ContractPrice S.
Proof.
  intros Hwf H. unfold wfContract in Hwf. tests.
  unfold ValidateContractFormation in H. payouts H. repeat step H. tests.
  assert (v0 = v) by congruence. assert (v2 = v) by congruence.
  assert (v3 = v) by congruence. subst v0 v2 v3 v1.
  apply Sub_Ok in H; [| exact (wfOutputs_valueAt _ _ _ H0 P)].
  destruct H as [_ ->].
  assert (o2 = o1) by congruence. subst o2.
  assert (addressAt (ValidProofOutputs fc) 1 = Some (rhpv2.Address S)) as A1
      by (unfold addressAt; rewrite I; simpl; congruence).
  assert (addressAt (MissedProofOutputs fc) 1 = Some (rhpv2.Address S)) as A2
      by (unfold addressAt; rewrite I0; simpl; congruence).
  assert (addressAt (MissedProofOutputs fc) 2 = Some VoidAddress) as A3
      by (unfold addressAt; rewrite I1; simpl; congruence).
  assert (valueAt (MissedProofOutputs fc) 2 = Some 0) as A4
      by (unfold valueAt; rewrite I1; simpl; rewrite G10; reflexivity).
  repeat (split; [assumption |]).
  exists v. repeat split; assumption || reflexivity.
Qed.

(** X12.  An accepted renewal is a contract at revision 0 that carries the
    file size and Merkle root of the existing revision, does not end its
    window earlier, has two valid and three missed outputs with the host's
    address on the valid host output and the void address on the third
    missed output; the risked collateral returned is at most the base
    risked collateral and at most the locked collateral, which is at most
    the maximum collateral. *)
Theorem renewal_accepted_sound (existing : FileContractRevision) (renewal : FileContract)
        (hostKey renterKey : UnlockKey) (baseHostRevenue baseRiskedCollateral : Currency)
        (currentHeight : uint64) (settings : rhpv2.HostSettings)
        (storageRevenue riskedCollateral lockedCollateral : Currency) :
  wfContract renewal = true ->
  ValidateContractRenewal existing renewal hostKey renterKey baseHostRevenue
                          baseRiskedCollateral currentHeight settings
    = Ok (storageRevenue, riskedCollateral, lockedCollateral) ->
  RevisionNumber renewal = 0
  /\ Filesize renewal = Filesize existing
  /\ FileMerkleRoot renewal = FileMerkleRoot existing
  /\ WindowEnd existing <= WindowEnd renewal
  /\ add64 currentHeight (rhpv2.WindowSize settings) <= WindowStart renewal
  /\ WindowStart renewal <= add64 currentHeight (rhpv2.MaxDuration settings)
  /\ add64 (WindowStart renewal) (rhpv2.WindowSize settings) <= WindowEnd renewal
  /\ length (ValidProofOutputs renewal) = 2%nat
  /\ length (MissedProofOutputs renewal) = 3%nat
  /\ addressAt (ValidProofOutputs renewal) 1 = Some (rhpv2.Address settings)
  /\ addressAt (MissedProofOutputs renewal) 2 = Some VoidAddress
  /\ riskedCollateral <= baseRiskedCollateral
  /\ riskedCollateral <= lockedCollateral
  /\ lockedCollateral <= rhpv2.MaxCollateral settings.
Proof.
  intros Hwf H. unfold wfContract in Hwf. tests.
  unfold ValidateContractRenewal in H. payouts H. repeat step H.
  assert (v1 = v) by congruence. subst v1 flag flag1.
  pose proof (wfOutputs_valueAt _ _ _ H0 P) as Hv.
  apply SubWithUnderflow_exact in S, S1; try assumption.
  destruct S as [Hle ->], S1 as [Hbase ->].
  apply Add_Ok in E. destruct E as [-> _].
  pose proof (SubWithUnderflow_flag _ _ _ _ S0) as Hflag.
  injection H as <- <- <-. tests.
  assert (addressAt (ValidProofOutputs renewal) 1 = Some (rhpv2.Address settings)) as A1
      by (unfold addressAt; rewrite I; simpl; congruence).
  assert (addressAt (MissedProofOutputs renewal) 2 = Some VoidAddress) as A2
      by (unfold addressAt; rewrite I0; simpl; congruence).
  repeat (split; [assumption |]).
  destruct flag0.
  - unfold ZeroCurrency. repeat split; try assumption; lia.
  - apply SubWithUnderflow_exact in S0; [| lia]. destruct S0 as [? ->].
    repeat split; try assumption; lia.
Qed.

(** X13.  [ValidateContractRenewal] reads neither the keys nor the unlock
    hash of the renewal: its result is the same for any keys and any
    unlock hash, so an accepted renewal stays accepted under an unlock
    hash that belongs to other keys. *)
Theorem renewal_unlock_hash_free (existing : FileContractRevision) (renewal : FileContract)
        (hostKey renterKey hostKey' renterKey' : UnlockKey) (u : Hash256)
        (baseHostRevenue baseRiskedCollateral : Currency)
        (currentHeight : uint64) (settings : rhpv2.HostSettings) :
  ValidateContractRenewal existing (withUnlockHash renewal u) hostKey' renterKey'
                          baseHostRevenue baseRiskedCollateral currentHeight settings
  = ValidateContractRenewal existing renewal hostKey renterKey
                            baseHostRevenue baseRiskedCollateral currentHeight settings.
Proof. destruct renewal. reflexivity. Qed.

(** ** InitialRevision *)

(** X14.  [InitialRevision] aborts on a transaction without file contracts
    and otherwise returns revision 1 of the first contract, with its
    outputs and windows, no payout, and the unlock conditions of the two
    keys (renter first).  When that contract was accepted by
    [ValidateContractFormation] for the same keys, the unlock hash of the
    revision is the hash of its unlock conditions. *)
Theorem InitialRevision_result (formationTxn : Transaction) (hostKey renterKey : UnlockKey) :
  (FileContracts formationTxn = [] ->
   InitialRevision formationTxn hostKey renterKey = Panic (IndexOutOfRange 0 0))
  /\ (forall fc rest, FileContracts formationTxn = fc :: rest ->
        exists r, InitialRevision formationTxn hostKey renterKey = Ok r
                  /\ RevisionNumber r = 1
                  /\ ParentID r = FileContractID formationTxn 0
                  /\ PublicKeys (UnlockConditionsOf r) = [renterKey; hostKey]
                  /\ SignaturesRequired (UnlockConditionsOf r) = 2
                  /\ Timelock (UnlockConditionsOf r) = 0
                  /\ ValidProofOutputs r = ValidProofOutputs fc
                  /\ MissedProofOutputs r = MissedProofOutputs fc
                  /\ WindowStart r = WindowStart fc /\ WindowEnd r = WindowEnd fc
                  /\ Filesize r = Filesize fc /\ FileMerkleRoot r = FileMerkleRoot fc
                  /\ Payout r = 0
                  /\ (forall h S collateral,
                        ValidateContractFormation fc hostKey renterKey h S = Ok collateral ->
                        UnlockHash r = UnlockHashOf (UnlockConditionsOf r))).
Proof.
  split.
  - intros H. unfold InitialRevision. rewrite H. reflexivity.
  - intros fc rest H. unfold InitialRevision. rewrite H. simpl.
    eexists. split; [reflexivity |]. simpl.
    repeat (split; [reflexivity |]).
    intros h S collateral Hf.
    unfold ValidateContractFormation in Hf. payouts Hf. repeat step Hf. tests.
    assumption.
Qed.

(** ** Aborts *)

Lemma sumSameAddress_Panic (mkErr : nat -> error) (current outputs : list SiacoinOutput)
      (p : panic) :
  sumSameAddress mkErr current 0 outputs ZeroCurrency = Panic p ->
  (p = Overflow /\ CurrencyRange <= sumValues outputs)
  \/ exists k, p = IndexOutOfRange k (length current)
               /\ (length current <= k < length outputs)%nat.
Proof.
  intros H. unfold ZeroCurrency in H.
  pose proof (sumSameAddress_spec mkErr current outputs 0 0 CurrencyRange_pos) as Hs.
  rewrite H in Hs. inversion Hs as [| | k _ Hk Hc | Hover]; subst.
  - right. exists k. rewrite Nat.sub_0_r in Hk. split; [reflexivity | lia].
  - left. simpl in Hover. auto.
Qed.

Lemma payout_Panic (outputs : list SiacoinOutput) (p : panic) :
  (o <- index outputs 0 ;; Ok (Value o)) = Panic p ->
  p = IndexOutOfRange 0 0 /\ outputs = [].
Proof.
  destruct outputs as [| o rest]; simpl; intros H; [| discriminate].
  injection H as <-. auto.
Qed.

(** One step through a run that ended in [Panic]. *)
Ltac panicstep H :=
  lazymatch type of H with
  | bind (failIf ?c _) _ = Panic _ =>
      let G := fresh "G" in
      destruct c eqn:G; cbn [failIf bind] in H; [discriminate H |]
  | bind (o <- index ?l 0 ;; Ok (Value o)) _ = Panic _ =>
      let v := fresh "v" in let P := fresh "P" in
      destruct (o <- index l 0 ;; Ok (Value o)) as [v | ? | ?] eqn:P; cbn [bind] in H;
      [| discriminate H | injection H as <-; apply payout_Panic in P]
  end.

(** X21.  [validateStdRevision] aborts only on an overflowing sum, on a
    revision with more outputs than the current one, or on a revision
    without valid or without missed outputs; it never aborts otherwise. *)
Theorem validateStdRevision_abort (C R : FileContractRevision) (p : panic) :
  validateStdRevision C R = Panic p -> stdPanicMeaning C R p.
Proof.
  intros H. unfold validateStdRevision in H. payouts H.
  rewrite sumOutputs_zero in H.
  destruct (CurrencyRange <=? sumValues (ValidProofOutputs C)) eqn:Hold.
  { injection H as <-. tests. simpl. auto. }
  cbn [bind] in H.
  destruct (sumSameAddress ErrValidAddressChanged (ValidProofOutputs C) 0
              (ValidProofOutputs R) ZeroCurrency) as [sv | ev | pv] eqn:Ev;
    cbn [bind] in H; [| discriminate |].
  2:{ injection H as <-. apply sumSameAddress_Panic in Ev.
      destruct Ev as [[-> Hs] | (k & -> & Hk)]; simpl; auto. }
  destruct (sumSameAddress ErrMissedAddressChanged (MissedProofOutputs C) 0
              (MissedProofOutputs R) ZeroCurrency) as [sm | em | pm] eqn:Em;
    cbn [bind] in H; [| discriminate |].
  2:{ injection H as <-. apply sumSameAddress_Panic in Em.
      destruct Em as [[-> Hs] | (k & -> & Hk)]; simpl; auto. }
  repeat panicstep H; tests; try discriminate H.
  all: match goal with
       | Hp : _ = IndexOutOfRange 0 0 /\ _ = [] |- _ => destruct Hp as [-> Hl]
       end.
  all: simpl; right; right; split; [reflexivity | split; [reflexivity |]].
  all: rewrite Hl in *; simpl in *.
  all: first [ left; reflexivity | right; reflexivity
             | left; apply length_zero_iff_nil; congruence
             | right; apply length_zero_iff_nil; congruence ].
Qed.

Lemma Add_Panic (c v : Currency) (p : panic) :
  Add c v = Panic p -> p = Overflow /\ CurrencyRange <= c + v.
Proof.
  unfold Add, AddWithOverflow.
  destruct (CurrencyRange <=? c + v) eqn:E; [| discriminate].
  intros H. injection H as <-. tests. auto.
Qed.

Lemma Sub_Panic (c v : Currency) (p : panic) :
  Sub c v = Panic p -> p = Underflow /\ c < v.
Proof.
  unfold Sub, SubWithUnderflow.
  destruct (c <? v) eqn:E; [| discriminate].
  intros H. injection H as <-. tests. auto.
Qed.

(** One step through a run that ended in [Panic], past accesses that the
    checks before them keep in range. *)
Ltac pstep H :=
  lazymatch type of H with
  | bind (failIf ?c _) _ = Panic _ =>
      let G := fresh "G" in
      destruct c eqn:G; cbn [failIf bind] in H; [discriminate H |]
  | bind (o <- index ?l ?i ;; Ok (Value o)) _ = Panic _ =>
      let a := fresh "o" in let Ea := fresh "I" in let Eb := fresh "L" in
      destruct (index_total l i) as [(a & Ea & Eb) | [Ea Eb]];
      rewrite Ea in H; cbn [bind] in H;
      [| exfalso; tests; simpl in *; lia]
  | bind (index ?l ?i) _ = Panic _ =>
      let a := fresh "o" in let Ea := fresh "I" in let Eb := fresh "L" in
      destruct (index_total l i) as [(a & Ea & Eb) | [Ea Eb]];
      rewrite Ea in H; cbn [bind] in H;
      [| exfalso; tests; simpl in *; lia]
  | (let (_, _) := ?p in _) = Panic _ =>
      let a := fresh "d" in let b := fresh "flag" in let E := fresh "S" in
      destruct p as [a b] eqn:E
  end.

(** X22.  [ValidateContractFormation] never aborts: every output it reads
    is behind the checks of the two lengths, and the subtraction of the
    contract price behind the comparison with it. *)
Theorem formation_never_aborts (fc : FileContract) (hostKey renterKey : UnlockKey)
        (h : uint64) (S : rhpv2.HostSettings) (p : panic) :
  ValidateContractFormation fc hostKey renterKey h S <> Panic p.
Proof.
  intros H. unfold ValidateContractFormation in H. payouts H.
  repeat pstep H.
  apply Sub_Panic in H. destruct H as [_ H]. tests. lia.
Qed.

(** X23.  [ValidateContractRenewal] aborts in one case only: when
    [baseHostRevenue + baseRiskedCollateral] leaves the currency range
    (and the checks before that sum passed). *)
Theorem renewal_abort (existing : FileContractRevision) (renewal : FileContract)
        (hostKey renterKey : UnlockKey) (baseHostRevenue baseRiskedCollateral : Currency)
        (currentHeight : uint64) (settings : rhpv2.HostSettings) (p : panic) :
  ValidateContractRenewal existing renewal hostKey renterKey baseHostRevenue
                          baseRiskedCollateral currentHeight settings = Panic p ->
  p = Overflow /\ CurrencyRange <= baseHostRevenue + baseRiskedCollateral.
Proof.
  intros H. unfold ValidateContractRenewal in H. payouts H.
  repeat pstep H.
  destruct (Add baseHostRevenue baseRiskedCollateral) as [x | e | q] eqn:E;
    cbn [bind] in H; [| discriminate H |].
  - repeat pstep H. discriminate H.
  - injection H as <-. apply Add_Panic in E. exact E.
Qed.

(** X24.  [ValidatePaymentRevision] aborts, rather than return an error,
    on a pair that passes [validateStdRevision] when the payment exceeds
    the renter's current valid payout. *)
Theorem payment_above_payout_aborts (current revision : FileContractRevision)
        (payment currentRenter : Currency) :
  validateStdRevision current revision = Ok tt ->
  valueAt (ValidProofOutputs current) 0 = Some currentRenter ->
  currentRenter < payment ->
  ValidatePaymentRevision current revision payment = Panic Underflow.
Proof.
  intros Hstd Hcv Hlt.
  pose proof (validateStdRevision_Ok _ _ Hstd) as Hinv.
  destruct Hinv as [_ _ _ _ _ _ _ _ _ _ _ (rv & cv & Hrv & _) _ _].
  unfold ValidatePaymentRevision, ValidRenterPayout, ValidRenterOutput.
  rewrite Hstd. cbn [bind].
  rewrite (payout_of_valueAt _ _ _ Hrv), (payout_of_valueAt _ _ _ Hcv). cbn [bind].
  unfold Sub, SubWithUnderflow.
  apply N.ltb_lt in Hlt. rewrite Hlt. reflexivity.
Qed.

(** ** Payment revisions, exactly *)

(** X25.  [ValidatePaymentRevision] accepts exactly the pairs that pass
    [validateStdRevision] and move the payment: the payment is at most the
    renter's current valid and missed payouts, the host's current payouts
    plus the payment stay within the currency range, and the revision's
    renter and host values are the current ones less and plus the
    payment. *)
Theorem payment_revision_iff (current revision : FileContractRevision)
        (payment : Currency) :
  wfContract current = true ->
  ValidatePaymentRevision current revision payment = Ok tt
  <-> validateStdRevision current revision = Ok tt
      /\ exists cvr cmr cvh cmh,
           valueAt (ValidProofOutputs current) 0 = Some cvr
           /\ valueAt (MissedProofOutputs current) 0 = Some cmr
           /\ valueAt (ValidProofOutputs current) 1 = Some cvh
           /\ valueAt (MissedProofOutputs current) 1 = Some cmh
           /\ payment <= cvr /\ payment <= cmr
           /\ cvh + payment < CurrencyRange /\ cmh + payment < CurrencyRange
           /\ valueAt (ValidProofOutputs revision) 0 = Some (cvr - payment)
           /\ valueAt (MissedProofOutputs revision) 0 = Some (cmr - payment)
           /\ valueAt (ValidProofOutputs revision) 1 = Some (cvh + payment)
           /\ valueAt (MissedProofOutputs revision) 1 = Some (cmh + payment).
Proof.
  intros Hwf. pose proof Hwf as Hwf'. unfold wfContract in Hwf'.
  apply andb_true_iff in Hwf'. destruct Hwf' as [Hwv Hwm]. split.
  - intros H.
    destruct (ValidatePaymentRevision_transfer _ _ _ Hwf H)
      as (cvr & cmr & cvh & cmh & C0 & C1 & C2 & C3 & Hp0 & Hp1 & R0 & R1 & R2 & R3).
    pose proof (ValidatePaymentRevision_std _ _ _ _ H) as (Hstd & _ & _).
    split; [assumption |].
    exists cvr, cmr, cvh, cmh. repeat (split; [assumption |]).
    unfold ValidatePaymentRevision in H. payouts H. repeat step H.
    apply Add_Ok in E2, E3. destruct E2 as [_ E2], E3 as [_ E3].
    unfold valueAt in C2, C3. rewrite I0 in C2. rewrite I2 in C3.
    simpl in C2, C3. injection C2 as <-. injection C3 as <-.
    repeat split; assumption.
  - intros (Hstd & cvr & cmr & cvh & cmh & C0 & C1 & C2 & C3 & Hp0 & Hp1 & Hh & Hm
            & R0 & R1 & R2 & R3).
    unfold ValidatePaymentRevision, ValidRenterPayout, MissedRenterPayout,
      ValidRenterOutput, MissedRenterOutput.
    rewrite Hstd. cbn [bind].
    rewrite (payout_of_valueAt _ _ _ R0), (payout_of_valueAt _ _ _ C0),
      (payout_of_valueAt _ _ _ R1), (payout_of_valueAt _ _ _ C1).
    cbn [bind]. unfold Sub.
    rewrite (SubWithUnderflow_ge cvr payment)
      by (assumption || exact (wfOutputs_valueAt _ _ _ Hwv C0)).
    rewrite (SubWithUnderflow_ge cmr payment)
      by (assumption || exact (wfOutputs_valueAt _ _ _ Hwm C1)).
    cbn [bind]. unfold CmpNe. rewrite !N.eqb_refl. cbn [negb failIf bind].
    unfold valueAt in C2, C3, R2, R3.
    destruct (nth_error (ValidProofOutputs revision) 1) as [rh |] eqn:Erh;
      [| discriminate].
    destruct (nth_error (ValidProofOutputs current) 1) as [ch |] eqn:Ech; [| discriminate].
    destruct (nth_error (MissedProofOutputs revision) 1) as [rmh |] eqn:Ermh;
      [| discriminate].
    destruct (nth_error (MissedProofOutputs current) 1) as [cmh' |] eqn:Ecmh;
      [| discriminate].
    simpl in C2, C3, R2, R3.
    injection C2 as C2. injection C3 as C3. injection R2 as R2. injection R3 as R3.
    unfold index. rewrite Erh, Ech, Ermh, Ecmh. cbn [bind].
    rewrite (proj2 (Add_Ok (Value ch) payment (cvh + payment)))
      by (split; congruence).
    cbn [bind]. rewrite R2, N.eqb_refl. cbn [negb failIf bind].
    rewrite (proj2 (Add_Ok (Value cmh') payment (cmh + payment)))
      by (split; congruence).
    cbn [bind]. rewrite R3, N.eqb_refl. reflexivity.
Qed.

End Contracts.

(** ** The scenarios of the specification *)

Example scenario_formation_accept :
  ValidateContractFormation Samples.unlockHash Samples.formed Samples.hostKey
                            Samples.renterKey 0 Samples.settings = Ok 40.
Proof. reflexivity. Qed.

Example scenario_formation_too_soon :
  ValidateContractFormation Samples.unlockHash Samples.formedTooSoon Samples.hostKey
                            Samples.renterKey 0 Samples.settings = Err ErrEndsTooSoon.
Proof. reflexivity. Qed.

Example scenario_payment_accept :
  ValidatePaymentRevision Samples.unlockHash Samples.current Samples.paid 10 = Ok tt.
Proof. reflexivity. Qed.

Example scenario_payment_sum_mismatch :
  ValidatePaymentRevision Samples.unlockHash Samples.current Samples.overpaid 10
  = Err ErrValidSumChanged.
Proof. reflexivity. Qed.

Example scenario_program_accept :
  ValidateProgramRevision Samples.unlockHash Samples.current Samples.burnt 3 5 = Ok 5.
Proof. reflexivity. Qed.

Example scenario_program_excess_burn :
  ValidateProgramRevision Samples.unlockHash Samples.current Samples.burntTooMuch 3 5
  = Err ErrBurnTooLarge.
Proof. reflexivity. Qed.

Example scenario_clearing_accept :
  ValidateClearingRevision Samples.unlockHash Samples.current Samples.cleared = Ok tt.
Proof. reflexivity. Qed.

(** ** The properties on the sample data *)

(** C1: the general statement instantiated at the payment of scenario 3. *)
Lemma accepted_pair_invariants_witness :
  accepts Samples.unlockHash (Payment 10) Samples.current Samples.paid = true
  /\ StdInvariants Samples.unlockHash Samples.current Samples.paid
  /\ (2 <= length (ValidProofOutputs Samples.paid))%nat
  /\ (2 <= length (MissedProofOutputs Samples.paid))%nat.
Proof.
  split; [reflexivity |].
  exact (accepted_pair_invariants Samples.unlockHash (Payment 10)
           Samples.current Samples.paid eq_refl).
Defined.

(** C1 fails as stated.  The general validator accepts a successor with
    two missed outputs, and one with three valid outputs.  The clearing
    validator accepts a locked revision as its own successor, with two
    missed outputs and no increase of the revision number; it accepts the
    clearing of scenario 7, whose two missed outputs are not the three of
    the current revision; it accepts a final revision whose missed host
    address is not the current missed host address, and one whose missed
    renter value is above the current missed renter value. *)
Lemma accepted_pair_counterexample :
  (accepts Samples.unlockHash Clearing Samples.locked Samples.locked = true
   /\ ~ RevisionNumber Samples.locked < RevisionNumber Samples.locked
   /\ length (MissedProofOutputs Samples.locked) = 2%nat
   /\ ~ SpecInvariants Samples.unlockHash Samples.locked Samples.locked)
  /\ (accepts Samples.unlockHash (General 0 0) (Samples.twoMissed 1) (Samples.twoMissed 2)
      = true
      /\ length (MissedProofOutputs (Samples.twoMissed 2)) = 2%nat
      /\ ~ SpecInvariants Samples.unlockHash (Samples.twoMissed 1) (Samples.twoMissed 2))
  /\ (accepts Samples.unlockHash (General 0 0) (Cases.threeValid 1) (Cases.threeValid 2)
      = true
      /\ length (ValidProofOutputs (Cases.threeValid 2)) = 3%nat
      /\ ~ SpecInvariants Samples.unlockHash (Cases.threeValid 1) (Cases.threeValid 2))
  /\ (accepts Samples.unlockHash Clearing Samples.current Samples.cleared = true
      /\ length (MissedProofOutputs Samples.cleared) = 2%nat
      /\ length (MissedProofOutputs Samples.current) = 3%nat)
  /\ (accepts Samples.unlockHash Clearing Cases.diverted Samples.cleared = true
      /\ addressAt (MissedProofOutputs Samples.cleared) 1 = Some Samples.hostAddress
      /\ addressAt (MissedProofOutputs Cases.diverted) 1 = Some Samples.otherAddress)
  /\ (accepts Samples.unlockHash Clearing Cases.renterShort Samples.cleared = true
      /\ valueAt (MissedProofOutputs Samples.cleared) 0 = Some 100
      /\ valueAt (MissedProofOutputs Cases.renterShort) 0 = Some 90).
Proof.
  split.
  - split; [reflexivity |]. split; [apply N.lt_irrefl |]. split; [reflexivity |].
    intros (_ & H & _). discriminate H.
  - split.
    + split; [reflexivity |]. split; [reflexivity |].
      intros (_ & H & _). discriminate H.
    + split.
      * split; [reflexivity |]. split; [reflexivity |].
        intros (H & _). discriminate H.
      * repeat split.
Qed.

(** C2: the general statement instantiated at a current revision, and at a
    successor, whose valid values sum to [2^128]. *)
Lemma sums_overflow_abort_witness :
  CurrencyRange <= sumValues (ValidProofOutputs Samples.overflowing)
  /\ validateStdRevision Samples.unlockHash Samples.overflowing Samples.paid
     = Panic Overflow.
Proof.
  assert (CurrencyRange <= sumValues (ValidProofOutputs Samples.overflowing)) as H
      by (vm_compute; discriminate).
  split; [exact H |].
  exact (proj1 (sums_overflow_abort Samples.unlockHash Samples.overflowing Samples.paid) H).
Defined.

(** C2 fails as stated: on sums past the currency range the function
    aborts; it returns no error. *)
Lemma sums_overflow_counterexample :
  (CurrencyRange <= sumValues (ValidProofOutputs Samples.overflowing)
   /\ validateStdRevision Samples.unlockHash Samples.overflowing Samples.paid
      = Panic Overflow
   /\ forall e, validateStdRevision Samples.unlockHash Samples.overflowing Samples.paid
                <> Err e)
  /\ (CurrencyRange <= sumValues (ValidProofOutputs Samples.overflowingSuccessor)
      /\ validateStdRevision Samples.unlockHash Samples.current Samples.overflowingSuccessor
         = Panic Overflow
      /\ forall e, validateStdRevision Samples.unlockHash Samples.current
                                       Samples.overflowingSuccessor <> Err e).
Proof.
  split; (split; [vm_compute; discriminate |]);
    (split; [reflexivity | intros e H; vm_compute in H; discriminate H]).
Qed.

(** C3: the general statement instantiated at the payment of scenario 3. *)
Lemma payment_revision_accepted_witness :
  wfContract Samples.current = true
  /\ ValidatePaymentRevision Samples.unlockHash Samples.current Samples.paid 10 = Ok tt
  /\ forall i, (2 <= i)%nat ->
       valueAt (ValidProofOutputs Samples.paid) i
       = valueAt (ValidProofOutputs Samples.current) i
       /\ valueAt (MissedProofOutputs Samples.paid) i
          = valueAt (MissedProofOutputs Samples.current) i.
Proof.
  split; [reflexivity |]. split; [reflexivity |].
  exact (proj2 (payment_revision_accepted Samples.unlockHash Samples.current Samples.paid 10
                  eq_refl eq_refl) eq_refl eq_refl eq_refl).
Defined.

(** C3 fails as stated: a payment revision is accepted although the void
    output changed (from 7 to 0, the current missed outputs not summing to
    the valid ones), or although the third and fourth missed outputs
    changed. *)
Lemma payment_revision_counterexample :
  (ValidatePaymentRevision Samples.unlockHash Samples.unbalanced Samples.paid 10 = Ok tt
   /\ valueAt (MissedProofOutputs Samples.unbalanced) 2 = Some 7
   /\ valueAt (MissedProofOutputs Samples.paid) 2 = Some 0)
  /\ (ValidatePaymentRevision Samples.unlockHash Samples.fourMissed Samples.fourMissedPaid 10
      = Ok tt
      /\ valueAt (MissedProofOutputs Samples.fourMissed) 2 = Some 10
      /\ valueAt (MissedProofOutputs Samples.fourMissedPaid) 2 = Some 0).
Proof. repeat split. Qed.

(** C5: the general statement instantiated at the sample renewal. *)
Lemma renewal_accepted_witness :
  wfContract Samples.renewal = true
  /\ ValidateContractRenewal Samples.current Samples.renewal Samples.hostKey
                             Samples.renterKey 3 5 0 Samples.settings
     = Ok (3, 2, 47)
  /\ exists validHost missedHost void,
       valueAt (ValidProofOutputs Samples.renewal) 1 = Some validHost
       /\ valueAt (MissedProofOutputs Samples.renewal) 1 = Some missedHost
       /\ valueAt (MissedProofOutputs Samples.renewal) 2 = Some void
       /\ missedHost <= validHost
       /\ let hostBurn := validHost - missedHost in
          3 = 3
          /\ hostBurn <= 3 + 5
          /\ void = hostBurn
          /\ 2 = (if 3 <=? hostBurn then hostBurn - 3 else 0)
          /\ 3 <= validHost
          /\ 47 = validHost - 3
          /\ 47 <= rhpv2.MaxCollateral Samples.settings.
Proof.
  split; [reflexivity |]. split; [reflexivity |].
  exact (renewal_accepted Samples.current Samples.renewal Samples.hostKey
           Samples.renterKey 3 5 0 Samples.settings 3 2 47 eq_refl eq_refl).
Defined.

(** C6: the general statement instantiated at the burn of scenario 5. *)
Lemma program_revision_accepted_witness :
  wfContract Samples.current = true
  /\ wfContract Samples.burnt = true
  /\ ValidateProgramRevision Samples.unlockHash Samples.current Samples.burnt 3 5 = Ok 5
  /\ exists currentHost revisionHost currentVoid revisionVoid,
       valueAt (MissedProofOutputs Samples.current) 1 = Some currentHost
       /\ valueAt (MissedProofOutputs Samples.burnt) 1 = Some revisionHost
       /\ valueAt (MissedProofOutputs Samples.current) 2 = Some currentVoid
       /\ valueAt (MissedProofOutputs Samples.burnt) 2 = Some revisionVoid
       /\ revisionHost <= currentHost
       /\ currentVoid <= revisionVoid
       /\ currentHost - revisionHost = revisionVoid - currentVoid
       /\ currentHost - revisionHost <= 3 + 5
       /\ 5 = currentHost - revisionHost.
Proof.
  split; [reflexivity |]. split; [reflexivity |]. split; [reflexivity |].
  exact (proj2 (proj2 (proj2 (program_revision_accepted Samples.unlockHash Samples.current
                                Samples.burnt 3 5 5 eq_refl eq_refl eq_refl)))).
Defined.

(** C7: the general statement instantiated at the clearing of scenario 7. *)
Lemma clearing_revision_accepted_witness :
  ValidateClearingRevision Samples.unlockHash Samples.current Samples.cleared = Ok tt
  /\ RevisionNumber Samples.cleared = MaxRevisionNumber
  /\ Filesize Samples.cleared = 0
  /\ FileMerkleRoot Samples.cleared = 0.
Proof.
  split; [reflexivity |].
  pose proof (clearing_revision_accepted Samples.unlockHash Samples.current
                Samples.cleared eq_refl) as (Hn & Hf & Hm & _).
  exact (conj Hn (conj Hf Hm)).
Defined.

(** C8: the general statement instantiated at the formation scenario. *)
Lemma formation_accepted_witness :
  wfContract Samples.formed = true
  /\ 0 + rhpv2.MaxDuration Samples.settings < 2 ^ 64
  /\ FormationChecks Samples.unlockHash Samples.formed Samples.hostKey Samples.renterKey
                     0 Samples.settings
  /\ ValidateContractFormation Samples.unlockHash Samples.formed Samples.hostKey
                               Samples.renterKey 0 Samples.settings
     = Ok (50 - 10).
Proof.
  assert (FormationChecks Samples.unlockHash Samples.formed Samples.hostKey
                          Samples.renterKey 0 Samples.settings) as Hchecks.
  { unfold FormationChecks. repeat (split; [vm_compute; reflexivity || discriminate |]).
    split; [| reflexivity].
    exists 50, 50. repeat split; vm_compute; discriminate. }
  split; [reflexivity |]. split; [reflexivity |]. split; [exact Hchecks |].
  exact (proj1 (proj1 (formation_accepted Samples.unlockHash) Samples.formed Samples.hostKey
                  Samples.renterKey 0 Samples.settings 50 eq_refl eq_refl eq_refl Hchecks)).
Defined.

(** C8 fails as stated: at height 10 with [MaxDuration = 2^64 - 1] the
    contract of the formation scenario satisfies every check of the
    specification, the sum [10 + MaxDuration] wraps to 9, and the contract
    is rejected as too long. *)
Lemma formation_counterexample :
  FormationChecks Samples.unlockHash Samples.formed Samples.hostKey Samples.renterKey
                  10 Samples.settingsUnlimited
  /\ rhpv2.MaxDuration Samples.settingsUnlimited <= MaxUint64
  /\ add64 10 (rhpv2.MaxDuration Samples.settingsUnlimited) = 9
  /\ ValidateContractFormation Samples.unlockHash Samples.formed Samples.hostKey
                               Samples.renterKey 10 Samples.settingsUnlimited
     = Err ErrDurationTooLong.
Proof.
  split.
  - unfold FormationChecks. repeat (split; [vm_compute; reflexivity || discriminate |]).
    split; [| reflexivity].
    exists 50, 50. repeat split; vm_compute; discriminate.
  - split; [vm_compute; discriminate |]. split; reflexivity.
Qed.

(** C9: the general statement instantiated at the current revision of the
    scenarios. *)
Lemma revise_same_values_witness :
  RevisionNumber Samples.current < MaxUint64
  /\ exists r',
       Revise Samples.current (add64 (RevisionNumber Samples.current) 1)
              (map Value (ValidProofOutputs Samples.current))
              (map Value (MissedProofOutputs Samples.current)) = Ok r'
       /\ RevisionNumber r' = RevisionNumber Samples.current + 1
       /\ ValidProofOutputs r' = ValidProofOutputs Samples.current
       /\ MissedProofOutputs r' = MissedProofOutputs Samples.current.
Proof.
  assert (RevisionNumber Samples.current < MaxUint64) as H by reflexivity.
  split; [exact H |].
  destruct (revise_same_values Samples.unlockHash Samples.current H)
    as (r' & Hr & Hn & Hv & Hm & _).
  exists r'. exact (conj Hr (conj Hn (conj Hv Hm))).
Defined.

(** C9 fails as stated: [Revise] rejects the successor of a locked
    revision, whose number plus one wraps to zero; and the result of
    [Revise] on a revision whose missed values do not sum to its valid
    values does not pass [validateStdRevision]. *)
Lemma revise_same_values_counterexample :
  Revise Samples.locked (add64 (RevisionNumber Samples.locked) 1)
         (map Value (ValidProofOutputs Samples.locked))
         (map Value (MissedProofOutputs Samples.locked))
  = Err (ErrRevisionNumberNotGreater MaxUint64)
  /\ Revise Samples.lopsided (add64 (RevisionNumber Samples.lopsided) 1)
            (map Value (ValidProofOutputs Samples.lopsided))
            (map Value (MissedProofOutputs Samples.lopsided))
     = Ok (withRevisionNumber Samples.lopsided 2)
  /\ validateStdRevision Samples.unlockHash Samples.lopsided
                         (withRevisionNumber Samples.lopsided 2)
     = Err ErrMissedSumChanged.
Proof. repeat split. Qed.

(** ** The storage volume *)

Lemma appendError_newest {E : Type} (errors : list (storage.statError E))
      (e : storage.statError E) :
  storage.appendError errors e = skipn (S (length errors) - 100) (errors ++ [e]).
Proof.
  unfold storage.appendError. rewrite length_app, Nat.add_1_r.
  destruct (100 <? S (length errors))%nat eqn:F; [reflexivity |].
  apply Nat.ltb_ge in F.
  replace (S (length errors) - 100)%nat with 0%nat by lia. reflexivity.
Qed.

Lemma appendError_length {E : Type} (errors : list (storage.statError E))
      (e : storage.statError E) :
  length (storage.appendError errors e) = Nat.min (S (length errors)) 100.
Proof.
  rewrite appendError_newest, length_skipn, length_app, Nat.add_1_r. lia.
Qed.

Lemma appendError_last {E : Type} (errors : list (storage.statError E))
      (e : storage.statError E) :
  storage.appendError errors e = skipn (S (length errors) - 100) errors ++ [e].
Proof.
  rewrite appendError_newest, skipn_app.
  replace (S (length errors) - 100 - length errors)%nat with 0%nat by lia.
  reflexivity.
Qed.

(** X17.  A failed read, write or sync records its error (the file's error
    with the sector index) as the last entry of the volume's error list and
    keeps the newest entries before it, at most 100 in all, whatever the
    length of the list was; a successful call leaves the list as it is.
    The error of the file is returned unchanged. *)
Theorem volume_records_failures {E D : Type} {file : storage.volumeData.ops E D}
        (v : storage.volume E D) :
  let old := storage.Errors (storage.stats v) in
  let kept := skipn (S (length old) - 100) old in
  (forall index,
      let '(v', (_, err)) := storage.ReadSector v index in
      err = snd (storage.volumeData.ReadAt (storage.data v) storage.sectorSize
                   (storage.sectorOffset index))
      /\ storage.Errors (storage.stats v') =
           match err with
           | Some e => kept ++ [storage.ReadFailed index e]
           | None => old
           end)
  /\ (forall bytes index,
        let '(v', err) := storage.WriteSector v bytes index in
        err = snd (storage.volumeData.WriteAt (storage.data v) bytes
                     (storage.sectorOffset index))
        /\ storage.Errors (storage.stats v') =
             match err with
             | Some e => kept ++ [storage.WriteFailed index e]
             | None => old
             end)
  /\ (let '(v', err) := storage.Sync v in
      err = snd (storage.volumeData.Sync (storage.data v))
      /\ storage.Errors (storage.stats v') =
           match err with
           | Some e => kept ++ [storage.SyncFailed e]
           | None => old
           end)
  /\ (length kept <= 99)%nat.
Proof.
  intros old kept. repeat split.
  - intros index. unfold storage.ReadSector.
    destruct (storage.volumeData.ReadAt (storage.data v) storage.sectorSize
                (storage.sectorOffset index)) as [[d got] [e |]]; simpl;
      (split; [reflexivity |]); [apply appendError_last | reflexivity].
  - intros bytes index. unfold storage.WriteSector.
    destruct (storage.volumeData.WriteAt (storage.data v) bytes
                (storage.sectorOffset index)) as [d [e |]]; simpl;
      (split; [reflexivity |]); [apply appendError_last | reflexivity].
  - unfold storage.Sync.
    destruct (storage.volumeData.Sync (storage.data v)) as [d [e |]]; simpl;
      (split; [reflexivity |]); [apply appendError_last | reflexivity].
  - subst kept. rewrite length_skipn. lia.
Qed.

Lemma after_errors_bound {E D : Type} {file : storage.volumeData.ops E D}
      (v : storage.volume E D) (c : storage.call) :
  (length (storage.Errors (storage.stats v)) <= 100)%nat ->
  (length (storage.Errors (storage.stats (storage.after v c))) <= 100)%nat.
Proof.
  intros H. destruct c as [index | bytes index |]; simpl.
  - unfold storage.ReadSector.
    destruct (storage.volumeData.ReadAt _ _ _) as [[d got] [e |]]; simpl;
      [rewrite appendError_length; lia | assumption].
  - unfold storage.WriteSector.
    destruct (storage.volumeData.WriteAt _ _ _) as [d [e |]]; simpl;
      [rewrite appendError_length; lia | assumption].
  - unfold storage.Sync.
    destruct (storage.volumeData.Sync _) as [d [e |]]; simpl;
      [rewrite appendError_length; lia | assumption].
Qed.

(** X18.  The error list of a volume stays within 100 entries over any
    sequence of reads, writes and syncs, whatever the file does. *)
Theorem volume_errors_bounded {E D : Type} {file : storage.volumeData.ops E D}
        (v : storage.volume E D) (calls : list storage.call) :
  (length (storage.Errors (storage.stats v)) <= 100)%nat ->
  (length (storage.Errors (storage.stats (storage.run v calls))) <= 100)%nat.
Proof.
  revert v. induction calls as [| c calls IH]; intros v H; simpl; [assumption |].
  apply IH. apply after_errors_bound. assumption.
Qed.

Lemma add64_one_sum (a b : uint64) :
  (add64 a 1 + b) mod 2 ^ 64 = (a + b + 1) mod 2 ^ 64.
Proof.
  unfold add64. rewrite N.Div0.add_mod_idemp_l. f_equal. lia.
Qed.

Lemma after_counters {E D : Type} {file : storage.volumeData.ops E D}
      (v : storage.volume E D) (c : storage.call) :
  let s := storage.stats v in
  let s' := storage.stats (storage.after v c) in
  (storage.FailedReads s' + storage.SuccessfulReads s') mod 2 ^ 64
  = (storage.FailedReads s + storage.SuccessfulReads s
     + (if storage.isRead c then 1 else 0)) mod 2 ^ 64
  /\ (storage.FailedWrites s' + storage.SuccessfulWrites s') mod 2 ^ 64
     = (storage.FailedWrites s + storage.SuccessfulWrites s
        + (if storage.isWrite c then 1 else 0)) mod 2 ^ 64.
Proof.
  destruct c as [index | bytes index |]; simpl.
  - unfold storage.ReadSector.
    destruct (storage.volumeData.ReadAt _ _ _) as [[d got] [e |]]; simpl;
      rewrite ?N.add_0_r; (split; [| reflexivity]).
    + apply add64_one_sum.
    + rewrite N.add_comm, add64_one_sum. f_equal. lia.
  - unfold storage.WriteSector.
    destruct (storage.volumeData.WriteAt _ _ _) as [d [e |]]; simpl;
      rewrite ?N.add_0_r; (split; [reflexivity |]).
    + apply add64_one_sum.
    + rewrite N.add_comm, add64_one_sum. f_equal. lia.
  - unfold storage.Sync.
    destruct (storage.volumeData.Sync _) as [d [e |]]; simpl;
      rewrite ?N.add_0_r; split; reflexivity.
Qed.

Lemma Sync_counters {E D : Type} {file : storage.volumeData.ops E D}
      (v : storage.volume E D) :
  storage.counters (storage.stats (fst (storage.Sync v)))
  = storage.counters (storage.stats v)
  /\ storage.Available (storage.stats (fst (storage.Sync v)))
     = storage.Available (storage.stats v).
Proof.
  unfold storage.Sync.
  destruct (storage.volumeData.Sync _) as [d [e |]]; simpl; split; reflexivity.
Qed.

(** X19.  What each call does to the four counters, and what a sequence of
    calls adds up to.  [Sync] changes no counter (nor [Available]), whether
    the file's sync fails or not, and so does any number of syncs in a row.
    [ReadSector] adds one (modulo [2^64]) to [FailedReads] when the file's
    read fails and to [SuccessfulReads] otherwise, and leaves the other
    three counters alone; [WriteSector] does the same with the write
    counters.  Over any sequence of calls, failed plus successful reads
    grow by the number of reads and failed plus successful writes by the
    number of writes, modulo [2^64]. *)
Theorem volume_counters {E D : Type} {file : storage.volumeData.ops E D}
        (v : storage.volume E D) (calls : list storage.call) :
  let s := storage.stats v in
  let s' := storage.stats (storage.run v calls) in
  ((storage.FailedReads s' + storage.SuccessfulReads s') mod 2 ^ 64
   = (storage.FailedReads s + storage.SuccessfulReads s
      + N.of_nat (length (filter storage.isRead calls))) mod 2 ^ 64
   /\ (storage.FailedWrites s' + storage.SuccessfulWrites s') mod 2 ^ 64
      = (storage.FailedWrites s + storage.SuccessfulWrites s
         + N.of_nat (length (filter storage.isWrite calls))) mod 2 ^ 64)
  /\ (storage.counters (storage.stats (fst (storage.Sync v))) = storage.counters s
      /\ storage.Available (storage.stats (fst (storage.Sync v))) = storage.Available s)
  /\ (forall n : nat,
        storage.counters (storage.stats (storage.run v (repeat storage.CallSync n)))
        = storage.counters s)
  /\ (forall index : uint64,
        storage.counters (storage.stats (fst (storage.ReadSector v index)))
        = match snd (snd (storage.ReadSector v index)) with
          | Some _ =>
              (add64 (storage.FailedReads s) 1, storage.FailedWrites s,
               storage.SuccessfulReads s, storage.SuccessfulWrites s)
          | None =>
              (storage.FailedReads s, storage.FailedWrites s,
               add64 (storage.SuccessfulReads s) 1, storage.SuccessfulWrites s)
          end)
  /\ (forall (bytes : list Byte.byte) (index : uint64),
        storage.counters (storage.stats (fst (storage.WriteSector v bytes index)))
        = match snd (storage.WriteSector v bytes index) with
          | Some _ =>
              (storage.FailedReads s, add64 (storage.FailedWrites s) 1,
               storage.SuccessfulReads s, storage.SuccessfulWrites s)
          | None =>
              (storage.FailedReads s, storage.FailedWrites s,
               storage.SuccessfulReads s, add64 (storage.SuccessfulWrites s) 1)
          end).
Proof.
  cbn zeta. split; [| split; [| split; [| split]]].
  - revert v. induction calls as [| c calls IH]; intros v.
    + simpl. rewrite !N.add_0_r. split; reflexivity.
    + simpl storage.run. destruct (IH (storage.after v c)) as [Hr Hw].
      destruct (after_counters v c) as [Hr1 Hw1]. cbn zeta in *.
      rewrite Hr, Hw. split.
      * rewrite <- N.Div0.add_mod_idemp_l, Hr1, N.Div0.add_mod_idemp_l.
        f_equal. simpl. destruct (storage.isRead c); simpl length; lia.
      * rewrite <- N.Div0.add_mod_idemp_l, Hw1, N.Div0.add_mod_idemp_l.
        f_equal. simpl. destruct (storage.isWrite c); simpl length; lia.
  - apply Sync_counters.
  - intros n. revert v. induction n as [| n IH]; intros v; [reflexivity |].
    change (storage.run v (repeat storage.CallSync (S n)))
      with (storage.run (fst (storage.Sync v)) (repeat storage.CallSync n)).
    rewrite IH. apply Sync_counters.
  - intros index. unfold storage.ReadSector.
    destruct (storage.volumeData.ReadAt _ _ _) as [[d got] [e |]]; reflexivity.
  - intros bytes index. unfold storage.WriteSector.
    destruct (storage.volumeData.WriteAt _ _ _) as [d [e |]]; reflexivity.
Qed.

(** X20.  The byte offset of a sector is [index * sectorSize] only for an
    index below [2^41]: the product is reduced modulo [2^64] and read as a
    signed number, so the offset depends on the index modulo [2^42] only
    (indices [2^42] apart address the same bytes) and is negative when
    that remainder is [2^41] or more. *)
Theorem sectorOffset_wraps (index : uint64) :
  storage.sectorOffset index = storage.sectorOffset (index mod 2 ^ 42)
  /\ (index < 2 ^ 41 ->
      storage.sectorOffset index = Z.of_N (index * storage.sectorSize))
  /\ (2 ^ 41 <= index mod 2 ^ 42 -> (storage.sectorOffset index < 0)%Z).
Proof.
  assert (forall i, storage.mul64 i storage.sectorSize = (i mod 2 ^ 42) * 2 ^ 22) as Hmul.
  { intros i. unfold storage.mul64, storage.sectorSize.
    change (2 ^ 64) with (2 ^ 42 * 2 ^ 22).
    apply N.Div0.mul_mod_distr_r. }
  unfold storage.sectorOffset. rewrite !Hmul. repeat split.
  - rewrite N.Div0.mod_mod. reflexivity.
  - intros H. rewrite N.mod_small by lia.
    unfold storage.int64, storage.sectorSize.
    assert ((index * 2 ^ 22 <? 2 ^ 63) = true) as -> by (apply N.ltb_lt; lia).
    reflexivity.
  - intros H. unfold storage.int64.
    assert (index mod 2 ^ 42 < 2 ^ 42) as Hlt by (apply N.mod_lt; discriminate).
    assert ((index mod 2 ^ 42 * 2 ^ 22 <? 2 ^ 63) = false) as ->
        by (apply N.ltb_ge; lia).
    lia.
Qed.

(** ** The further properties on the sample data *)

Lemma validateStdRevision_trans_witness :
  validateStdRevision Samples.unlockHash Samples.current Samples.paid = Ok tt
  /\ validateStdRevision Samples.unlockHash Samples.paid Cases.paidTwice = Ok tt
  /\ validateStdRevision Samples.unlockHash Samples.current Cases.paidTwice = Ok tt.
Proof.
  split; [reflexivity |]. split; [reflexivity |].
  exact (validateStdRevision_trans Samples.unlockHash Samples.current Samples.paid
           Cases.paidTwice eq_refl eq_refl).
Defined.

Lemma validateStdRevision_error_witness :
  validateStdRevision Samples.unlockHash Samples.current Cases.shorter
  = Err ErrValidOutputsChanged
  /\ (length (ValidProofOutputs Cases.shorter)
      < length (ValidProofOutputs Samples.current))%nat.
Proof.
  split; [reflexivity |].
  exact (validateStdRevision_error Samples.unlockHash Samples.current Cases.shorter
           ErrValidOutputsChanged eq_refl).
Defined.

Lemma Revise_validateStdRevision_witness :
  Revise Samples.current 2 [90; 60] [90; 60; 0] = Ok Samples.paid
  /\ validateStdRevision Samples.unlockHash Samples.current Samples.paid = Ok tt
  /\ sumCurrencies [90; 60] = sumValues (ValidProofOutputs Samples.current)
  /\ sumCurrencies [90; 60; 0] = sumValues (ValidProofOutputs Samples.current).
Proof.
  assert (validateStdRevision Samples.unlockHash Samples.current Samples.paid = Ok tt)
    as Hstd by reflexivity.
  split; [reflexivity |]. split; [exact Hstd |].
  destruct (proj1 (Revise_validateStdRevision Samples.unlockHash Samples.current
                     Samples.paid 2 [90; 60] [90; 60; 0] eq_refl) Hstd)
    as (_ & Hv & Hm & _).
  exact (conj Hv Hm).
Defined.

Lemma ClearingRevision_validated_witness :
  ClearingRevision Samples.current [100; 50] = inr (Ok Samples.cleared)
  /\ ValidateClearingRevision Samples.unlockHash Samples.current Samples.cleared = Ok tt.
Proof.
  split; [reflexivity |].
  exact (proj2 (proj1 (ClearingRevision_validated Samples.unlockHash Samples.current
                         Samples.cleared [100; 50] eq_refl)) eq_refl).
Defined.

Lemma general_revision_accepted_witness :
  wfContract Samples.current = true
  /\ wfContract Cases.transferred = true
  /\ ValidateRevision Samples.unlockHash Samples.current Cases.transferred 10 5
     = Ok (10, 5)
  /\ exists currentRenter revisionRenter currentHost revisionHost
            currentMissedHost revisionMissedHost,
       valueAt (ValidProofOutputs Samples.current) 0 = Some currentRenter
       /\ valueAt (ValidProofOutputs Cases.transferred) 0 = Some revisionRenter
       /\ valueAt (ValidProofOutputs Samples.current) 1 = Some currentHost
       /\ valueAt (ValidProofOutputs Cases.transferred) 1 = Some revisionHost
       /\ valueAt (MissedProofOutputs Samples.current) 1 = Some currentMissedHost
       /\ valueAt (MissedProofOutputs Cases.transferred) 1 = Some revisionMissedHost
       /\ revisionRenter + 10 = currentRenter
       /\ currentHost + 10 = revisionHost
       /\ revisionMissedHost + 5 = currentMissedHost.
Proof.
  split; [reflexivity |]. split; [reflexivity |]. split; [reflexivity |].
  destruct (general_revision_accepted Samples.unlockHash Samples.current Cases.transferred
              10 5 10 5 eq_refl eq_refl eq_refl)
    as (a & b & c & d & e & f & g & H1 & H2 & H3 & H4 & _ & H6 & H7 & _ & _ & _
        & H11 & H12 & _ & H14 & _).
  exists a, b, c, d, f, g.
  exact (conj H1 (conj H2 (conj H3 (conj H4 (conj H6 (conj H7
           (conj H11 (conj H12 H14)))))))).
Defined.

Lemma program_revision_is_general_witness :
  wfContract Samples.current = true
  /\ wfContract Samples.burnt = true
  /\ ValidateProgramRevision Samples.unlockHash Samples.current Samples.burnt 3 5 = Ok 5
  /\ ValidateRevision Samples.unlockHash Samples.current Samples.burnt 0 5 = Ok (0, 5).
Proof.
  split; [reflexivity |]. split; [reflexivity |]. split; [reflexivity |].
  exact (program_revision_is_general Samples.unlockHash Samples.current Samples.burnt
           3 5 5 eq_refl eq_refl eq_refl).
Defined.

Lemma payment_revision_not_general_witness :
  wfContract Samples.current = true
  /\ 0 < 10
  /\ ValidatePaymentRevision Samples.unlockHash Samples.current Samples.paid 10 = Ok tt
  /\ accepts Samples.unlockHash (General 10 0) Samples.current Samples.paid = false.
Proof.
  split; [reflexivity |]. split; [reflexivity |]. split; [reflexivity |].
  destruct (accepts Samples.unlockHash (General 10 0) Samples.current Samples.paid) eqn:E;
    [| reflexivity].
  discriminate (payment_revision_not_general Samples.unlockHash Samples.current
                  Samples.paid 10 eq_refl eq_refl eq_refl (General 10 0) E).
Defined.

Lemma formation_accepted_sound_witness :
  wfContract Samples.formed = true
  /\ ValidateContractFormation Samples.unlockHash Samples.formed Samples.hostKey
                               Samples.renterKey 0 Samples.settings = Ok 40
  /\ length (ValidProofOutputs Samples.formed) = 2%nat
  /\ length (MissedProofOutputs Samples.formed) = 3%nat.
Proof.
  split; [reflexivity |]. split; [reflexivity |].
  destruct (formation_accepted_sound Samples.unlockHash Samples.formed Samples.hostKey
              Samples.renterKey 0 Samples.settings 40 eq_refl eq_refl)
    as (_ & _ & _ & _ & _ & _ & Hv & Hm & _).
  exact (conj Hv Hm).
Defined.

Lemma renewal_accepted_sound_witness :
  wfContract Samples.renewal = true
  /\ ValidateContractRenewal Samples.current Samples.renewal Samples.hostKey
                             Samples.renterKey 3 5 0 Samples.settings
     = Ok (3, 2, 47)
  /\ 2 <= 5 /\ 2 <= 47 /\ 47 <= rhpv2.MaxCollateral Samples.settings.
Proof.
  split; [reflexivity |]. split; [reflexivity |].
  destruct (renewal_accepted_sound Samples.current Samples.renewal Samples.hostKey
              Samples.renterKey 3 5 0 Samples.settings 3 2 47 eq_refl eq_refl)
    as (_ & _ & _ & _ & _ & _ & _ & _ & _ & _ & _ & H1 & H2 & H3).
  exact (conj H1 (conj H2 H3)).
Defined.

Lemma std_and_clearing_exclusive_witness :
  length (ValidProofOutputs Samples.current) <> length (MissedProofOutputs Samples.current)
  /\ validateStdRevision Samples.unlockHash Samples.current Samples.paid = Ok tt
  /\ ValidateClearingRevision Samples.unlockHash Samples.current Samples.paid <> Ok tt.
Proof.
  assert (length (ValidProofOutputs Samples.current)
          <> length (MissedProofOutputs Samples.current)) as H by discriminate.
  split; [exact H |]. split; [reflexivity |].
  exact (std_and_clearing_exclusive Samples.unlockHash Samples.current Samples.paid
           H eq_refl).
Defined.

Lemma locked_is_terminal_witness :
  RevisionNumber Samples.locked = MaxRevisionNumber
  /\ ClearingRevision Samples.locked [100; 50] = inl ErrContractLocked
  /\ exists e, Revise Samples.locked MaxUint64 [100; 50] [100; 50] = Err e.
Proof.
  split; [reflexivity |].
  destruct (locked_is_terminal Samples.unlockHash Samples.locked eq_refl)
    as (_ & Hrevise & Hclear).
  split; [exact (Hclear [100; 50]) |].
  apply Hrevise. apply N.le_refl.
Defined.

Lemma volume_errors_bounded_witness :
  (length (storage.Errors (storage.stats storage.emptyVolume)) <= 100)%nat
  /\ (length (storage.Errors
                (storage.stats
                   (storage.run storage.emptyVolume
                      [storage.CallRead 1%N; storage.CallWrite [] 2%N; storage.CallSync])))
      <= 100)%nat.
Proof.
  assert (length (storage.Errors (storage.stats storage.emptyVolume)) <= 100)%nat
    as H by (simpl; lia).
  split; [exact H |].
  exact (volume_errors_bounded storage.emptyVolume
           [storage.CallRead 1; storage.CallWrite [] 2; storage.CallSync] H).
Defined.

Lemma validateStdRevision_abort_witness :
  validateStdRevision Samples.unlockHash Samples.overflowing Samples.paid = Panic Overflow
  /\ (CurrencyRange <= sumValues (ValidProofOutputs Samples.overflowing)
      \/ CurrencyRange <= sumValues (ValidProofOutputs Samples.paid)
      \/ CurrencyRange <= sumValues (MissedProofOutputs Samples.paid)).
Proof.
  split; [reflexivity |].
  exact (validateStdRevision_abort Samples.unlockHash Samples.overflowing Samples.paid
           Overflow eq_refl).
Defined.

Lemma renewal_abort_witness :
  ValidateContractRenewal Samples.current Samples.renewal Samples.hostKey
                          Samples.renterKey (2 ^ 128 - 1) 1 0 Samples.settings
  = Panic Overflow
  /\ CurrencyRange <= 2 ^ 128 - 1 + 1.
Proof.
  split; [reflexivity |].
  exact (proj2 (renewal_abort Samples.current Samples.renewal Samples.hostKey
                  Samples.renterKey (2 ^ 128 - 1) 1 0 Samples.settings Overflow eq_refl)).
Defined.

Lemma payment_above_payout_aborts_witness :
  validateStdRevision Samples.unlockHash Samples.current Samples.paid = Ok tt
  /\ valueAt (ValidProofOutputs Samples.current) 0 = Some 100
  /\ 100 < 101
  /\ ValidatePaymentRevision Samples.unlockHash Samples.current Samples.paid 101
     = Panic Underflow.
Proof.
  split; [reflexivity |]. split; [reflexivity |]. split; [reflexivity |].
  exact (payment_above_payout_aborts Samples.unlockHash Samples.current Samples.paid
           101 100 eq_refl eq_refl eq_refl).
Defined.

Lemma payment_revision_iff_witness :
  wfContract Samples.current = true
  /\ ValidatePaymentRevision Samples.unlockHash Samples.current Samples.paid 10 = Ok tt
  /\ validateStdRevision Samples.unlockHash Samples.current Samples.paid = Ok tt.
Proof.
  split; [reflexivity |]. split; [reflexivity |].
  exact (proj1 (proj1 (payment_revision_iff Samples.unlockHash Samples.current
                         Samples.paid 10 eq_refl) eq_refl)).
Defined.
